(** * Paginated list controllers of the lead-manager frontend

    Shallow embedding of the two paginated list pages found in
    [src/app/(protected)/appointments/page.tsx]:

    - [AppointmentsPage] (lines 39-525): status filter, pagination, no
      request token;
    - [SellersPage] (lines 1052-1567): debounced search, pagination and the
      [latestRequestRef] request token.

    JavaScript numbers that hold counters, page numbers and totals are
    modelled as [Z]; the one real-valued expression of the code,
    [Math.ceil(total / PAGE_SIZE)], is modelled over [Q].

    A React render is modelled by the [State] record it closes over: a
    handler reads the state of the render that created it (its closure)
    and writes through the setters to the current state.  An [async]
    function is split at its [await]: the first half files the suspended
    call in the [World], the second half runs when the environment settles
    it, in any order.  All updates of one event are batched into one
    render, after which the effects whose dependencies changed run
    ([debounceEffect]).  Time advances by [Tick] events of one unit. *)

From Stdlib Require Import ZArith QArith Qround List Bool Ascii Lia.
From stdpp Require Import base option strings list gmap.

Local Open Scope Z_scope.

(* ===================================================================== *)
(** ** Pagination arithmetic (lines 61-66 and 1077-1082)                  *)
(* ===================================================================== *)

Module Pagination.
Section WithPageSize.

Variable PAGE_SIZE : Z.

(** [Math.ceil(total / PAGE_SIZE)]: real division, then ceiling. *)
Definition Math_ceil_div (total : Z) : Z :=
  Qceiling (inject_Z total / inject_Z PAGE_SIZE)%Q.

(** [useMemo(() => Math.max(1, Math.ceil(total / PAGE_SIZE)), [total])] *)
Definition totalPages (total : Z) : Z :=
  Z.max 1 (Math_ceil_div total).

(** [Math.min(currentPage, totalPages)] *)
Definition effectivePage (currentPage total : Z) : Z :=
  Z.min currentPage (totalPages total).

(** [total === 0 ? 0 : (effectivePage - 1) * PAGE_SIZE + 1] *)
Definition showingFrom (currentPage total : Z) : Z :=
  if total =? 0 then 0
  else (effectivePage currentPage total - 1) * PAGE_SIZE + 1.

(** [total === 0 ? 0 : Math.min(effectivePage * PAGE_SIZE, total)] *)
Definition showingTo (currentPage total : Z) : Z :=
  if total =? 0 then 0
  else Z.min (effectivePage currentPage total * PAGE_SIZE) total.

(** [effectivePage > 1] *)
Definition canGoPrevious (currentPage total : Z) : bool :=
  1 <? effectivePage currentPage total.

(** [effectivePage < totalPages && total > 0] *)
Definition canGoNext (currentPage total : Z) : bool :=
  (effectivePage currentPage total <? totalPages total) && (0 <? total).

(** The page label of the footer: [total > 0 ? effectivePage : 1]. *)
Definition displayedPage (currentPage total : Z) : Z :=
  if 0 <? total then effectivePage currentPage total else 1.

End WithPageSize.
End Pagination.

(** The page count as the specification words it, with the ceiling of the
    ratio written as an integer division rounded up. *)
Definition spec_ceil_ratio (totalCount pageSize : Z) : Z :=
  (totalCount + pageSize - 1) / pageSize.

Definition spec_totalPages (totalCount pageSize : Z) : Z :=
  Z.max 1 (spec_ceil_ratio totalCount pageSize).

(* ===================================================================== *)
(** ** SellersPage (lines 1052-1567)                                      *)
(* ===================================================================== *)

Module Sellers.

Definition PAGE_SIZE : Z := 50.

(** Delay of the search debounce [setTimeout(..., 300)]. *)
Definition DEBOUNCE_DELAY : Z := 300.

(** [Seller] comes from [../../../types]; the controller logic only
    moves sellers around, the fields below identify one. *)
Record Seller := mkSeller { seller_id : string; seller_name : string }.

(** [SellersResponse]; [page] is read as [response.data.page ?? pageToFetch],
    so it may be absent. *)
Record SellersResponse := mkResponse {
  resp_data : list Seller;
  resp_total : Z;
  resp_page : option Z;
  resp_limit : Z }.

(** The [useState] cells of the component (the seven text fields of
    [formState] only feed the payload of the save call and are left out). *)
Record State := mkState {
  sellers : list Seller;
  total : Z;
  currentPage : Z;
  search : string;
  lastFetchedSearch : string;
  isLoading : bool;
  error : option string;
  isModalOpen : bool;
  editingSellerId : option string;
  sellerPendingDeletion : option Seller;
  isDeleting : bool }.

Definition initialState : State :=
  mkState [] 0 1 "" "" true None false None None false.

Definition setSellers v (s : State) : State :=
  mkState v (total s) (currentPage s) (search s) (lastFetchedSearch s)
    (isLoading s) (error s) (isModalOpen s) (editingSellerId s)
    (sellerPendingDeletion s) (isDeleting s).
Definition setTotal v (s : State) : State :=
  mkState (sellers s) v (currentPage s) (search s) (lastFetchedSearch s)
    (isLoading s) (error s) (isModalOpen s) (editingSellerId s)
    (sellerPendingDeletion s) (isDeleting s).
Definition setCurrentPage v (s : State) : State :=
  mkState (sellers s) (total s) v (search s) (lastFetchedSearch s)
    (isLoading s) (error s) (isModalOpen s) (editingSellerId s)
    (sellerPendingDeletion s) (isDeleting s).
Definition setSearch v (s : State) : State :=
  mkState (sellers s) (total s) (currentPage s) v (lastFetchedSearch s)
    (isLoading s) (error s) (isModalOpen s) (editingSellerId s)
    (sellerPendingDeletion s) (isDeleting s).
Definition setLastFetchedSearch v (s : State) : State :=
  mkState (sellers s) (total s) (currentPage s) (search s) v
    (isLoading s) (error s) (isModalOpen s) (editingSellerId s)
    (sellerPendingDeletion s) (isDeleting s).
Definition setIsLoading v (s : State) : State :=
  mkState (sellers s) (total s) (currentPage s) (search s) (lastFetchedSearch s)
    v (error s) (isModalOpen s) (editingSellerId s)
    (sellerPendingDeletion s) (isDeleting s).
Definition setError v (s : State) : State :=
  mkState (sellers s) (total s) (currentPage s) (search s) (lastFetchedSearch s)
    (isLoading s) v (isModalOpen s) (editingSellerId s)
    (sellerPendingDeletion s) (isDeleting s).
Definition setIsModalOpen v (s : State) : State :=
  mkState (sellers s) (total s) (currentPage s) (search s) (lastFetchedSearch s)
    (isLoading s) (error s) v (editingSellerId s)
    (sellerPendingDeletion s) (isDeleting s).
Definition setEditingSellerId v (s : State) : State :=
  mkState (sellers s) (total s) (currentPage s) (search s) (lastFetchedSearch s)
    (isLoading s) (error s) (isModalOpen s) v
    (sellerPendingDeletion s) (isDeleting s).
Definition setSellerPendingDeletion v (s : State) : State :=
  mkState (sellers s) (total s) (currentPage s) (search s) (lastFetchedSearch s)
    (isLoading s) (error s) (isModalOpen s) (editingSellerId s)
    v (isDeleting s).
Definition setIsDeleting v (s : State) : State :=
  mkState (sellers s) (total s) (currentPage s) (search s) (lastFetchedSearch s)
    (isLoading s) (error s) (isModalOpen s) (editingSellerId s)
    (sellerPendingDeletion s) v.

(** Values derived during a render (lines 1076-1083). *)
Definition isSearchDirty (s : State) : bool :=
  negb (String.eqb (search s) (lastFetchedSearch s)).
Definition totalPages (s : State) : Z :=
  Pagination.totalPages PAGE_SIZE (total s).
Definition effectivePage (s : State) : Z :=
  Pagination.effectivePage PAGE_SIZE (currentPage s) (total s).
Definition showingFrom (s : State) : Z :=
  Pagination.showingFrom PAGE_SIZE (currentPage s) (total s).
Definition showingTo (s : State) : Z :=
  Pagination.showingTo PAGE_SIZE (currentPage s) (total s).
Definition canGoPrevious (s : State) : bool :=
  Pagination.canGoPrevious PAGE_SIZE (currentPage s) (total s).
Definition canGoNext (s : State) : bool :=
  Pagination.canGoNext PAGE_SIZE (currentPage s) (total s).
Definition displayedPage (s : State) : Z :=
  Pagination.displayedPage PAGE_SIZE (currentPage s) (total s).
Definition hasFilters (s : State) : bool :=
  negb (String.eqb (lastFetchedSearch s) "").

(** The argument of [fetchSellers]. *)
Record FetchOptions := mkOptions {
  opt_page : option Z;
  opt_searchTerm : option string }.

(** Query parameters handed to [api.get('/sellers', { params })]. *)
Record Params := mkParams {
  param_page : Z;
  param_limit : Z;
  param_search : option string }.

(** Who awaits a [fetchSellers] promise: nobody, [handleSubmit] (nothing
    follows its [await]) or [handleConfirmDeleteSeller] (its [finally]
    clears [isDeleting] once the promise settles). *)
Inductive Awaiter := NotAwaited | AwaitedBySubmit | AwaitedByDelete.

(** A [fetchSellers] call suspended at its [await]: the locals it
    resumes with, besides its [requestId], under which it is filed in
    [inflight]. *)
Record Request := mkRequest {
  pageToFetch : Z;
  searchTerm : string;
  previousPage : Z;
  awaiter : Awaiter }.

(** A save or delete call suspended at its [await], with the render it
    closes over. *)
Inductive MutationCall :=
| SubmitCall (closure : State)
| DeleteCall (closure : State).

(** The timer armed by the debounce effect, with the render whose effect
    armed it. *)
Record Timer := mkTimer { deadline : Z; timer_closure : State }.

(** The component instance: state cells, refs, the clock, the pending
    timer, the suspended calls and the list of fetch requests sent so
    far (most recent first). *)
Record World := mkWorld {
  st : State;
  latestRequestRef : Z;
  hasFetchedInitial : bool;
  now : Z;
  debounceTimer : option Timer;
  inflight : gmap Z Request;
  mutations : list MutationCall;
  sent : list Params }.

Definition initialWorld : World :=
  mkWorld initialState 0 false 0 None ∅ [] [].

Definition withState (f : State -> State) (w : World) : World :=
  mkWorld (f (st w)) (latestRequestRef w) (hasFetchedInitial w) (now w)
    (debounceTimer w) (inflight w) (mutations w) (sent w).

(** JavaScript truthiness of a [string | null]. *)
Definition truthy (o : option string) : bool :=
  match o with
  | Some s => negb (String.eqb s "")
  | None => false
  end.

(** [searchTerm || undefined] *)
Definition orUndefined (s : string) : option string :=
  if String.eqb s "" then None else Some s.

(** [fetchSellers] up to its [await] (lines 1086-1106), called from the
    render [cl]. *)
Definition fetchSellers (cl : State) (options : option FetchOptions)
    (aw : Awaiter) (w : World) : World :=
  let pageToFetch := default (currentPage cl) (options ≫= opt_page) in
  let searchTerm := default (lastFetchedSearch cl) (options ≫= opt_searchTerm) in
  let previousPage := currentPage cl in
  let s1 := if pageToFetch =? currentPage cl then st w
            else setCurrentPage pageToFetch (st w) in
  let requestId := latestRequestRef w + 1 in
  let s2 := setError None (setIsLoading true s1) in
  mkWorld s2 requestId (hasFetchedInitial w) (now w) (debounceTimer w)
    (<[requestId := mkRequest pageToFetch searchTerm previousPage aw]>
       (inflight w))
    (mutations w)
    (mkParams pageToFetch PAGE_SIZE (orUndefined searchTerm) :: sent w).

Inductive Outcome :=
| Resolved (response : SellersResponse)
| Rejected.

Definition fetchErrorMessage : string := "Nao foi possivel carregar os vendedores.".
Definition saveErrorMessage : string := "Erro ao salvar vendedor.".
Definition deleteErrorMessage : string := "Erro ao remover vendedor.".

(** [fetchSellers] from its [await] on (lines 1108-1128). *)
Definition fetchSellers_resume (requestId : Z) (rq : Request) (o : Outcome)
    (w : World) : World :=
  let stale := negb (requestId =? latestRequestRef w) in
  let body (s : State) : State :=
    match o with
    | Resolved response =>
        if stale then s
        else setLastFetchedSearch (searchTerm rq)
               (setCurrentPage (default (pageToFetch rq) (resp_page response))
                  (setTotal (resp_total response)
                     (setSellers (resp_data response) s)))
    | Rejected =>
        if stale then s
        else
          let s' := setError (Some fetchErrorMessage) s in
          if pageToFetch rq =? previousPage rq then s'
          else setCurrentPage (previousPage rq) s'
    end in
  let finally (s : State) : State :=
    if stale then s else setIsLoading false s in
  withState (fun s => finally (body s)) w.

(** What the awaiting handler does once the promise has settled. *)
Definition awaiter_resume (aw : Awaiter) (w : World) : World :=
  match aw with
  | AwaitedByDelete => withState (setIsDeleting false) w
  | AwaitedBySubmit | NotAwaited => w
  end.

(** [handleSearchChange] (lines 1152-1156): [setSearch(value)],
    [setError(null)], [setIsLoading(true)]. *)
Definition typed (value : string) (s : State) : State :=
  setIsLoading true (setError None (setSearch value s)).

Definition handleSearchChange (value : string) (w : World) : World :=
  withState (typed value) w.

Definition appliedOrPendingSearch (cl : State) : string :=
  if isSearchDirty cl then search cl else lastFetchedSearch cl.

(** [handlePageChange] (lines 1158-1166). *)
Definition handlePageChange (cl : State) (page : Z) (w : World) : World :=
  if (page <? 1) || (totalPages cl <? page) || (page =? currentPage cl)
     || isLoading cl
  then w
  else fetchSellers cl
         (Some (mkOptions (Some page) (Some (appliedOrPendingSearch cl))))
         NotAwaited w.

Definition handlePreviousPage (cl : State) (w : World) : World :=
  if negb (canGoPrevious cl) then w
  else handlePageChange cl (currentPage cl - 1) w.

Definition handleNextPage (cl : State) (w : World) : World :=
  if negb (canGoNext cl) then w
  else handlePageChange cl (currentPage cl + 1) w.

(** [onKeyDown] with Enter on the search input (lines 1309-1317). *)
Definition handleSearchEnter (cl : State) (w : World) : World :=
  fetchSellers cl (Some (mkOptions (Some 1) (Some (search cl)))) NotAwaited w.

(** The [Atualizar] button (lines 1320-1330). *)
Definition handleRefresh (cl : State) (w : World) : World :=
  fetchSellers cl
    (Some (mkOptions (Some 1) (Some (appliedOrPendingSearch cl))))
    NotAwaited w.

(** [openModal] (lines 1182-1207), without the form fields. *)
Definition openModal (seller : option Seller) (w : World) : World :=
  withState (fun s => setIsModalOpen true
                        (setEditingSellerId (seller_id <$> seller) s)) w.

Definition closeModal (w : World) : World :=
  withState (setIsModalOpen false) w.

Definition addMutation (c : MutationCall) (w : World) : World :=
  mkWorld (st w) (latestRequestRef w) (hasFetchedInitial w) (now w)
    (debounceTimer w) (inflight w) (mutations w ++ [c]) (sent w).

Definition dropMutation (i : nat) (w : World) : World :=
  mkWorld (st w) (latestRequestRef w) (hasFetchedInitial w) (now w)
    (debounceTimer w) (inflight w) (delete i (mutations w)) (sent w).

(** [handleSubmit] up to the [await] of the save call (lines 1209-1238). *)
Definition handleSubmit (cl : State) (w : World) : World :=
  addMutation (SubmitCall cl) (withState (setError None) w).

(** [handleSubmit] after the save call settled (lines 1239-1247). *)
Definition handleSubmit_resume (cl : State) (ok : bool) (w : World) : World :=
  if ok then
    fetchSellers cl
      (Some (mkOptions
               (Some (if truthy (editingSellerId cl) then currentPage cl else 1))
               (Some (appliedOrPendingSearch cl))))
      AwaitedBySubmit
      (withState (setIsModalOpen false) w)
  else withState (setError (Some saveErrorMessage)) w.

(** [requestDeleteSeller] (lines 1250-1252). *)
Definition requestDeleteSeller (seller : Seller) (w : World) : World :=
  withState (setSellerPendingDeletion (Some seller)) w.

(** [handleConfirmDeleteSeller] up to the [await] of the delete call
    (lines 1254-1261). *)
Definition handleConfirmDeleteSeller (cl : State) (w : World) : World :=
  match sellerPendingDeletion cl with
  | None => w
  | Some _ =>
      addMutation (DeleteCall cl)
        (withState (fun s => setError None (setIsDeleting true s)) w)
  end.

(** [handleConfirmDeleteSeller] after the delete call settled
    (lines 1262-1272); on success its [finally] runs when the re-fetch
    settles, see [awaiter_resume]. *)
Definition handleConfirmDeleteSeller_resume (cl : State) (ok : bool)
    (w : World) : World :=
  if ok then
    fetchSellers cl
      (Some (mkOptions (Some (currentPage cl))
               (Some (appliedOrPendingSearch cl))))
      AwaitedByDelete
      (withState (setSellerPendingDeletion None) w)
  else
    withState (fun s => setIsDeleting false
                          (setError (Some deleteErrorMessage) s)) w.

(** [handleCancelDeleteSeller] (lines 1275-1280). *)
Definition handleCancelDeleteSeller (cl : State) (w : World) : World :=
  if isDeleting cl then w
  else withState (setSellerPendingDeletion None) w.

(** The mount effect (lines 1133-1139). *)
Definition mountEffect (cl : State) (w : World) : World :=
  if hasFetchedInitial w then w
  else
    fetchSellers cl None NotAwaited
      (mkWorld (st w) (latestRequestRef w) true (now w) (debounceTimer w)
         (inflight w) (mutations w) (sent w)).

Definition setDebounceTimer (t : option Timer) (w : World) : World :=
  mkWorld (st w) (latestRequestRef w) (hasFetchedInitial w) (now w)
    t (inflight w) (mutations w) (sent w).

(** The dependency lists: [fetchSellers] is rebuilt by [useCallback] when
    [currentPage] or [lastFetchedSearch] change, and the debounce effect
    depends on [[fetchSellers, isSearchDirty, search]]. *)
Definition sameDebounceDeps (a b : State) : bool :=
  ((currentPage a =? currentPage b)
   && String.eqb (lastFetchedSearch a) (lastFetchedSearch b))
  && Bool.eqb (isSearchDirty a) (isSearchDirty b)
  && String.eqb (search a) (search b).

(** The debounce effect (lines 1141-1150) after a render: when a
    dependency changed since the render [before], the clean-up of the
    previous run clears its timer and the body runs again. *)
Definition debounceEffect (before : State) (w : World) : World :=
  if sameDebounceDeps before (st w) then w
  else if isSearchDirty (st w)
       then setDebounceTimer
              (Some (mkTimer (now w + DEBOUNCE_DELAY) (st w))) w
       else setDebounceTimer None w.

(** The callback of the debounce timer (line 1146). *)
Definition debounceCallback (cl : State) (w : World) : World :=
  fetchSellers cl (Some (mkOptions (Some 1) (Some (search cl)))) NotAwaited w.

(** One unit of time passes; a timer that is due fires. *)
Definition tick (w : World) : World :=
  let w1 := mkWorld (st w) (latestRequestRef w) (hasFetchedInitial w)
              (now w + 1) (debounceTimer w) (inflight w) (mutations w)
              (sent w) in
  match debounceTimer w1 with
  | Some t =>
      if deadline t <=? now w1
      then debounceCallback (timer_closure t) (setDebounceTimer None w1)
      else w1
  | None => w1
  end.

(** A fetch promise settles: the suspended call resumes, then its
    awaiter. *)
Definition settleFetch (id : Z) (o : Outcome) (w : World) : World :=
  match inflight w !! id with
  | None => w
  | Some rq =>
      awaiter_resume (awaiter rq)
        (fetchSellers_resume id rq o
           (mkWorld (st w) (latestRequestRef w) (hasFetchedInitial w) (now w)
              (debounceTimer w) (delete id (inflight w)) (mutations w)
              (sent w)))
  end.

(** A save or delete promise settles. *)
Definition settleMutation (i : nat) (ok : bool) (w : World) : World :=
  match mutations w !! i with
  | None => w
  | Some (SubmitCall cl) => handleSubmit_resume cl ok (dropMutation i w)
  | Some (DeleteCall cl) =>
      handleConfirmDeleteSeller_resume cl ok (dropMutation i w)
  end.

(** What can happen to the mounted component. *)
Inductive Event :=
| Mount
| SearchChange (value : string)
| SearchEnter
| Refresh
| PageChange (page : Z)
| PreviousPage
| NextPage
| OpenModal (seller : option Seller)
| CloseModal
| Submit
| RequestDelete (seller : Seller)
| ConfirmDelete
| CancelDelete
| Tick
| FetchSettled (id : Z) (o : Outcome)
| MutationSettled (i : nat) (ok : bool).

(** The handler of an event, run from the current render. *)
Definition handle (e : Event) (w : World) : World :=
  match e with
  | Mount => mountEffect (st w) w
  | SearchChange value => handleSearchChange value w
  | SearchEnter => handleSearchEnter (st w) w
  | Refresh => handleRefresh (st w) w
  | PageChange page => handlePageChange (st w) page w
  | PreviousPage => handlePreviousPage (st w) w
  | NextPage => handleNextPage (st w) w
  | OpenModal seller => openModal seller w
  | CloseModal => closeModal w
  | Submit => handleSubmit (st w) w
  | RequestDelete seller => requestDeleteSeller seller w
  | ConfirmDelete => handleConfirmDeleteSeller (st w) w
  | CancelDelete => handleCancelDeleteSeller (st w) w
  | Tick => tick w
  | FetchSettled id o => settleFetch id o w
  | MutationSettled i ok => settleMutation i ok w
  end.

(** An event, the render it causes and the effects of that render. *)
Definition step (w : World) (e : Event) : World :=
  debounceEffect (st w) (handle e w).

Definition run (w : World) (es : list Event) : World :=
  fold_left step es w.

(** The component [d] units of time later, nothing else having happened. *)
Definition later (d : Z) (w : World) : World :=
  mkWorld (st w) (latestRequestRef w) (hasFetchedInitial w) (now w + d)
    (debounceTimer w) (inflight w) (mutations w) (sent w).

(** [k] units of time pass. *)
Definition ticks (k : nat) : list Event := repeat Tick k.

(** A burst of typing: each entry is the time since the previous event
    and the new text of the search box. *)
Fixpoint typing (burst : list (nat * string)) : list Event :=
  match burst with
  | [] => []
  | (gap, value) :: rest => ticks gap ++ SearchChange value :: typing rest
  end.

(** Every change comes less than the debounce delay after the previous
    one and puts a new text in the box, which held [box]. *)
Fixpoint withinWindow (box : string) (burst : list (nat * string)) : Prop :=
  match burst with
  | [] => True
  | (gap, value) :: rest =>
      Z.of_nat gap < DEBOUNCE_DELAY /\ value <> box /\ withinWindow value rest
  end.

(** The text of the box after the burst. *)
Fixpoint lastTyped (box : string) (burst : list (nat * string)) : string :=
  match burst with
  | [] => box
  | (_, value) :: rest => lastTyped value rest
  end.

(** A response reports a page from 1 on, or none. *)
Definition pageFromOne (o : Outcome) : Prop :=
  match o with
  | Resolved response =>
      match resp_page response with
      | Some page => 1 <= page
      | None => True
      end
  | Rejected => True
  end.

Definition wellFormed (e : Event) : Prop :=
  match e with
  | FetchSettled _ o => pageFromOne o
  | _ => True
  end.

Definition closureOf (c : MutationCall) : State :=
  match c with
  | SubmitCall cl | DeleteCall cl => cl
  end.

(** Every page number the component holds, in its state or in a suspended
    call or timer, is at least 1. *)
Definition pagesFromOne (w : World) : Prop :=
  1 <= currentPage (st w) /\
  map_Forall (fun _ rq => 1 <= pageToFetch rq /\ 1 <= previousPage rq)
    (inflight w) /\
  Forall (fun c => 1 <= currentPage (closureOf c)) (mutations w) /\
  match debounceTimer w with
  | Some t => 1 <= currentPage (timer_closure t)
  | None => True
  end.

(** [w'] differs from [w] in nothing that a fetch writes: same token, same
    suspended fetches, same list, total, page and fetched search term. *)
Definition passive (w w' : World) : Prop :=
  latestRequestRef w' = latestRequestRef w /\
  inflight w' = inflight w /\
  sent w' = sent w /\
  sellers (st w') = sellers (st w) /\
  total (st w') = total (st w) /\
  currentPage (st w') = currentPage (st w) /\
  lastFetchedSearch (st w') = lastFetchedSearch (st w).

End Sellers.

(* ===================================================================== *)
(** ** AppointmentsPage (lines 39-525)                                    *)
(* ===================================================================== *)

Module Appointments.

Definition PAGE_SIZE : Z := 20.

(** [Appointment] comes from [../../../types]; the controller logic only
    moves appointments around. *)
Record Appointment := mkAppointment {
  appointment_id : string;
  appointment_status : string }.

(** [AppointmentsResponse]; [page] is read as
    [response.data.page ?? pageToFetch]. *)
Record AppointmentsResponse := mkResponse {
  resp_data : list Appointment;
  resp_total : Z;
  resp_page : option Z;
  resp_limit : Z }.

(** The [useState] cells of the list controller (the lead picker of the
    form, [leads], [leadSearch], [isLeadsLoading], and [formState] are a
    separate resource and are left out). *)
Record State := mkState {
  appointments : list Appointment;
  total : Z;
  currentPage : Z;
  selectedStatus : string;
  isLoading : bool;
  error : option string;
  isModalOpen : bool;
  editingAppointmentId : option string;
  appointmentPendingDeletion : option Appointment;
  isDeletingAppointment : bool }.

Definition initialState : State :=
  mkState [] 0 1 "" true None false None None false.

Definition setAppointments v (s : State) : State :=
  mkState v (total s) (currentPage s) (selectedStatus s) (isLoading s)
    (error s) (isModalOpen s) (editingAppointmentId s)
    (appointmentPendingDeletion s) (isDeletingAppointment s).
Definition setTotal v (s : State) : State :=
  mkState (appointments s) v (currentPage s) (selectedStatus s) (isLoading s)
    (error s) (isModalOpen s) (editingAppointmentId s)
    (appointmentPendingDeletion s) (isDeletingAppointment s).
Definition setCurrentPage v (s : State) : State :=
  mkState (appointments s) (total s) v (selectedStatus s) (isLoading s)
    (error s) (isModalOpen s) (editingAppointmentId s)
    (appointmentPendingDeletion s) (isDeletingAppointment s).
Definition setSelectedStatus v (s : State) : State :=
  mkState (appointments s) (total s) (currentPage s) v (isLoading s)
    (error s) (isModalOpen s) (editingAppointmentId s)
    (appointmentPendingDeletion s) (isDeletingAppointment s).
Definition setIsLoading v (s : State) : State :=
  mkState (appointments s) (total s) (currentPage s) (selectedStatus s) v
    (error s) (isModalOpen s) (editingAppointmentId s)
    (appointmentPendingDeletion s) (isDeletingAppointment s).
Definition setError v (s : State) : State :=
  mkState (appointments s) (total s) (currentPage s) (selectedStatus s)
    (isLoading s) v (isModalOpen s) (editingAppointmentId s)
    (appointmentPendingDeletion s) (isDeletingAppointment s).
Definition setIsModalOpen v (s : State) : State :=
  mkState (appointments s) (total s) (currentPage s) (selectedStatus s)
    (isLoading s) (error s) v (editingAppointmentId s)
    (appointmentPendingDeletion s) (isDeletingAppointment s).
Definition setEditingAppointmentId v (s : State) : State :=
  mkState (appointments s) (total s) (currentPage s) (selectedStatus s)
    (isLoading s) (error s) (isModalOpen s) v
    (appointmentPendingDeletion s) (isDeletingAppointment s).
Definition setAppointmentPendingDeletion v (s : State) : State :=
  mkState (appointments s) (total s) (currentPage s) (selectedStatus s)
    (isLoading s) (error s) (isModalOpen s) (editingAppointmentId s)
    v (isDeletingAppointment s).
Definition setIsDeletingAppointment v (s : State) : State :=
  mkState (appointments s) (total s) (currentPage s) (selectedStatus s)
    (isLoading s) (error s) (isModalOpen s) (editingAppointmentId s)
    (appointmentPendingDeletion s) v.

(** Values derived during a render (lines 61-67). *)
Definition totalPages (s : State) : Z :=
  Pagination.totalPages PAGE_SIZE (total s).
Definition effectivePage (s : State) : Z :=
  Pagination.effectivePage PAGE_SIZE (currentPage s) (total s).
Definition showingFrom (s : State) : Z :=
  Pagination.showingFrom PAGE_SIZE (currentPage s) (total s).
Definition showingTo (s : State) : Z :=
  Pagination.showingTo PAGE_SIZE (currentPage s) (total s).
Definition canGoPrevious (s : State) : bool :=
  Pagination.canGoPrevious PAGE_SIZE (currentPage s) (total s).
Definition canGoNext (s : State) : bool :=
  Pagination.canGoNext PAGE_SIZE (currentPage s) (total s).
Definition displayedPage (s : State) : Z :=
  Pagination.displayedPage PAGE_SIZE (currentPage s) (total s).
Definition hasFilters (s : State) : bool :=
  negb (String.eqb (selectedStatus s) "").

(** The argument of [fetchAppointments]. *)
Record FetchOptions := mkOptions {
  opt_page : option Z;
  opt_status : option string }.

(** Query parameters handed to [api.get('/appointments', { params })];
    [status] is only set when the filter is a non-empty string. *)
Record Params := mkParams {
  param_limit : Z;
  param_page : Z;
  param_status : option string }.

Definition statusParam (statusFilter : string) : option string :=
  if String.eqb statusFilter "" then None else Some statusFilter.

(** Who awaits a [fetchAppointments] promise. *)
Inductive Awaiter := NotAwaited | AwaitedBySubmit | AwaitedByDelete.

(** A [fetchAppointments] call suspended at its [await]. *)
Record Request := mkRequest {
  pageToFetch : Z;
  statusFilter : string;
  previousPage : Z;
  awaiter : Awaiter }.

Inductive MutationCall :=
| SubmitCall (closure : State)
| DeleteCall (closure : State).

(** The component instance: state cells, the [hasFetchedInitial] ref, the
    suspended calls in the order they were issued and the fetch requests
    sent so far (most recent first). *)
Record World := mkWorld {
  st : State;
  hasFetchedInitial : bool;
  fetches : list Request;
  mutations : list MutationCall;
  sent : list Params }.

Definition initialWorld : World := mkWorld initialState false [] [] [].

Definition withState (f : State -> State) (w : World) : World :=
  mkWorld (f (st w)) (hasFetchedInitial w) (fetches w) (mutations w) (sent w).

(** [fetchAppointments] up to its [await] (lines 70-89), called from the
    render [cl]. *)
Definition fetchAppointments (cl : State) (options : option FetchOptions)
    (aw : Awaiter) (w : World) : World :=
  let pageToFetch := default (currentPage cl) (options ≫= opt_page) in
  let statusFilter := default (selectedStatus cl) (options ≫= opt_status) in
  let previousPage := currentPage cl in
  let s1 := if pageToFetch =? currentPage cl then st w
            else setCurrentPage pageToFetch (st w) in
  let s2 := setError None (setIsLoading true s1) in
  mkWorld s2 (hasFetchedInitial w)
    (fetches w ++ [mkRequest pageToFetch statusFilter previousPage aw])
    (mutations w)
    (mkParams PAGE_SIZE pageToFetch (statusParam statusFilter) :: sent w).

Inductive Outcome :=
| Resolved (response : AppointmentsResponse)
| Rejected.

Definition fetchErrorMessage : string := "Nao foi possivel carregar as calls.".
Definition saveErrorMessage : string := "Erro ao salvar call.".
Definition deleteErrorMessage : string := "Erro ao remover call.".

(** [fetchAppointments] from its [await] on (lines 90-99). *)
Definition fetchAppointments_resume (rq : Request) (o : Outcome) (w : World)
    : World :=
  let body (s : State) : State :=
    match o with
    | Resolved response =>
        setCurrentPage (default (pageToFetch rq) (resp_page response))
          (setTotal (resp_total response)
             (setAppointments (resp_data response) s))
    | Rejected =>
        setCurrentPage (previousPage rq)
          (setError (Some fetchErrorMessage) s)
    end in
  withState (fun s => setIsLoading false (body s)) w.

Definition awaiter_resume (aw : Awaiter) (w : World) : World :=
  match aw with
  | AwaitedByDelete => withState (setIsDeletingAppointment false) w
  | AwaitedBySubmit | NotAwaited => w
  end.

(** [onChange] of the status select (lines 245-249). *)
Definition handleStatusChange (cl : State) (status : string) (w : World)
    : World :=
  fetchAppointments cl (Some (mkOptions (Some 1) (Some status))) NotAwaited
    (withState (setSelectedStatus status) w).

(** [handlePageChange] (lines 214-219). *)
Definition handlePageChange (cl : State) (page : Z) (w : World) : World :=
  if (page <? 1) || (totalPages cl <? page) || (page =? currentPage cl)
     || isLoading cl
  then w
  else fetchAppointments cl (Some (mkOptions (Some page) None)) NotAwaited w.

Definition handlePreviousPage (cl : State) (w : World) : World :=
  if negb (canGoPrevious cl) then w
  else handlePageChange cl (currentPage cl - 1) w.

Definition handleNextPage (cl : State) (w : World) : World :=
  if negb (canGoNext cl) then w
  else handlePageChange cl (currentPage cl + 1) w.

(** [openModal] (lines 134-156), without the form fields and the lead
    picker. *)
Definition openModal (appointment : option Appointment) (w : World) : World :=
  withState (fun s => setIsModalOpen true
                        (setEditingAppointmentId
                           (appointment_id <$> appointment) s)) w.

Definition closeModal (w : World) : World :=
  withState (setIsModalOpen false) w.

Definition addMutation (c : MutationCall) (w : World) : World :=
  mkWorld (st w) (hasFetchedInitial w) (fetches w) (mutations w ++ [c]) (sent w).

Definition dropMutation (i : nat) (w : World) : World :=
  mkWorld (st w) (hasFetchedInitial w) (fetches w) (delete i (mutations w))
    (sent w).

Definition dropFetch (i : nat) (w : World) : World :=
  mkWorld (st w) (hasFetchedInitial w) (delete i (fetches w)) (mutations w)
    (sent w).

(** [handleSubmit] up to the [await] of the save call (lines 158-173). *)
Definition handleSubmit (cl : State) (w : World) : World :=
  addMutation (SubmitCall cl) w.

(** [handleSubmit] after the save call settled (lines 174-179). *)
Definition handleSubmit_resume (cl : State) (ok : bool) (w : World) : World :=
  if ok then
    fetchAppointments cl
      (Some (mkOptions (Some (currentPage cl)) (Some (selectedStatus cl))))
      AwaitedBySubmit
      (withState (setIsModalOpen false) w)
  else withState (setError (Some saveErrorMessage)) w.

(** [requestDeleteAppointment] (lines 182-184). *)
Definition requestDeleteAppointment (appointment : Appointment) (w : World)
    : World :=
  withState (setAppointmentPendingDeletion (Some appointment)) w.

(** [handleConfirmDeleteAppointment] up to the [await] of the delete call
    (lines 186-192). *)
Definition handleConfirmDeleteAppointment (cl : State) (w : World) : World :=
  match appointmentPendingDeletion cl with
  | None => w
  | Some _ =>
      addMutation (DeleteCall cl) (withState (setIsDeletingAppointment true) w)
  end.

(** [handleConfirmDeleteAppointment] after the delete call settled
    (lines 193-200); on success its [finally] runs when the re-fetch
    settles, see [awaiter_resume]. *)
Definition handleConfirmDeleteAppointment_resume (cl : State) (ok : bool)
    (w : World) : World :=
  if ok then
    fetchAppointments cl
      (Some (mkOptions (Some (currentPage cl)) (Some (selectedStatus cl))))
      AwaitedByDelete
      (withState (setAppointmentPendingDeletion None) w)
  else
    withState (fun s => setIsDeletingAppointment false
                          (setError (Some deleteErrorMessage) s)) w.

(** [handleCancelDeleteAppointment] (lines 203-208). *)
Definition handleCancelDeleteAppointment (cl : State) (w : World) : World :=
  if isDeletingAppointment cl then w
  else withState (setAppointmentPendingDeletion None) w.

(** The mount effect (lines 119-126), without [fetchLeads]. *)
Definition mountEffect (cl : State) (w : World) : World :=
  if hasFetchedInitial w then w
  else
    fetchAppointments cl None NotAwaited
      (mkWorld (st w) true (fetches w) (mutations w) (sent w)).

(** The [i]-th suspended fetch settles: it resumes, then its awaiter. *)
Definition settleFetch (i : nat) (o : Outcome) (w : World) : World :=
  match fetches w !! i with
  | None => w
  | Some rq =>
      awaiter_resume (awaiter rq)
        (fetchAppointments_resume rq o (dropFetch i w))
  end.

(** The [i]-th suspended save or delete call settles. *)
Definition settleMutation (i : nat) (ok : bool) (w : World) : World :=
  match mutations w !! i with
  | None => w
  | Some (SubmitCall cl) => handleSubmit_resume cl ok (dropMutation i w)
  | Some (DeleteCall cl) =>
      handleConfirmDeleteAppointment_resume cl ok (dropMutation i w)
  end.

Inductive Event :=
| Mount
| StatusChange (status : string)
| PageChange (page : Z)
| PreviousPage
| NextPage
| OpenModal (appointment : option Appointment)
| CloseModal
| Submit
| RequestDelete (appointment : Appointment)
| ConfirmDelete
| CancelDelete
| FetchSettled (i : nat) (o : Outcome)
| MutationSettled (i : nat) (ok : bool).

(** The handler of an event, run from the current render. *)
Definition step (w : World) (e : Event) : World :=
  match e with
  | Mount => mountEffect (st w) w
  | StatusChange status => handleStatusChange (st w) status w
  | PageChange page => handlePageChange (st w) page w
  | PreviousPage => handlePreviousPage (st w) w
  | NextPage => handleNextPage (st w) w
  | OpenModal appointment => openModal appointment w
  | CloseModal => closeModal w
  | Submit => handleSubmit (st w) w
  | RequestDelete appointment => requestDeleteAppointment appointment w
  | ConfirmDelete => handleConfirmDeleteAppointment (st w) w
  | CancelDelete => handleCancelDeleteAppointment (st w) w
  | FetchSettled i o => settleFetch i o w
  | MutationSettled i ok => settleMutation i ok w
  end.

Definition run (w : World) (es : list Event) : World :=
  fold_left step es w.

(** A response reports a page from 1 on, or none. *)
Definition pageFromOne (o : Outcome) : Prop :=
  match o with
  | Resolved response =>
      match resp_page response with
      | Some page => 1 <= page
      | None => True
      end
  | Rejected => True
  end.

Definition wellFormed (e : Event) : Prop :=
  match e with
  | FetchSettled _ o => pageFromOne o
  | _ => True
  end.

Definition closureOf (c : MutationCall) : State :=
  match c with
  | SubmitCall cl | DeleteCall cl => cl
  end.

(** Every page number the component holds, in its state or in a suspended
    call, is at least 1. *)
Definition pagesFromOne (w : World) : Prop :=
  1 <= currentPage (st w) /\
  Forall (fun rq => 1 <= pageToFetch rq /\ 1 <= previousPage rq) (fetches w) /\
  Forall (fun c => 1 <= currentPage (closureOf c)) (mutations w).

End Appointments.

(* ===================================================================== *)
(** ** Sample data used by the examples                                   *)
(* ===================================================================== *)

Module Samples.

(** 120 sellers on the server: three pages of 50. *)
Definition sellersPage1 : Sellers.SellersResponse :=
  Sellers.mkResponse [Sellers.mkSeller "s1" "Ana"] 120 (Some 1) 50.

Definition sellersPage2 : Sellers.SellersResponse :=
  Sellers.mkResponse [Sellers.mkSeller "s51" "Bia"] 120 (Some 2) 50.

(** The sellers page mounted, with its first page loaded. *)
Definition sellersLoaded : Sellers.World :=
  Sellers.run Sellers.initialWorld
    [Sellers.Mount; Sellers.FetchSettled 1 (Sellers.Resolved sellersPage1)].

(** The sellers page showing page 2. *)
Definition sellersOnPage2 : Sellers.World :=
  Sellers.run sellersLoaded
    [Sellers.PageChange 2; Sellers.FetchSettled 2 (Sellers.Resolved sellersPage2)].

(** The user typed in the search box while the first load was in flight;
    the load has arrived, the debounce timer has not fired yet. *)
Definition sellersTypedDuringLoad : Sellers.World :=
  Sellers.run Sellers.initialWorld
    [Sellers.Mount; Sellers.SearchChange "a";
     Sellers.FetchSettled 1 (Sellers.Resolved sellersPage1)].

(** The delete dialog of the sellers page, confirmed, delete call pending. *)
Definition sellersDeleting : Sellers.World :=
  Sellers.run sellersLoaded
    [Sellers.RequestDelete (Sellers.mkSeller "s1" "Ana"); Sellers.ConfirmDelete].

(** The delete dialog of the sellers page, open and not confirmed. *)
Definition sellersAskingDelete : Sellers.World :=
  Sellers.run sellersLoaded
    [Sellers.RequestDelete (Sellers.mkSeller "s1" "Ana")].

(** 45 appointments on the server: three pages of 20. *)
Definition callsAll : Appointments.AppointmentsResponse :=
  Appointments.mkResponse
    [Appointments.mkAppointment "a1" "AGENDADA";
     Appointments.mkAppointment "a2" "NO_SHOW"] 45 (Some 1) 20.

Definition callsNoShow : Appointments.AppointmentsResponse :=
  Appointments.mkResponse [Appointments.mkAppointment "a2" "NO_SHOW"] 1 (Some 1) 20.

Definition callsAgendada : Appointments.AppointmentsResponse :=
  Appointments.mkResponse [Appointments.mkAppointment "a1" "AGENDADA"] 44 (Some 1) 20.

(** The appointments page mounted, with its first page loaded. *)
Definition callsLoaded : Appointments.World :=
  Appointments.run Appointments.initialWorld
    [Appointments.Mount; Appointments.FetchSettled 0 (Appointments.Resolved callsAll)].

Definition callsDeleting : Appointments.World :=
  Appointments.run callsLoaded
    [Appointments.RequestDelete (Appointments.mkAppointment "a1" "AGENDADA");
     Appointments.ConfirmDelete].

(** The sellers page on page 2, the search box changed to "a", and the
    debounce delay elapsed with no answer from the server yet. *)
Definition sellersSearchedFromPage2 : Sellers.World :=
  Sellers.run sellersOnPage2 (Sellers.SearchChange "a" :: Sellers.ticks 300).

(** The status filter changed to NO_SHOW and at once to AGENDADA; the
    answer to the second request has arrived, the first is still pending. *)
Definition callsFilteredTwice : Appointments.World :=
  Appointments.run callsLoaded
    [Appointments.StatusChange "NO_SHOW"; Appointments.StatusChange "AGENDADA";
     Appointments.FetchSettled 1 (Appointments.Resolved callsAgendada)].

(** A response that reports page 0. *)
Definition callsPageZero : Appointments.AppointmentsResponse :=
  Appointments.mkResponse [Appointments.mkAppointment "a1" "AGENDADA"] 45 (Some 0) 20.

Definition callsAskingDelete : Appointments.World :=
  Appointments.run callsLoaded
    [Appointments.RequestDelete (Appointments.mkAppointment "a1" "AGENDADA")].

(** The sellers page with two requests unanswered: page 2 was asked for,
    then Enter was pressed in the search box. *)
Definition sellersTwoInFlight : Sellers.World :=
  Sellers.run sellersLoaded [Sellers.PageChange 2; Sellers.SearchEnter].

(** The sellers page on page 1 with "a" typed in the search box and the
    debounce timer running. *)
Definition sellersTypedOnPage1 : Sellers.World :=
  Sellers.run sellersLoaded [Sellers.SearchChange "a"].

End Samples.

(* ===================================================================== *)
(** ** Availability window of a seller (lines 985-1050)                   *)
(* ===================================================================== *)

Module Availability.

(** [WeekDay] comes from [../../../types]; its values are those listed in
    [weekDayOptions]. *)
Inductive WeekDay :=
| MONDAY | TUESDAY | WEDNESDAY | THURSDAY | FRIDAY | SATURDAY | SUNDAY.

#[global] Instance WeekDay_eq_dec : EqDecision WeekDay.
Proof. solve_decision. Defined.

Definition WeekDay_to_nat (d : WeekDay) : nat :=
  match d with
  | MONDAY => 0 | TUESDAY => 1 | WEDNESDAY => 2 | THURSDAY => 3
  | FRIDAY => 4 | SATURDAY => 5 | SUNDAY => 6
  end%nat.

Definition WeekDay_of_nat (n : nat) : WeekDay :=
  match n with
  | 0 => MONDAY | 1 => TUESDAY | 2 => WEDNESDAY | 3 => THURSDAY
  | 4 => FRIDAY | 5 => SATURDAY | _ => SUNDAY
  end%nat.

#[global] Instance WeekDay_countable : Countable WeekDay.
Proof.
  apply (inj_countable' WeekDay_to_nat WeekDay_of_nat). by intros [].
Defined.

(** An entry of [weekDayOptions]. *)
Record WeekDayOption := mkOption {
  value : WeekDay;
  label : string;
  short : string }.

(** [weekDayOptions] (lines 985-993). *)
Definition weekDayOptions : list WeekDayOption :=
  [ mkOption MONDAY "Segunda-feira" "Seg";
    mkOption TUESDAY "Terca-feira" "Ter";
    mkOption WEDNESDAY "Quarta-feira" "Qua";
    mkOption THURSDAY "Quinta-feira" "Qui";
    mkOption FRIDAY "Sexta-feira" "Sex";
    mkOption SATURDAY "Sabado" "Sab";
    mkOption SUNDAY "Domingo" "Dom" ].

(** The reducer of line 996: [acc[option.value] = option.short]. *)
Definition shortLabelReducer (acc : gmap WeekDay string) (option : WeekDayOption)
    : gmap WeekDay string :=
  <[value option := short option]> acc.

(** [options.reduce(reducer, {})]. *)
Definition shortLabelsOf (options : list WeekDayOption) : gmap WeekDay string :=
  fold_left shortLabelReducer options ∅.

(** [weekDayShortLabel] (lines 995-1001). *)
Definition weekDayShortLabel : gmap WeekDay string :=
  shortLabelsOf weekDayOptions.

(** JavaScript truthiness of a [string | null | undefined]. *)
Definition truthy (o : option string) : bool :=
  match o with
  | Some s => negb (String.eqb s "")
  | None => false
  end.

(** [formatDayRange] (lines 1003-1016); a [WeekDay] is a non-empty string,
    hence truthy. *)
Definition formatDayRange (start end_ : option WeekDay) : option string :=
  let startLabel := start ≫= (fun d => weekDayShortLabel !! d) in
  let endLabel := end_ ≫= (fun d => weekDayShortLabel !! d) in
  if negb (truthy startLabel) && negb (truthy endLabel) then None
  else if truthy startLabel && truthy endLabel then
    if bool_decide (start = end_) then startLabel
    else Some (default "" startLabel +:+ " a " +:+ default "" endLabel)
  else
    match startLabel with
    | Some l => Some l
    | None => endLabel
    end.

(** [formatTimeRange] (lines 1018-1035). *)
Definition formatTimeRange (start end_ : option string) : option string :=
  let hasStart := truthy start in
  let hasEnd := truthy end_ in
  if negb hasStart && negb hasEnd then None
  else if hasStart && hasEnd then
    Some ("de " +:+ default "" start +:+ " as " +:+ default "" end_)
  else if hasStart then Some ("a partir de " +:+ default "" start)
  else Some ("ate " +:+ default "" end_).

(** The four fields of a [Seller] that [formatAvailabilityWindow] reads. *)
Record Window := mkWindow {
  availabilityStartDay : option WeekDay;
  availabilityEndDay : option WeekDay;
  availabilityStartTime : option string;
  availabilityEndTime : option string }.

(** [formatAvailabilityWindow] (lines 1037-1050). *)
Definition formatAvailabilityWindow (seller : Window) : string :=
  let dayPart :=
    formatDayRange (availabilityStartDay seller) (availabilityEndDay seller) in
  let timePart :=
    formatTimeRange (availabilityStartTime seller) (availabilityEndTime seller) in
  if negb (truthy dayPart) && negb (truthy timePart) then "--"
  else if truthy dayPart && truthy timePart then
    default "" dayPart +:+ " " +:+ default "" timePart
  else
    match dayPart with
    | Some d => d
    | None => default "--" timePart
    end.

End Availability.

(* ===================================================================== *)
(** ** StatusBadge (lines 1592-1603): the label                           *)
(* ===================================================================== *)

Module StatusBadge.

(** [value.replace(/_/g, ' ')], character by character. *)
Fixpoint replaceUnderscores (value : string) : string :=
  match value with
  | EmptyString => EmptyString
  | String c rest =>
      String (if Ascii.eqb c "_" then " " else c)%char (replaceUnderscores rest)
  end.

End StatusBadge.

(* ===================================================================== *)
(** ** AuthProvider ([src/context/AuthContext.tsx])                       *)
(* ===================================================================== *)

Module Auth.

(** [User] comes from [../types]. *)
Record User := mkUser { user_id : string; user_email : string }.

(** [StoredAuth], as built at line 41. *)
Record StoredAuth := mkStoredAuth { token : string; user : User }.

(** The [useState] cells of the provider (lines 22-23). *)
Record State := mkState { authState : option StoredAuth; loading : bool }.

Definition initialState : State := mkState None true.

(** Modelled from the spec: [../lib/auth-storage] is not among the sources;
    the spec describes it as persisting, retrieving and clearing one
    [{token, user}] pair.  The storage is that one cell. *)
Definition getStoredAuth (storage : option StoredAuth) : option StoredAuth :=
  storage.

Definition setStoredAuth (accessToken : string) (u : User)
    (storage : option StoredAuth) : option StoredAuth :=
  Some (mkStoredAuth accessToken u).

Definition clearStoredAuth (storage : option StoredAuth) : option StoredAuth :=
  None.

(** The body of the answer to [POST /auth/login]. *)
Record LoginData := mkLoginData { accessToken : string; loggedUser : User }.

Inductive Outcome :=
| Resolved (data : LoginData)
| Rejected.

(** A [login] call suspended at its [await]. *)
Record LoginCall := mkLoginCall { email : string; password : string }.

(** The provider, the storage it reads and writes, the routes pushed to
    the router (most recent first), the suspended [login] calls and the
    number of [login] promises that rejected to their caller. *)
Record World := mkWorld {
  st : State;
  storage : option StoredAuth;
  pushed : list string;
  logins : list LoginCall;
  rejections : nat }.

Definition initialWorld (storage : option StoredAuth) : World :=
  mkWorld initialState storage [] [] 0.

(** The mount effect (lines 25-31). *)
Definition mountEffect (w : World) : World :=
  let stored := getStoredAuth (storage w) in
  let s1 := match stored with
            | Some a => mkState (Some a) (loading (st w))
            | None => st w
            end in
  mkWorld (mkState (authState s1) false) (storage w) (pushed w) (logins w)
    (rejections w).

(** [login] up to its [await] (lines 34-38). *)
Definition login (e p : string) (w : World) : World :=
  mkWorld (st w) (storage w) (pushed w) (logins w ++ [mkLoginCall e p])
    (rejections w).

(** [login] from its [await] on (lines 40-42); it has no [catch], a
    rejection goes to the caller. *)
Definition login_resume (o : Outcome) (w : World) : World :=
  match o with
  | Resolved data =>
      mkWorld
        (mkState (Some (mkStoredAuth (accessToken data) (loggedUser data)))
           (loading (st w)))
        (setStoredAuth (accessToken data) (loggedUser data) (storage w))
        ("/dashboard" :: pushed w) (logins w) (rejections w)
  | Rejected =>
      mkWorld (st w) (storage w) (pushed w) (logins w) (S (rejections w))
  end.

(** [logout] (lines 47-51). *)
Definition logout (w : World) : World :=
  mkWorld (mkState None (loading (st w))) (clearStoredAuth (storage w))
    ("/login" :: pushed w) (logins w) (rejections w).

(** The context value (lines 53-62), without the two callbacks. *)
Record AuthContextValue := mkValue {
  value_user : option User;
  value_token : option string;
  value_loading : bool }.

Definition contextValue (s : State) : AuthContextValue :=
  mkValue (user <$> authState s) (token <$> authState s) (loading s).

(** The page is loaded anew: a fresh provider over the same storage. *)
Definition reload (w : World) : World := initialWorld (storage w).

Inductive Event :=
| Mount
| Login (e p : string)
| LoginSettled (i : nat) (o : Outcome)
| Logout.

Definition step (w : World) (e : Event) : World :=
  match e with
  | Mount => mountEffect w
  | Login e p => login e p w
  | LoginSettled i o =>
      match logins w !! i with
      | None => w
      | Some _ =>
          login_resume o
            (mkWorld (st w) (storage w) (pushed w) (delete i (logins w))
               (rejections w))
      end
  | Logout => logout w
  end.

Definition run (w : World) (es : list Event) : World :=
  fold_left step es w.

End Auth.

(* ===================================================================== *)
(** ** Predicates used in the statements on whole runs                    *)
(* ===================================================================== *)

Module Runs.

(** [w'] is [w] after one call of [fetchSellers]: the token grew by one,
    the call is filed under it, one request was sent for the page and term
    of the call, and [isLoading] is set. *)
Definition fetchStep (w w' : Sellers.World) : Prop :=
  exists page term prev aw,
    Sellers.latestRequestRef w' = Sellers.latestRequestRef w + 1 /\
    Sellers.inflight w'
    = <[Sellers.latestRequestRef w + 1 := Sellers.mkRequest page term prev aw]>
        (Sellers.inflight w) /\
    Sellers.sent w'
    = Sellers.mkParams page Sellers.PAGE_SIZE (Sellers.orUndefined term)
      :: Sellers.sent w /\
    Sellers.isLoading (Sellers.st w') = true.

(** [w'] is [w] after a handler that calls no fetch and settles none. *)
Definition quietStep (w w' : Sellers.World) : Prop :=
  Sellers.passive w w' /\
  (Sellers.isLoading (Sellers.st w') = Sellers.isLoading (Sellers.st w) \/
   Sellers.isLoading (Sellers.st w') = true).

(** The token counts the requests sent, and every suspended fetch is filed
    under a token that was issued. *)
Definition tokensCounted (w : Sellers.World) : Prop :=
  Sellers.latestRequestRef w = Z.of_nat (length (Sellers.sent w)) /\
  map_Forall (fun id _ => 1 <= id <= Sellers.latestRequestRef w)
    (Sellers.inflight w).

(** The spinner is on while the request with the latest token is pending. *)
Definition spinnerCoversLatest (w : Sellers.World) : Prop :=
  is_Some (Sellers.inflight w !! Sellers.latestRequestRef w) ->
  Sellers.isLoading (Sellers.st w) = true.

(** A pending debounce timer belongs to a render that agrees with the
    current state on everything its callback reads, the search is dirty,
    and the timer is due within the debounce delay. *)
Definition timerFresh (w : Sellers.World) : Prop :=
  match Sellers.debounceTimer w with
  | Some t =>
      Sellers.isSearchDirty (Sellers.st w) = true /\
      Sellers.search (Sellers.timer_closure t) = Sellers.search (Sellers.st w) /\
      Sellers.currentPage (Sellers.timer_closure t)
      = Sellers.currentPage (Sellers.st w) /\
      Sellers.lastFetchedSearch (Sellers.timer_closure t)
      = Sellers.lastFetchedSearch (Sellers.st w) /\
      Sellers.now w < Sellers.deadline t <= Sellers.now w + Sellers.DEBOUNCE_DELAY
  | None => True
  end.

(** A request of the sellers page asks for pages of [PAGE_SIZE] and never
    carries an empty search. *)
Definition sellersParamsOk (p : Sellers.Params) : Prop :=
  Sellers.param_limit p = Sellers.PAGE_SIZE /\
  Sellers.param_search p <> Some "".

(** A request of the appointments page asks for pages of [PAGE_SIZE] and
    never carries an empty status. *)
Definition callsParamsOk (p : Appointments.Params) : Prop :=
  Appointments.param_limit p = Appointments.PAGE_SIZE /\
  Appointments.param_status p <> Some "".

(** Once the appointments page has run its mount effect, its spinner is
    off whenever no fetch is pending. *)
Definition spinnerNeedsFetch (w : Appointments.World) : Prop :=
  Appointments.hasFetchedInitial w = true ->
  Appointments.fetches w = [] ->
  Appointments.isLoading (Appointments.st w) = false.

(** [w'] is [w] untouched, or [w] after one request for a page other than
    the current one and within [1, totalPages]. *)
Definition sellersPageRequest (w w' : Sellers.World) : Prop :=
  w' = w \/
  exists p, Sellers.sent w' = p :: Sellers.sent w /\
            1 <= Sellers.param_page p <= Sellers.totalPages (Sellers.st w) /\
            Sellers.param_page p <> Sellers.currentPage (Sellers.st w).

Definition callsPageRequest (w w' : Appointments.World) : Prop :=
  w' = w \/
  exists p, Appointments.sent w' = p :: Appointments.sent w /\
            1 <= Appointments.param_page p
              <= Appointments.totalPages (Appointments.st w) /\
            Appointments.param_page p <> Appointments.currentPage (Appointments.st w).

(** The session the provider shows is the stored one, and the provider no
    longer reports [loading]. *)
Definition sessionMirrorsStorage (w : Auth.World) : Prop :=
  Auth.authState (Auth.st w) = Auth.storage w /\
  Auth.loading (Auth.st w) = false.

(** The last route pushed agrees with the session: the dashboard with a
    session, the login page with none. *)
Definition routeMatchesSession (w : Auth.World) : Prop :=
  match Auth.pushed w with
  | [] => True
  | route :: _ =>
      (route = "/dashboard" /\ is_Some (Auth.authState (Auth.st w))) \/
      (route = "/login" /\ Auth.authState (Auth.st w) = None)
  end.

(** No underscore occurs in the text. *)
Definition noUnderscore (text : string) : Prop :=
  ~ In "_"%char (String.list_ascii_of_string text).

End Runs.

(* ===================================================================== *)
(** ** Facts on the pagination arithmetic                                 *)
(* ===================================================================== *)

Lemma Math_ceil_div_Z (p t : Z) :
  0 < p -> Pagination.Math_ceil_div p t = - ((- t) / p).
Proof.
  intros Hp. unfold Pagination.Math_ceil_div, Qceiling, Qfloor.
  destruct p as [|q|q]; try lia.
  cbn. f_equal. f_equal; lia.
Qed.

Lemma Math_ceil_div_spec (p t : Z) :
  0 < p -> Pagination.Math_ceil_div p t = spec_ceil_ratio t p.
Proof.
  intros Hp. rewrite Math_ceil_div_Z by done. unfold spec_ceil_ratio.
  pose proof (Z.div_mod (- t) p ltac:(lia)) as H1.
  pose proof (Z.mod_pos_bound (- t) p Hp) as H2.
  pose proof (Z.div_mod (t + p - 1) p ltac:(lia)) as H3.
  pose proof (Z.mod_pos_bound (t + p - 1) p Hp) as H4.
  nia.
Qed.

Lemma Math_ceil_div_least (p t : Z) :
  0 < p ->
  t <= Pagination.Math_ceil_div p t * p /\
  (Pagination.Math_ceil_div p t - 1) * p < t.
Proof.
  intros Hp. rewrite Math_ceil_div_Z by done.
  pose proof (Z.div_mod (- t) p ltac:(lia)) as H1.
  pose proof (Z.mod_pos_bound (- t) p Hp) as H2.
  nia.
Qed.

Lemma totalPages_spec (p t : Z) :
  0 < p -> Pagination.totalPages p t = spec_totalPages t p.
Proof.
  intros Hp. unfold Pagination.totalPages, spec_totalPages.
  by rewrite Math_ceil_div_spec.
Qed.

Lemma totalPages_ge_1 (p t : Z) : 1 <= Pagination.totalPages p t.
Proof. unfold Pagination.totalPages. lia. Qed.

Lemma totalPages_covers (p t : Z) :
  0 < p -> t <= Pagination.totalPages p t * p.
Proof.
  intros Hp. unfold Pagination.totalPages.
  destruct (Math_ceil_div_least p t Hp) as [H1 _]. nia.
Qed.

Lemma totalPages_tight (p t : Z) :
  0 < p -> 0 < t -> (Pagination.totalPages p t - 1) * p < t.
Proof.
  intros Hp Ht. unfold Pagination.totalPages.
  destruct (Math_ceil_div_least p t Hp) as [H1 H2]. nia.
Qed.

Lemma effectivePage_bounds (PAGE_SIZE currentPage total : Z) :
  Pagination.effectivePage PAGE_SIZE currentPage total
    <= Pagination.totalPages PAGE_SIZE total /\
  (1 <= currentPage -> 1 <= Pagination.effectivePage PAGE_SIZE currentPage total).
Proof.
  unfold Pagination.effectivePage.
  pose proof (totalPages_ge_1 PAGE_SIZE total). lia.
Qed.

(** C3, counterexample.  With [currentPage = 0] and [total = 45] the
    effective page is 0, below the interval [1, totalPages]; the
    appointments page is in that state, and shows page 0, once a response
    has reported page 0. *)
Lemma effectivePage_not_clamped_below :
  ~ (forall currentPage total : Z,
       0 <= total ->
       1 <= Pagination.effectivePage 20 currentPage total
         <= Pagination.totalPages 20 total) /\
  (let w := Appointments.run Appointments.initialWorld
              [Appointments.Mount;
               Appointments.FetchSettled 0 (Appointments.Resolved Samples.callsPageZero)] in
   Appointments.total (Appointments.st w) = 45 /\
   Appointments.effectivePage (Appointments.st w) = 0 /\
   Appointments.displayedPage (Appointments.st w) = 0 /\
   Appointments.totalPages (Appointments.st w) = 3).
Proof.
  split.
  - intros H. specialize (H 0 45 ltac:(lia)).
    vm_compute in H. destruct H as [H _]. by apply H.
  - by vm_compute.
Qed.

(** C10.  The range shown in the footer: nothing for an empty collection,
    and for a non-empty one a non-empty range inside [1, total], whatever
    positive page size is used; with [total = 45], [PAGE_SIZE = 20] and
    page 3 it is 41-45. *)
Theorem showing_range_bounds (PAGE_SIZE currentPage total : Z) :
  0 < PAGE_SIZE ->
  1 <= currentPage ->
  (total = 0 ->
     Pagination.showingFrom PAGE_SIZE currentPage total = 0 /\
     Pagination.showingTo PAGE_SIZE currentPage total = 0) /\
  (0 < total ->
     Pagination.showingFrom PAGE_SIZE currentPage total
       = (Pagination.effectivePage PAGE_SIZE currentPage total - 1) * PAGE_SIZE + 1 /\
     Pagination.showingTo PAGE_SIZE currentPage total
       = Z.min (Pagination.effectivePage PAGE_SIZE currentPage total * PAGE_SIZE) total /\
     1 <= Pagination.showingFrom PAGE_SIZE currentPage total
       <= Pagination.showingTo PAGE_SIZE currentPage total /\
     Pagination.showingTo PAGE_SIZE currentPage total <= total) /\
  Pagination.showingFrom 20 3 45 = 41 /\
  Pagination.showingTo 20 3 45 = 45.
Proof.
  intros Hp Hcp. split; [|split; [|split; reflexivity]].
  - intros ->. by unfold Pagination.showingFrom, Pagination.showingTo.
  - intros Ht. unfold Pagination.showingFrom, Pagination.showingTo.
    destruct (Z.eqb_spec total 0) as [->|_]; [lia|].
    split; [done|]. split; [done|].
    destruct (effectivePage_bounds PAGE_SIZE currentPage total) as [Hhi Hlo].
    specialize (Hlo Hcp).
    pose proof (totalPages_tight PAGE_SIZE total Hp Ht) as Htight.
    set (e := Pagination.effectivePage PAGE_SIZE currentPage total) in *.
    set (n := Pagination.totalPages PAGE_SIZE total) in *.
    assert ((e - 1) * PAGE_SIZE <= (n - 1) * PAGE_SIZE) by nia.
    split; [split|]; nia.
Qed.

Lemma showing_range_bounds_witness :
  0 < 50 /\ 1 <= 2 /\
  1 <= Pagination.showingFrom 50 2 120 <= Pagination.showingTo 50 2 120.
Proof.
  split; [lia|]. split; [lia|].
  destruct (showing_range_bounds 50 2 120) as (_ & H & _); [lia | lia |].
  destruct H as (_ & _ & H & _); [lia | exact H].
Defined.

Lemma spec_ceil_ratio_least (t p : Z) :
  0 < p ->
  t <= spec_ceil_ratio t p * p /\ (spec_ceil_ratio t p - 1) * p < t.
Proof.
  intros Hp. rewrite <- (Math_ceil_div_spec p t Hp).
  by apply Math_ceil_div_least.
Qed.

(* ===================================================================== *)
(** ** Facts on the two controllers                                       *)
(* ===================================================================== *)

(** C5.  After a fetch that succeeded and was applied, the page count
    derived from the total of the response is
    [max(1, ceil(totalCount / pageSize))], in both controllers, as it is
    of the stored total in every state; an empty collection has one page,
    45 items in pages of 20 have three. *)
Theorem totalPages_after_successful_fetch
    (w : Sellers.World) (requestId : Z) (rq : Sellers.Request)
    (r : Sellers.SellersResponse)
    (a : Appointments.World) (rq' : Appointments.Request)
    (r' : Appointments.AppointmentsResponse) :
  requestId = Sellers.latestRequestRef w ->
  Sellers.totalPages
    (Sellers.st (Sellers.fetchSellers_resume requestId rq (Sellers.Resolved r) w))
    = spec_totalPages (Sellers.resp_total r) Sellers.PAGE_SIZE /\
  Appointments.totalPages
    (Appointments.st
       (Appointments.fetchAppointments_resume rq' (Appointments.Resolved r') a))
    = spec_totalPages (Appointments.resp_total r') Appointments.PAGE_SIZE /\
  Sellers.totalPages (Sellers.st w)
    = spec_totalPages (Sellers.total (Sellers.st w)) Sellers.PAGE_SIZE /\
  Appointments.totalPages (Appointments.st a)
    = spec_totalPages (Appointments.total (Appointments.st a)) Appointments.PAGE_SIZE /\
  spec_totalPages 0 Sellers.PAGE_SIZE = 1 /\
  spec_totalPages 0 Appointments.PAGE_SIZE = 1 /\
  spec_totalPages 45 20 = 3.
Proof.
  intros Hlatest. repeat split.
  - unfold Sellers.fetchSellers_resume, Sellers.totalPages.
    rewrite Hlatest, Z.eqb_refl. cbn.
    by apply totalPages_spec.
  - unfold Appointments.fetchAppointments_resume, Appointments.totalPages.
    cbn. by apply totalPages_spec.
  - by apply totalPages_spec.
  - by apply totalPages_spec.
Qed.

Lemma totalPages_after_successful_fetch_witness :
  Sellers.totalPages (Sellers.st Samples.sellersLoaded) = 3 /\
  Appointments.totalPages (Appointments.st Samples.callsLoaded) = 3.
Proof.
  pose proof (totalPages_after_successful_fetch
                (Sellers.mkWorld
                   (Sellers.setError None
                      (Sellers.setIsLoading true Sellers.initialState))
                   1 true 0 None ∅ [] [Sellers.mkParams 1 50 None])
                1 (Sellers.mkRequest 1 "" 1 Sellers.NotAwaited)
                Samples.sellersPage1
                (Appointments.mkWorld
                   (Appointments.setError None
                      (Appointments.setIsLoading true Appointments.initialState))
                   true [] [] [Appointments.mkParams 20 1 None])
                (Appointments.mkRequest 1 "" 1 Appointments.NotAwaited)
                Samples.callsAll eq_refl) as (H1 & H2 & _).
  split; [exact H1 | exact H2].
Defined.

Lemma sameDebounceDeps_eq (a b : Sellers.State) :
  Sellers.currentPage a = Sellers.currentPage b ->
  Sellers.lastFetchedSearch a = Sellers.lastFetchedSearch b ->
  Sellers.search a = Sellers.search b ->
  Sellers.sameDebounceDeps a b = true.
Proof.
  intros H1 H2 H3. unfold Sellers.sameDebounceDeps, Sellers.isSearchDirty.
  rewrite H1, H2, H3, Z.eqb_refl, !String.eqb_refl.
  by destruct (negb _).
Qed.

Lemma debounceEffect_same_deps (before : Sellers.State) (w : Sellers.World) :
  Sellers.currentPage before = Sellers.currentPage (Sellers.st w) ->
  Sellers.lastFetchedSearch before = Sellers.lastFetchedSearch (Sellers.st w) ->
  Sellers.search before = Sellers.search (Sellers.st w) ->
  Sellers.debounceEffect before w = w.
Proof.
  intros H1 H2 H3. unfold Sellers.debounceEffect.
  by rewrite sameDebounceDeps_eq.
Qed.

Lemma debounceEffect_id (w : Sellers.World) :
  Sellers.debounceEffect (Sellers.st w) w = w.
Proof. by apply debounceEffect_same_deps. Qed.

Lemma debounceEffect_sent (before : Sellers.State) (w : Sellers.World) :
  Sellers.sent (Sellers.debounceEffect before w) = Sellers.sent w.
Proof.
  unfold Sellers.debounceEffect.
  destruct (Sellers.sameDebounceDeps _ _); [done|].
  by destruct (Sellers.isSearchDirty _).
Qed.

Lemma debounceEffect_st (before : Sellers.State) (w : Sellers.World) :
  Sellers.st (Sellers.debounceEffect before w) = Sellers.st w.
Proof.
  unfold Sellers.debounceEffect.
  destruct (Sellers.sameDebounceDeps _ _); [done|].
  by destruct (Sellers.isSearchDirty _).
Qed.

Lemma debounceEffect_latest (before : Sellers.State) (w : Sellers.World) :
  Sellers.latestRequestRef (Sellers.debounceEffect before w)
  = Sellers.latestRequestRef w.
Proof.
  unfold Sellers.debounceEffect.
  destruct (Sellers.sameDebounceDeps _ _); [done|].
  by destruct (Sellers.isSearchDirty _).
Qed.

Lemma debounceEffect_inflight (before : Sellers.State) (w : Sellers.World) :
  Sellers.inflight (Sellers.debounceEffect before w) = Sellers.inflight w.
Proof.
  unfold Sellers.debounceEffect.
  destruct (Sellers.sameDebounceDeps _ _); [done|].
  by destruct (Sellers.isSearchDirty _).
Qed.

(** C6, as amended.  [handlePageChange] leaves the component untouched and
    sends nothing when the page is below 1, above [totalPages], the current
    page, or while [isLoading] is set.  Otherwise it sends exactly one
    request for that page: the appointments page with the selected status,
    the sellers page with the text of the search box when it differs from
    the last fetched term and with the last fetched term otherwise. *)
Theorem handlePageChange_guard_and_request
    (a : Appointments.World) (w : Sellers.World) (n : Z) :
  (n < 1 \/ Appointments.totalPages (Appointments.st a) < n \/
   n = Appointments.currentPage (Appointments.st a) \/
   Appointments.isLoading (Appointments.st a) = true ->
   Appointments.step a (Appointments.PageChange n) = a) /\
  (~ (n < 1 \/ Appointments.totalPages (Appointments.st a) < n \/
      n = Appointments.currentPage (Appointments.st a) \/
      Appointments.isLoading (Appointments.st a) = true) ->
   Appointments.sent (Appointments.step a (Appointments.PageChange n))
   = Appointments.mkParams Appointments.PAGE_SIZE n
       (Appointments.statusParam (Appointments.selectedStatus (Appointments.st a)))
     :: Appointments.sent a) /\
  (n < 1 \/ Sellers.totalPages (Sellers.st w) < n \/
   n = Sellers.currentPage (Sellers.st w) \/
   Sellers.isLoading (Sellers.st w) = true ->
   Sellers.step w (Sellers.PageChange n) = w) /\
  (~ (n < 1 \/ Sellers.totalPages (Sellers.st w) < n \/
      n = Sellers.currentPage (Sellers.st w) \/
      Sellers.isLoading (Sellers.st w) = true) ->
   Sellers.sent (Sellers.step w (Sellers.PageChange n))
   = Sellers.mkParams n Sellers.PAGE_SIZE
       (Sellers.orUndefined
          (if Sellers.isSearchDirty (Sellers.st w)
           then Sellers.search (Sellers.st w)
           else Sellers.lastFetchedSearch (Sellers.st w)))
     :: Sellers.sent w /\
   Sellers.latestRequestRef (Sellers.step w (Sellers.PageChange n))
   = Sellers.latestRequestRef w + 1) /\
  Appointments.totalPages (Appointments.st Samples.callsLoaded) = 3 /\
  Appointments.step Samples.callsLoaded (Appointments.PageChange 5)
  = Samples.callsLoaded.
Proof.
  split; [|split; [|split; [|split; [|split; reflexivity]]]].
  - intros H. cbn. unfold Appointments.handlePageChange.
    destruct (Z.ltb_spec n 1); [done|].
    destruct (Z.ltb_spec (Appointments.totalPages (Appointments.st a)) n); [done|].
    destruct (Z.eqb_spec n (Appointments.currentPage (Appointments.st a))); [done|].
    destruct (Appointments.isLoading (Appointments.st a)); [done|].
    exfalso. destruct H as [?|[?|[?|?]]]; (lia || done).
  - intros H. cbn. unfold Appointments.handlePageChange.
    destruct (Z.ltb_spec n 1); [exfalso; apply H; auto|].
    destruct (Z.ltb_spec (Appointments.totalPages (Appointments.st a)) n);
      [exfalso; apply H; auto|].
    destruct (Z.eqb_spec n (Appointments.currentPage (Appointments.st a)));
      [exfalso; apply H; auto|].
    destruct (Appointments.isLoading (Appointments.st a)) eqn:Hl;
      [exfalso; apply H; auto|].
    reflexivity.
  - intros H. unfold Sellers.step. cbn. unfold Sellers.handlePageChange.
    destruct (Z.ltb_spec n 1); [apply debounceEffect_id|].
    destruct (Z.ltb_spec (Sellers.totalPages (Sellers.st w)) n);
      [apply debounceEffect_id|].
    destruct (Z.eqb_spec n (Sellers.currentPage (Sellers.st w)));
      [apply debounceEffect_id|].
    destruct (Sellers.isLoading (Sellers.st w)); [apply debounceEffect_id|].
    exfalso. destruct H as [?|[?|[?|?]]]; (lia || done).
  - intros H. unfold Sellers.step.
    rewrite debounceEffect_sent, debounceEffect_latest.
    cbn. unfold Sellers.handlePageChange.
    destruct (Z.ltb_spec n 1); [exfalso; apply H; auto|].
    destruct (Z.ltb_spec (Sellers.totalPages (Sellers.st w)) n);
      [exfalso; apply H; auto|].
    destruct (Z.eqb_spec n (Sellers.currentPage (Sellers.st w)));
      [exfalso; apply H; auto|].
    destruct (Sellers.isLoading (Sellers.st w)) eqn:Hl;
      [exfalso; apply H; auto|].
    split; reflexivity.
Qed.

Lemma handlePageChange_guard_and_request_witness :
  Sellers.step Samples.sellersLoaded (Sellers.PageChange 4) = Samples.sellersLoaded /\
  Sellers.sent (Sellers.step Samples.sellersLoaded (Sellers.PageChange 3))
  = Sellers.mkParams 3 50 None :: Sellers.sent Samples.sellersLoaded /\
  Appointments.sent (Appointments.step Samples.callsLoaded (Appointments.PageChange 2))
  = Appointments.mkParams 20 2 None :: Appointments.sent Samples.callsLoaded.
Proof.
  destruct (handlePageChange_guard_and_request
              Samples.callsLoaded Samples.sellersLoaded 4) as (_ & _ & H & _).
  destruct (handlePageChange_guard_and_request
              Samples.callsLoaded Samples.sellersLoaded 3) as (_ & _ & _ & H3 & _).
  destruct (handlePageChange_guard_and_request
              Samples.callsLoaded Samples.sellersLoaded 2) as (_ & H2 & _).
  split; [|split].
  - apply H. right. left. vm_compute. reflexivity.
  - apply H3. vm_compute. intros [?|[?|[?|?]]]; done.
  - apply H2. vm_compute. intros [?|[?|[?|?]]]; done.
Defined.

(** C6, counterexample.  The search box holds "a", the last fetched term is
    still the empty one and nothing is loading (the user typed while the
    first load was in flight).  [handlePageChange(2)] then asks for page 2
    of the search "a", not of the applied (empty) search.  Besides, the
    guard reads [isLoading], not the suspended calls: on the appointments
    page, with an earlier request still unanswered after a later one was
    answered, [handlePageChange(2)] sends a request. *)
Lemma handlePageChange_sends_pending_search :
  (Appointments.fetches Samples.callsFilteredTwice <> [] /\
   Appointments.step Samples.callsFilteredTwice (Appointments.PageChange 2)
   <> Samples.callsFilteredTwice) /\
  Sellers.isLoading (Sellers.st Samples.sellersTypedDuringLoad) = false /\
  Sellers.lastFetchedSearch (Sellers.st Samples.sellersTypedDuringLoad) = "" /\
  Sellers.sent (Sellers.step Samples.sellersTypedDuringLoad (Sellers.PageChange 2))
  = Sellers.mkParams 2 50 (Some "a")
    :: Sellers.sent Samples.sellersTypedDuringLoad /\
  Sellers.sent (Sellers.step Samples.sellersTypedDuringLoad (Sellers.PageChange 2))
  <> Sellers.mkParams 2 50
       (Sellers.orUndefined
          (Sellers.lastFetchedSearch (Sellers.st Samples.sellersTypedDuringLoad)))
     :: Sellers.sent Samples.sellersTypedDuringLoad.
Proof.
  split.
  { split; [by vm_compute|]. intros H.
    apply (f_equal Appointments.sent) in H. vm_compute in H. discriminate H. }
  split; [reflexivity|]. split; [reflexivity|]. split; [reflexivity|].
  vm_compute. intros H. discriminate H.
Qed.

(** C7.  While [isDeleting] is set the cancel action of the confirmation
    dialog changes nothing, so the item stays pending deletion; when it is
    not set, cancel clears the pending item and nothing else.  Both pages
    behave alike. *)
Theorem cancel_delete_ignored_while_deleting
    (w : Sellers.World) (a : Appointments.World) :
  (Sellers.isDeleting (Sellers.st w) = true ->
   Sellers.step w Sellers.CancelDelete = w) /\
  (Sellers.isDeleting (Sellers.st w) = false ->
   Sellers.step w Sellers.CancelDelete
   = Sellers.withState (Sellers.setSellerPendingDeletion None) w /\
   Sellers.sellerPendingDeletion
     (Sellers.st (Sellers.step w Sellers.CancelDelete)) = None) /\
  (Appointments.isDeletingAppointment (Appointments.st a) = true ->
   Appointments.step a Appointments.CancelDelete = a) /\
  (Appointments.isDeletingAppointment (Appointments.st a) = false ->
   Appointments.step a Appointments.CancelDelete
   = Appointments.withState (Appointments.setAppointmentPendingDeletion None) a /\
   Appointments.appointmentPendingDeletion
     (Appointments.st (Appointments.step a Appointments.CancelDelete)) = None).
Proof.
  split; [|split; [|split]].
  - intros H. unfold Sellers.step. cbn.
    unfold Sellers.handleCancelDeleteSeller. rewrite H.
    apply debounceEffect_id.
  - intros H. unfold Sellers.step. cbn.
    unfold Sellers.handleCancelDeleteSeller. rewrite H.
    rewrite debounceEffect_same_deps by reflexivity. done.
  - intros H. cbn. unfold Appointments.handleCancelDeleteAppointment.
    by rewrite H.
  - intros H. cbn. unfold Appointments.handleCancelDeleteAppointment.
    by rewrite H.
Qed.

Lemma cancel_delete_ignored_while_deleting_witness :
  (Sellers.sellerPendingDeletion (Sellers.st Samples.sellersDeleting)
   = Some (Sellers.mkSeller "s1" "Ana") /\
   Sellers.step Samples.sellersDeleting Sellers.CancelDelete
   = Samples.sellersDeleting) /\
  Sellers.sellerPendingDeletion
    (Sellers.st (Sellers.step Samples.sellersAskingDelete Sellers.CancelDelete))
  = None /\
  Appointments.step Samples.callsDeleting Appointments.CancelDelete
  = Samples.callsDeleting /\
  Appointments.appointmentPendingDeletion
    (Appointments.st
       (Appointments.step Samples.callsAskingDelete Appointments.CancelDelete))
  = None.
Proof.
  destruct (cancel_delete_ignored_while_deleting
              Samples.sellersDeleting Samples.callsDeleting)
    as (H1 & _ & H3 & _).
  destruct (cancel_delete_ignored_while_deleting
              Samples.sellersAskingDelete Samples.callsAskingDelete)
    as (_ & H2 & _ & H4).
  split; [split; [reflexivity | apply H1; reflexivity]|].
  split; [apply H2; reflexivity|].
  split; [apply H3; reflexivity | apply H4; reflexivity].
Defined.

Lemma lookup_app_length {A} (l : list A) (x : A) :
  (l ++ [x]) !! length l = Some x.
Proof. rewrite lookup_app_r by lia. by rewrite Nat.sub_diag. Qed.






(* --------------------------------------------------------------------- *)
(** *** What one event can do to the sellers page                         *)
(* --------------------------------------------------------------------- *)

Lemma passive_refl (w : Sellers.World) : Sellers.passive w w.
Proof. by unfold Sellers.passive. Qed.

Lemma passive_withState (f : Sellers.State -> Sellers.State) (w : Sellers.World) :
  (forall s, Sellers.sellers (f s) = Sellers.sellers s) ->
  (forall s, Sellers.total (f s) = Sellers.total s) ->
  (forall s, Sellers.currentPage (f s) = Sellers.currentPage s) ->
  (forall s, Sellers.lastFetchedSearch (f s) = Sellers.lastFetchedSearch s) ->
  Sellers.passive w (Sellers.withState f w).
Proof. intros H1 H2 H3 H4. unfold Sellers.passive. cbn. by rewrite H1, H2, H3, H4. Qed.

Lemma passive_debounceEffect (before : Sellers.State) (w w' : Sellers.World) :
  Sellers.passive w w' -> Sellers.passive w (Sellers.debounceEffect before w').
Proof.
  unfold Sellers.passive.
  by rewrite debounceEffect_latest, debounceEffect_inflight, debounceEffect_sent,
    debounceEffect_st.
Qed.

Lemma fetchSellers_latest cl options aw w :
  Sellers.latestRequestRef (Sellers.fetchSellers cl options aw w)
  = Sellers.latestRequestRef w + 1.
Proof. reflexivity. Qed.

Ltac sellers_passive :=
  first
    [ apply passive_refl
    | apply passive_withState; intros []; reflexivity ].

(** An event either issues a fetch (the token grows by one), or leaves
    everything a fetch writes alone, or is the settlement of a suspended
    fetch. *)
Lemma handle_cases (w : Sellers.World) (e : Sellers.Event) :
  Sellers.latestRequestRef (Sellers.handle e w) = Sellers.latestRequestRef w + 1
  \/ Sellers.passive w (Sellers.handle e w)
  \/ exists id o rq, e = Sellers.FetchSettled id o /\ Sellers.inflight w !! id = Some rq.
Proof.
  destruct e; cbn [Sellers.handle].
  - unfold Sellers.mountEffect. destruct (Sellers.hasFetchedInitial w); [right; left|left]; sellers_passive || done.
  - right; left. unfold Sellers.handleSearchChange. sellers_passive.
  - by left.
  - by left.
  - unfold Sellers.handlePageChange.
    destruct (_ || _); [right; left; sellers_passive | by left].
  - unfold Sellers.handlePreviousPage, Sellers.handlePageChange.
    destruct (negb _); [right; left; sellers_passive|].
    destruct (_ || _); [right; left; sellers_passive | by left].
  - unfold Sellers.handleNextPage, Sellers.handlePageChange.
    destruct (negb _); [right; left; sellers_passive|].
    destruct (_ || _); [right; left; sellers_passive | by left].
  - right; left. unfold Sellers.openModal. sellers_passive.
  - right; left. unfold Sellers.closeModal. sellers_passive.
  - right; left. unfold Sellers.handleSubmit, Sellers.passive. by destruct w as [[] ? ? ? ? ? ? ?].
  - right; left. unfold Sellers.requestDeleteSeller. sellers_passive.
  - right; left. unfold Sellers.handleConfirmDeleteSeller.
    destruct (Sellers.sellerPendingDeletion _); [|sellers_passive].
    unfold Sellers.passive. by destruct w as [[] ? ? ? ? ? ? ?].
  - right; left. unfold Sellers.handleCancelDeleteSeller.
    destruct (Sellers.isDeleting _); sellers_passive.
  - unfold Sellers.tick. cbn.
    destruct (Sellers.debounceTimer w) as [t|]; [|right; left; by unfold Sellers.passive].
    destruct (_ <=? _); [by left | right; left; by unfold Sellers.passive].
  - unfold Sellers.settleFetch.
    destruct (Sellers.inflight w !! id) as [rq|] eqn:Hrq;
      [right; right; by exists id, o, rq | right; left; sellers_passive].
  - unfold Sellers.settleMutation.
    destruct (Sellers.mutations w !! i) as [[cl|cl]|]; [| |right; left; sellers_passive].
    + unfold Sellers.handleSubmit_resume. destruct ok; [by left|].
      right; left. unfold Sellers.passive. by destruct w as [[] ? ? ? ? ? ? ?].
    + unfold Sellers.handleConfirmDeleteSeller_resume. destruct ok; [by left|].
      right; left. unfold Sellers.passive. by destruct w as [[] ? ? ? ? ? ? ?].
Qed.

Lemma withState_id (w : Sellers.World) : Sellers.withState (fun s => s) w = w.
Proof. by destruct w. Qed.

(** The first half of C1 on the sellers page: a response, good or bad,
    whose token is not the latest leaves the whole component as it was. *)
Lemma fetchSellers_resume_stale (id : Z) (rq : Sellers.Request)
    (o : Sellers.Outcome) (w : Sellers.World) :
  id <> Sellers.latestRequestRef w ->
  Sellers.fetchSellers_resume id rq o w = w.
Proof.
  intros Hne. unfold Sellers.fetchSellers_resume.
  destruct (Z.eqb_spec id (Sellers.latestRequestRef w)) as [|_]; [done|].
  cbn. destruct o; apply withState_id.
Qed.

Lemma awaiter_resume_passive (aw : Sellers.Awaiter) (w : Sellers.World) :
  Sellers.passive w (Sellers.awaiter_resume aw w).
Proof. destruct aw; cbn; sellers_passive. Qed.

Lemma settleFetch_stale (id : Z) (o : Sellers.Outcome) (rq : Sellers.Request)
    (w : Sellers.World) :
  Sellers.inflight w !! id = Some rq ->
  id <> Sellers.latestRequestRef w ->
  let w' := Sellers.settleFetch id o w in
  Sellers.latestRequestRef w' = Sellers.latestRequestRef w /\
  Sellers.inflight w' = delete id (Sellers.inflight w) /\
  Sellers.sent w' = Sellers.sent w /\
  Sellers.sellers (Sellers.st w') = Sellers.sellers (Sellers.st w) /\
  Sellers.total (Sellers.st w') = Sellers.total (Sellers.st w) /\
  Sellers.currentPage (Sellers.st w') = Sellers.currentPage (Sellers.st w) /\
  Sellers.lastFetchedSearch (Sellers.st w') = Sellers.lastFetchedSearch (Sellers.st w).
Proof.
  intros Hrq Hne. cbn zeta. unfold Sellers.settleFetch. rewrite Hrq.
  rewrite fetchSellers_resume_stale by done.
  destruct (awaiter_resume_passive (Sellers.awaiter rq)
              (Sellers.mkWorld (Sellers.st w) (Sellers.latestRequestRef w)
                 (Sellers.hasFetchedInitial w) (Sellers.now w)
                 (Sellers.debounceTimer w) (delete id (Sellers.inflight w))
                 (Sellers.mutations w) (Sellers.sent w)))
    as (H1 & H2 & H3 & H4 & H5 & H6 & H7).
  by rewrite H1, H2, H3, H4, H5, H6, H7.
Qed.

Lemma settleFetch_latest (id : Z) (o : Sellers.Outcome) (rq : Sellers.Request)
    (w : Sellers.World) :
  Sellers.inflight w !! id = Some rq ->
  id = Sellers.latestRequestRef w ->
  let w' := Sellers.settleFetch id o w in
  Sellers.latestRequestRef w' = Sellers.latestRequestRef w /\
  Sellers.inflight w' = delete id (Sellers.inflight w) /\
  Sellers.sent w' = Sellers.sent w /\
  Sellers.isLoading (Sellers.st w') = false /\
  match o with
  | Sellers.Resolved r =>
      Sellers.sellers (Sellers.st w') = Sellers.resp_data r /\
      Sellers.total (Sellers.st w') = Sellers.resp_total r /\
      Sellers.currentPage (Sellers.st w')
      = default (Sellers.pageToFetch rq) (Sellers.resp_page r) /\
      Sellers.lastFetchedSearch (Sellers.st w') = Sellers.searchTerm rq /\
      Sellers.error (Sellers.st w') = Sellers.error (Sellers.st w)
  | Sellers.Rejected =>
      Sellers.sellers (Sellers.st w') = Sellers.sellers (Sellers.st w) /\
      Sellers.total (Sellers.st w') = Sellers.total (Sellers.st w) /\
      Sellers.currentPage (Sellers.st w')
      = (if Sellers.pageToFetch rq =? Sellers.previousPage rq
         then Sellers.currentPage (Sellers.st w)
         else Sellers.previousPage rq) /\
      Sellers.lastFetchedSearch (Sellers.st w')
      = Sellers.lastFetchedSearch (Sellers.st w) /\
      Sellers.error (Sellers.st w') = Some Sellers.fetchErrorMessage
  end.
Proof.
  intros Hrq ->. cbn zeta. unfold Sellers.settleFetch. rewrite Hrq.
  unfold Sellers.fetchSellers_resume. cbn [Sellers.latestRequestRef].
  rewrite Z.eqb_refl. cbn [negb].
  destruct (Sellers.awaiter rq), o; cbn; repeat split;
    by destruct (Sellers.pageToFetch rq =? Sellers.previousPage rq).
Qed.

Lemma step_latest_mono (w : Sellers.World) (e : Sellers.Event) :
  Sellers.latestRequestRef w <= Sellers.latestRequestRef (Sellers.step w e).
Proof.
  unfold Sellers.step. rewrite debounceEffect_latest.
  destruct (handle_cases w e) as [H|[H|(id & o & rq & -> & Hrq)]].
  - lia.
  - destruct H as (H & _). lia.
  - cbn [Sellers.handle].
    destruct (Z.eq_dec id (Sellers.latestRequestRef w)) as [Heq|Hne].
    + destruct (settleFetch_latest id o rq w Hrq Heq) as (H & _). lia.
    + destruct (settleFetch_stale id o rq w Hrq Hne) as (H & _). lia.
Qed.

Lemma run_snoc (w : Sellers.World) (es : list Sellers.Event) (e : Sellers.Event) :
  Sellers.run w (es ++ [e]) = Sellers.step (Sellers.run w es) e.
Proof. unfold Sellers.run. by rewrite fold_left_app. Qed.

Lemma run_app (w : Sellers.World) (es1 es2 : list Sellers.Event) :
  Sellers.run w (es1 ++ es2) = Sellers.run (Sellers.run w es1) es2.
Proof. unfold Sellers.run. by rewrite fold_left_app. Qed.

Lemma run_latest_mono (w : Sellers.World) (es : list Sellers.Event) :
  Sellers.latestRequestRef w <= Sellers.latestRequestRef (Sellers.run w es).
Proof.
  revert w. induction es as [|e es IH]; intros w; cbn; [lia|].
  pose proof (step_latest_mono w e). specialize (IH (Sellers.step w e)).
  unfold Sellers.run in IH. lia.
Qed.

(** Once the request holding the latest token has settled, nothing that
    happens while the token stays the latest touches list, total or page. *)
Lemma step_frozen (w : Sellers.World) (e : Sellers.Event) :
  Sellers.inflight w !! Sellers.latestRequestRef w = None ->
  Sellers.latestRequestRef (Sellers.step w e) = Sellers.latestRequestRef w ->
  Sellers.inflight (Sellers.step w e) !! Sellers.latestRequestRef w = None /\
  Sellers.sellers (Sellers.st (Sellers.step w e)) = Sellers.sellers (Sellers.st w) /\
  Sellers.total (Sellers.st (Sellers.step w e)) = Sellers.total (Sellers.st w) /\
  Sellers.currentPage (Sellers.st (Sellers.step w e))
  = Sellers.currentPage (Sellers.st w).
Proof.
  unfold Sellers.step.
  rewrite debounceEffect_latest, debounceEffect_inflight, debounceEffect_st.
  intros Hnone Hsame.
  destruct (handle_cases w e) as [H|[H|(id & o & rq & -> & Hrq)]].
  - lia.
  - destruct H as (_ & H2 & _ & H4 & H5 & H6 & _). by rewrite H2, H4, H5, H6.
  - cbn [Sellers.handle] in *.
    assert (id <> Sellers.latestRequestRef w) as Hne by congruence.
    destruct (settleFetch_stale id o rq w Hrq Hne) as (_ & H2 & _ & H4 & H5 & H6 & _).
    rewrite H2, H4, H5, H6. by rewrite lookup_delete_ne.
Qed.

Lemma run_frozen (es : list Sellers.Event) (w : Sellers.World) :
  Sellers.inflight w !! Sellers.latestRequestRef w = None ->
  Sellers.latestRequestRef (Sellers.run w es) = Sellers.latestRequestRef w ->
  Sellers.sellers (Sellers.st (Sellers.run w es)) = Sellers.sellers (Sellers.st w) /\
  Sellers.total (Sellers.st (Sellers.run w es)) = Sellers.total (Sellers.st w) /\
  Sellers.currentPage (Sellers.st (Sellers.run w es))
  = Sellers.currentPage (Sellers.st w).
Proof.
  revert w. induction es as [|e es IH]; intros w Hnone Hsame; [done|].
  change (Sellers.run w (e :: es)) with (Sellers.run (Sellers.step w e) es) in *.
  pose proof (step_latest_mono w e) as Hm1.
  pose proof (run_latest_mono (Sellers.step w e) es) as Hm2.
  assert (Sellers.latestRequestRef (Sellers.step w e) = Sellers.latestRequestRef w)
    as Hstep by lia.
  destruct (step_frozen w e Hnone Hstep) as (Hn & H1 & H2 & H3).
  destruct (IH (Sellers.step w e)) as (G1 & G2 & G3).
  - by rewrite Hstep.
  - lia.
  - by rewrite G1, G2, G3.
Qed.

(** While a request keeps the latest token and is still suspended, the
    current page is the page it asked for. *)
Lemma step_pending (L : Z) (rq : Sellers.Request) (w : Sellers.World)
    (e : Sellers.Event) :
  (L <= Sellers.latestRequestRef w /\
   (Sellers.latestRequestRef w = L ->
    Sellers.inflight w !! L = None \/
    (Sellers.inflight w !! L = Some rq /\
     Sellers.currentPage (Sellers.st w) = Sellers.pageToFetch rq))) ->
  L <= Sellers.latestRequestRef (Sellers.step w e) /\
  (Sellers.latestRequestRef (Sellers.step w e) = L ->
   Sellers.inflight (Sellers.step w e) !! L = None \/
   (Sellers.inflight (Sellers.step w e) !! L = Some rq /\
    Sellers.currentPage (Sellers.st (Sellers.step w e)) = Sellers.pageToFetch rq)).
Proof.
  intros [Hle Hinv]. pose proof (step_latest_mono w e) as Hmono.
  split; [lia|]. intros Hlatest.
  assert (Sellers.latestRequestRef w = L) as HL by lia.
  specialize (Hinv HL). revert Hlatest. unfold Sellers.step.
  rewrite debounceEffect_latest, debounceEffect_inflight, debounceEffect_st.
  intros Hlatest.
  destruct (handle_cases w e) as [H|[H|(id & o & rq' & -> & Hrq)]].
  - lia.
  - destruct H as (_ & H2 & _ & _ & _ & H6 & _). by rewrite H2, H6.
  - cbn [Sellers.handle] in *.
    destruct (Z.eq_dec id (Sellers.latestRequestRef w)) as [Heq|Hne].
    + destruct (settleFetch_latest id o rq' w Hrq Heq) as (_ & H2 & _).
      left. rewrite H2, <- HL, <- Heq. apply lookup_delete_eq.
    + destruct (settleFetch_stale id o rq' w Hrq Hne)
        as (_ & H2 & _ & _ & _ & H6 & _).
      rewrite H2, H6. rewrite lookup_delete_ne by congruence. exact Hinv.
Qed.

Lemma run_pending (L : Z) (rq : Sellers.Request) (es : list Sellers.Event)
    (w : Sellers.World) :
  (L <= Sellers.latestRequestRef w /\
   (Sellers.latestRequestRef w = L ->
    Sellers.inflight w !! L = None \/
    (Sellers.inflight w !! L = Some rq /\
     Sellers.currentPage (Sellers.st w) = Sellers.pageToFetch rq))) ->
  L <= Sellers.latestRequestRef (Sellers.run w es) /\
  (Sellers.latestRequestRef (Sellers.run w es) = L ->
   Sellers.inflight (Sellers.run w es) !! L = None \/
   (Sellers.inflight (Sellers.run w es) !! L = Some rq /\
    Sellers.currentPage (Sellers.st (Sellers.run w es)) = Sellers.pageToFetch rq)).
Proof.
  revert w. induction es as [|e es IH]; intros w H; [exact H|].
  change (Sellers.run w (e :: es)) with (Sellers.run (Sellers.step w e) es).
  apply IH. by apply step_pending.
Qed.

(** The request that [fetchSellers] files, and the state it leaves, when
    called from a render [cl] that shows the current page. *)
Lemma fetchSellers_issued (cl before : Sellers.State)
    (options : option Sellers.FetchOptions)
    (aw : Sellers.Awaiter) (w : Sellers.World) :
  Sellers.currentPage cl = Sellers.currentPage (Sellers.st w) ->
  let w1 := Sellers.debounceEffect before
              (Sellers.fetchSellers cl options aw w) in
  let rq := Sellers.mkRequest
              (default (Sellers.currentPage cl) (options ≫= Sellers.opt_page))
              (default (Sellers.lastFetchedSearch cl)
                 (options ≫= Sellers.opt_searchTerm))
              (Sellers.currentPage cl) aw in
  Sellers.latestRequestRef w1 = Sellers.latestRequestRef w + 1 /\
  Sellers.inflight w1 !! (Sellers.latestRequestRef w + 1) = Some rq /\
  Sellers.currentPage (Sellers.st w1) = Sellers.pageToFetch rq /\
  Sellers.sent w1
  = Sellers.mkParams (Sellers.pageToFetch rq) Sellers.PAGE_SIZE
      (Sellers.orUndefined (Sellers.searchTerm rq)) :: Sellers.sent w.
Proof.
  intros Hcl. cbn zeta.
  rewrite debounceEffect_latest, debounceEffect_inflight, debounceEffect_st,
    debounceEffect_sent.
  unfold Sellers.fetchSellers. cbn.
  split; [done|]. split; [apply lookup_insert_eq|]. split; [|done].
  destruct (Z.eqb_spec (default (Sellers.currentPage cl)
                          (options ≫= Sellers.opt_page))
              (Sellers.currentPage cl)) as [Heq|_]; [|done].
  cbn. congruence.
Qed.

Lemma sellers_failed_fetch (w : Sellers.World) (cl before : Sellers.State)
    (options : option Sellers.FetchOptions) (aw : Sellers.Awaiter)
    (es : list Sellers.Event) :
  Sellers.currentPage cl = Sellers.currentPage (Sellers.st w) ->
  let w1 := Sellers.debounceEffect before
              (Sellers.fetchSellers cl options aw w) in
  let w2 := Sellers.run w1 es in
  Sellers.latestRequestRef w2 = Sellers.latestRequestRef w1 ->
  is_Some (Sellers.inflight w2 !! Sellers.latestRequestRef w1) ->
  let w3 := Sellers.step w2
              (Sellers.FetchSettled (Sellers.latestRequestRef w1) Sellers.Rejected) in
  Sellers.error (Sellers.st w3) = Some Sellers.fetchErrorMessage /\
  Sellers.currentPage (Sellers.st w3) = Sellers.currentPage (Sellers.st w) /\
  Sellers.sellers (Sellers.st w3) = Sellers.sellers (Sellers.st w2) /\
  Sellers.total (Sellers.st w3) = Sellers.total (Sellers.st w2).
Proof.
  intros Hcl. cbn zeta. intros Hlatest Hsome.
  destruct (fetchSellers_issued cl before options aw w Hcl) as (H1 & H2 & H3 & _).
  cbn zeta in *.
  set (w1 := Sellers.debounceEffect before
               (Sellers.fetchSellers cl options aw w)) in *.
  set (rq := Sellers.mkRequest _ _ _ _) in *.
  destruct (run_pending (Sellers.latestRequestRef w1) rq es w1) as [_ Hinv].
  { split; [lia|]. intros _. right. rewrite H1. by split. }
  specialize (Hinv Hlatest).
  destruct Hinv as [Hnone|[Hrq Hpage]].
  { rewrite Hnone in Hsome. by destruct Hsome. }
  unfold Sellers.step. rewrite debounceEffect_st. cbn [Sellers.handle].
  destruct (settleFetch_latest (Sellers.latestRequestRef w1) Sellers.Rejected rq
              (Sellers.run w1 es) Hrq (eq_sym Hlatest))
    as (_ & _ & _ & _ & G1 & G2 & G3 & _ & G5).
  rewrite G1, G2, G3, G5. repeat split.
  rewrite Hpage. subst rq. cbn.
  destruct (Z.eqb_spec (default (Sellers.currentPage cl)
                          (options ≫= Sellers.opt_page))
              (Sellers.currentPage cl)); congruence.
Qed.

Lemma appointments_failed_fetch (a later : Appointments.World)
    (cl : Appointments.State)
    (options : option Appointments.FetchOptions) (aw : Appointments.Awaiter)
    (rq : Appointments.Request) :
  Appointments.currentPage cl = Appointments.currentPage (Appointments.st a) ->
  last (Appointments.fetches (Appointments.fetchAppointments cl options aw a))
  = Some rq ->
  let a3 := Appointments.fetchAppointments_resume rq Appointments.Rejected later in
  Appointments.error (Appointments.st a3) = Some Appointments.fetchErrorMessage /\
  Appointments.currentPage (Appointments.st a3)
  = Appointments.currentPage (Appointments.st a) /\
  Appointments.appointments (Appointments.st a3)
  = Appointments.appointments (Appointments.st later) /\
  Appointments.total (Appointments.st a3) = Appointments.total (Appointments.st later).
Proof.
  intros Hcl. unfold Appointments.fetchAppointments. cbn [Appointments.fetches].
  rewrite last_snoc. intros [= <-]. by cbn.
Qed.

(** Where the page does go back.  A fetch is called from a render that
    shows the current page (as every handler run from the current render
    does) and is later
    rejected.  On the sellers page, if its token is still the latest and
    it has not settled before, whatever else happened in between, the
    rejection stores the error message and the current page is again the
    one held when the fetch was called.  On the appointments page, which
    has no token, every rejection does so.  In particular a rejected
    [handlePageChange(n)] leaves the page it started from. *)
Theorem failed_fetch_reverts_page
    (w : Sellers.World) (cl before : Sellers.State)
    (options : option Sellers.FetchOptions)
    (aw : Sellers.Awaiter) (es : list Sellers.Event)
    (a later : Appointments.World) (cl' : Appointments.State)
    (options' : option Appointments.FetchOptions) (aw' : Appointments.Awaiter)
    (n : Z) :
  (Sellers.currentPage cl = Sellers.currentPage (Sellers.st w) ->
   let w1 := Sellers.debounceEffect before
               (Sellers.fetchSellers cl options aw w) in
   let w2 := Sellers.run w1 es in
   Sellers.latestRequestRef w2 = Sellers.latestRequestRef w1 ->
   is_Some (Sellers.inflight w2 !! Sellers.latestRequestRef w1) ->
   let w3 := Sellers.step w2
               (Sellers.FetchSettled (Sellers.latestRequestRef w1) Sellers.Rejected) in
   Sellers.error (Sellers.st w3) = Some Sellers.fetchErrorMessage /\
   Sellers.currentPage (Sellers.st w3) = Sellers.currentPage (Sellers.st w)) /\
  (Appointments.currentPage cl' = Appointments.currentPage (Appointments.st a) ->
   forall rq,
     last (Appointments.fetches
             (Appointments.fetchAppointments cl' options' aw' a))
     = Some rq ->
     let a3 := Appointments.fetchAppointments_resume rq Appointments.Rejected later in
     Appointments.error (Appointments.st a3) = Some Appointments.fetchErrorMessage /\
     Appointments.currentPage (Appointments.st a3)
     = Appointments.currentPage (Appointments.st a)) /\
  (Sellers.step w (Sellers.PageChange n) <> w ->
   let w3 := Sellers.run w
               [Sellers.PageChange n;
                Sellers.FetchSettled (Sellers.latestRequestRef w + 1) Sellers.Rejected] in
   Sellers.currentPage (Sellers.st (Sellers.step w (Sellers.PageChange n))) = n /\
   Sellers.error (Sellers.st w3) = Some Sellers.fetchErrorMessage /\
   Sellers.currentPage (Sellers.st w3) = Sellers.currentPage (Sellers.st w)) /\
  (Appointments.step a (Appointments.PageChange n) <> a ->
   let a3 := Appointments.run a
               [Appointments.PageChange n;
                Appointments.FetchSettled (length (Appointments.fetches a))
                  Appointments.Rejected] in
   Appointments.currentPage
     (Appointments.st (Appointments.step a (Appointments.PageChange n))) = n /\
   Appointments.error (Appointments.st a3) = Some Appointments.fetchErrorMessage /\
   Appointments.currentPage (Appointments.st a3)
   = Appointments.currentPage (Appointments.st a)).
Proof.
  split; [|split; [|split]].
  - cbn zeta. intros Hcl H1 H2.
    destruct (sellers_failed_fetch w cl before options aw es Hcl H1 H2)
      as (G1 & G2 & _).
    by split.
  - intros Hcl rq Hrq.
    destruct (appointments_failed_fetch a later cl' options' aw' rq Hcl Hrq)
      as (G1 & G2 & _).
    by split.
  - intros Hmoved. cbn zeta.
    set (options0 := Some (Sellers.mkOptions (Some n)
                             (Some (Sellers.appliedOrPendingSearch (Sellers.st w))))).
    assert (Sellers.step w (Sellers.PageChange n)
            = Sellers.debounceEffect (Sellers.st w)
                (Sellers.fetchSellers (Sellers.st w) options0 Sellers.NotAwaited w))
      as Hstep.
    { unfold Sellers.step in *. cbn [Sellers.handle] in *.
      unfold Sellers.handlePageChange in *.
      destruct (_ || _); [|done]. exfalso. apply Hmoved. apply debounceEffect_id. }
    destruct (fetchSellers_issued (Sellers.st w) (Sellers.st w) options0
                Sellers.NotAwaited w eq_refl) as (H1 & H2 & H3 & _).
    cbn zeta in H1, H2, H3.
    pose proof (sellers_failed_fetch w (Sellers.st w) (Sellers.st w) options0
                  Sellers.NotAwaited [] eq_refl) as H.
    cbn zeta in H. unfold Sellers.run in H. cbn [fold_left] in H.
    rewrite H1 in H. specialize (H eq_refl). rewrite H2 in H.
    specialize (H (mk_is_Some _ _ eq_refl)).
    unfold Sellers.run. cbn [fold_left]. rewrite Hstep.
    destruct H as (G1 & G2 & _). by split.
  - intros Hmoved. cbn zeta.
    unfold Appointments.run. cbn [fold_left].
    assert (Appointments.step a (Appointments.PageChange n)
            = Appointments.fetchAppointments (Appointments.st a)
                (Some (Appointments.mkOptions (Some n) None))
                Appointments.NotAwaited a) as Hstep.
    { cbn [Appointments.step] in *. unfold Appointments.handlePageChange in *.
      by destruct (_ || _). }
    rewrite Hstep. cbn [Appointments.step]. unfold Appointments.settleFetch.
    set (a1 := Appointments.fetchAppointments _ _ _ _).
    assert (Appointments.fetches a1 !! length (Appointments.fetches a)
            = Some (Appointments.mkRequest n
                      (Appointments.selectedStatus (Appointments.st a))
                      (Appointments.currentPage (Appointments.st a))
                      Appointments.NotAwaited)) as ->
      by apply lookup_app_length.
    split; [|by cbn].
    subst a1. unfold Appointments.fetchAppointments. cbn.
    by destruct (Z.eqb_spec n (Appointments.currentPage (Appointments.st a))).
Qed.

Lemma failed_fetch_reverts_page_witness :
  Sellers.currentPage
    (Sellers.st (Sellers.run Samples.sellersLoaded [Sellers.PageChange 2])) = 2 /\
  Sellers.currentPage
    (Sellers.st
       (Sellers.run Samples.sellersLoaded
          [Sellers.PageChange 2; Sellers.FetchSettled 2 Sellers.Rejected])) = 1 /\
  Appointments.currentPage
    (Appointments.st
       (Appointments.run Samples.callsLoaded
          [Appointments.PageChange 2;
           Appointments.FetchSettled 0 Appointments.Rejected])) = 1.
Proof.
  destruct (failed_fetch_reverts_page Samples.sellersLoaded
              (Sellers.st Samples.sellersLoaded) (Sellers.st Samples.sellersLoaded)
              None Sellers.NotAwaited []
              Samples.callsLoaded Samples.callsLoaded
              (Appointments.st Samples.callsLoaded) None Appointments.NotAwaited 2)
    as (_ & _ & H3 & H4).
  split; [reflexivity|]. split.
  - apply H3. intros H. apply (f_equal Sellers.latestRequestRef) in H.
    vm_compute in H. discriminate H.
  - apply H4. intros H. apply (f_equal Appointments.sent) in H.
    vm_compute in H. discriminate H.
Defined.

(** C2, the defect.  [handleSubmit] re-fetches after its [await] through
    the [fetchAppointments] (or [fetchSellers]) of the render that started
    it, whose [currentPage] is by then out of date.  Page 1 is shown and
    page 2 is asked for; while that request is pending a new item is
    submitted; the request for page 2 is rejected and the page is 1 again;
    the save succeeds and re-fetches from the old render.  When this
    re-fetch is rejected, its [previousPage] is the page of the old render,
    2, and that becomes the current page: a page that was not held when
    the fetch began and was never loaded, over the list of page 1.  On the
    sellers page the rejected request holds the latest token. *)
Theorem stale_closure_refetch_moves_page :
  let a0 := Appointments.run Samples.callsLoaded
              [Appointments.PageChange 2; Appointments.OpenModal None;
               Appointments.Submit;
               Appointments.FetchSettled 0 Appointments.Rejected] in
  let a1 := Appointments.step a0 (Appointments.MutationSettled 0 true) in
  let a2 := Appointments.step a1
              (Appointments.FetchSettled 0 Appointments.Rejected) in
  let w0 := Sellers.run Samples.sellersLoaded
              [Sellers.PageChange 2; Sellers.OpenModal None; Sellers.Submit;
               Sellers.FetchSettled 2 Sellers.Rejected] in
  let w1 := Sellers.step w0 (Sellers.MutationSettled 0 true) in
  let w2 := Sellers.step w1 (Sellers.FetchSettled 3 Sellers.Rejected) in
  (* appointments: the page held when the re-fetch begins is 1 *)
  (Appointments.currentPage (Appointments.st a0) = 1 /\
   Appointments.fetches a0 = [] /\
   Appointments.sent a1
   = Appointments.mkParams 20 2 None :: Appointments.sent a0 /\
   Appointments.currentPage (Appointments.st a1) = 1 /\
   (* its rejection leaves page 2 over the list of page 1 *)
   Appointments.error (Appointments.st a2)
   = Some Appointments.fetchErrorMessage /\
   Appointments.currentPage (Appointments.st a2) = 2 /\
   Appointments.appointments (Appointments.st a2)
   = Appointments.resp_data Samples.callsAll) /\
  (* sellers: the same, and the rejected request holds the latest token *)
  (Sellers.currentPage (Sellers.st w0) = 1 /\
   Sellers.sent w1 = Sellers.mkParams 1 50 None :: Sellers.sent w0 /\
   Sellers.currentPage (Sellers.st w1) = 1 /\
   Sellers.latestRequestRef w1 = 3 /\
   is_Some (Sellers.inflight w1 !! 3) /\
   Sellers.error (Sellers.st w2) = Some Sellers.fetchErrorMessage /\
   Sellers.currentPage (Sellers.st w2) = 2 /\
   Sellers.sellers (Sellers.st w2) = Sellers.resp_data Samples.sellersPage1).
Proof.
  cbn zeta. split.
  - vm_compute. by repeat split.
  - split; [by vm_compute|]. split; [by vm_compute|]. split; [by vm_compute|].
    split; [by vm_compute|]. split; [eexists; by vm_compute|].
    split; [by vm_compute|]. split; by vm_compute.
Qed.

(* --------------------------------------------------------------------- *)
(** *** Time and the debounce timer                                       *)
(* --------------------------------------------------------------------- *)

Lemma later_0 (w : Sellers.World) : Sellers.later 0 w = w.
Proof. destruct w. unfold Sellers.later. cbn. f_equal. lia. Qed.

Lemma later_later (d1 d2 : Z) (w : Sellers.World) :
  Sellers.later d2 (Sellers.later d1 w) = Sellers.later (d1 + d2) w.
Proof. unfold Sellers.later. cbn. f_equal. lia. Qed.

(** A tick with no timer due only moves the clock. *)
Lemma step_tick_idle (w : Sellers.World) :
  match Sellers.debounceTimer w with
  | Some t => Sellers.now w + 1 < Sellers.deadline t
  | None => True
  end ->
  Sellers.step w Sellers.Tick = Sellers.later 1 w.
Proof.
  intros H. unfold Sellers.step. cbn [Sellers.handle]. unfold Sellers.tick.
  cbn [Sellers.debounceTimer Sellers.now].
  destruct (Sellers.debounceTimer w) as [t|] eqn:Ht.
  - destruct (Z.leb_spec (Sellers.deadline t) (Sellers.now w + 1)); [lia|].
    rewrite debounceEffect_same_deps by done.
    unfold Sellers.later. by rewrite Ht.
  - rewrite debounceEffect_same_deps by done.
    unfold Sellers.later. by rewrite Ht.
Qed.

Lemma ticks_idle (k : nat) (w : Sellers.World) :
  match Sellers.debounceTimer w with
  | Some t => Sellers.now w + Z.of_nat k < Sellers.deadline t
  | None => True
  end ->
  Sellers.run w (Sellers.ticks k) = Sellers.later (Z.of_nat k) w.
Proof.
  revert w. induction k as [|k IH]; intros w H.
  - cbn. by rewrite later_0.
  - change (Sellers.run w (Sellers.ticks (S k)))
      with (Sellers.run (Sellers.step w Sellers.Tick) (Sellers.ticks k)).
    rewrite step_tick_idle by (destruct (Sellers.debounceTimer w); [lia|done]).
    rewrite IH.
    + rewrite later_later. f_equal. lia.
    + cbn. destruct (Sellers.debounceTimer w); [lia|done].
Qed.

(** A change of the search box to a different text: the state is updated
    and the debounce effect re-runs, arming the timer when the text differs
    from the last fetched term and leaving none otherwise. *)
Lemma step_searchChange (w : Sellers.World) (value : string) :
  value <> Sellers.search (Sellers.st w) ->
  Sellers.step w (Sellers.SearchChange value)
  = Sellers.setDebounceTimer
      (if String.eqb value (Sellers.lastFetchedSearch (Sellers.st w)) then None
       else Some (Sellers.mkTimer (Sellers.now w + Sellers.DEBOUNCE_DELAY)
                    (Sellers.typed value (Sellers.st w))))
      (Sellers.withState (Sellers.typed value) w).
Proof.
  intros Hne. unfold Sellers.step. cbn [Sellers.handle].
  unfold Sellers.handleSearchChange, Sellers.debounceEffect.
  assert (Sellers.sameDebounceDeps (Sellers.st w)
            (Sellers.st (Sellers.withState (Sellers.typed value) w)) = false) as ->.
  { unfold Sellers.sameDebounceDeps. cbn.
    destruct (String.eqb_spec (Sellers.search (Sellers.st w)) value) as [Heq|_];
      [by symmetry in Heq|].
    by rewrite andb_false_r. }
  unfold Sellers.isSearchDirty. cbn.
  by destruct (String.eqb value (Sellers.lastFetchedSearch (Sellers.st w))).
Qed.

Lemma run_cons (w : Sellers.World) (e : Sellers.Event) (es : list Sellers.Event) :
  Sellers.run w (e :: es) = Sellers.run (Sellers.step w e) es.
Proof. reflexivity. Qed.




(** The timer fires: its callback issues the search fetch for page 1. *)
Lemma step_tick_fire (w : Sellers.World) (t : Sellers.Timer) :
  Sellers.debounceTimer w = Some t ->
  Sellers.deadline t <= Sellers.now w + 1 ->
  Sellers.step w Sellers.Tick
  = Sellers.debounceEffect (Sellers.st w)
      (Sellers.debounceCallback (Sellers.timer_closure t)
         (Sellers.setDebounceTimer None (Sellers.later 1 w))).
Proof.
  intros Ht Hdue. unfold Sellers.step. cbn [Sellers.handle]. unfold Sellers.tick.
  cbn [Sellers.debounceTimer Sellers.now]. rewrite Ht.
  destruct (Z.leb_spec (Sellers.deadline t) (Sellers.now w + 1)); [|lia].
  reflexivity.
Qed.

(** After a burst of typing from a clean search box nothing has been
    sent, and the timer is armed for the last text, or absent when the
    last text is the fetched term. *)
Lemma typing_burst (burst : list (nat * string)) (w : Sellers.World) :
  burst <> [] ->
  match Sellers.debounceTimer w with
  | Some t => Sellers.deadline t = Sellers.now w + Sellers.DEBOUNCE_DELAY
  | None => True
  end ->
  Sellers.withinWindow (Sellers.search (Sellers.st w)) burst ->
  let w' := Sellers.run w (Sellers.typing burst) in
  let value := Sellers.lastTyped (Sellers.search (Sellers.st w)) burst in
  Sellers.search (Sellers.st w') = value /\
  Sellers.isLoading (Sellers.st w') = true /\
  Sellers.lastFetchedSearch (Sellers.st w') = Sellers.lastFetchedSearch (Sellers.st w) /\
  Sellers.currentPage (Sellers.st w') = Sellers.currentPage (Sellers.st w) /\
  Sellers.sent w' = Sellers.sent w /\
  Sellers.latestRequestRef w' = Sellers.latestRequestRef w /\
  Sellers.inflight w' = Sellers.inflight w /\
  Sellers.debounceTimer w'
  = (if String.eqb value (Sellers.lastFetchedSearch (Sellers.st w)) then None
     else Some (Sellers.mkTimer (Sellers.now w' + Sellers.DEBOUNCE_DELAY)
                  (Sellers.st w'))).
Proof.
  revert w. induction burst as [|[gap value] rest IH]; intros w Hne Htimer Hok;
    [done|].
  destruct Hok as (Hgap & Hvalue & Hrest). cbn zeta.
  cbn [Sellers.typing Sellers.lastTyped].
  rewrite run_app, run_cons.
  rewrite ticks_idle by (destruct (Sellers.debounceTimer w); [lia|done]).
  rewrite step_searchChange by (cbn; congruence).
  set (w1 := Sellers.setDebounceTimer _ _).
  assert (Sellers.search (Sellers.st w1) = value) as Hs1 by done.
  assert (Sellers.debounceTimer w1
          = (if String.eqb value (Sellers.lastFetchedSearch (Sellers.st w)) then None
             else Some (Sellers.mkTimer (Sellers.now w1 + Sellers.DEBOUNCE_DELAY)
                          (Sellers.st w1)))) as Ht1 by done.
  destruct rest as [|e rest].
  - cbn [Sellers.typing Sellers.lastTyped Sellers.run fold_left].
    rewrite Ht1. by repeat split.
  - specialize (IH w1 ltac:(done)). rewrite Hs1 in IH.
    destruct IH as (G1 & G2 & G3 & G4 & G5 & G6 & G7 & G8).
    + rewrite Ht1. by destruct (String.eqb _ _).
    + exact Hrest.
    + rewrite G1, G2, G3, G4, G5, G6, G7, G8. by repeat split.
Qed.

Lemma ticks_S (k : nat) (w : Sellers.World) :
  Sellers.run w (Sellers.ticks (S k))
  = Sellers.step (Sellers.run w (Sellers.ticks k)) Sellers.Tick.
Proof.
  unfold Sellers.ticks. cbn [repeat]. rewrite repeat_cons. apply run_snoc.
Qed.

(** The armed timer fires exactly when the delay has passed, and its
    callback sends the search of the render that armed it, for page 1.
    The effect then re-runs if the callback changed the page. *)
Lemma debounce_expiry (w : Sellers.World) :
  Sellers.debounceTimer w
  = Some (Sellers.mkTimer (Sellers.now w + Sellers.DEBOUNCE_DELAY) (Sellers.st w)) ->
  let w' := Sellers.run w (Sellers.ticks 300) in
  (forall k, (k < 300)%nat ->
     Sellers.run w (Sellers.ticks k) = Sellers.later (Z.of_nat k) w) /\
  Sellers.sent w'
  = Sellers.mkParams 1 Sellers.PAGE_SIZE
      (Sellers.orUndefined (Sellers.search (Sellers.st w))) :: Sellers.sent w /\
  Sellers.latestRequestRef w' = Sellers.latestRequestRef w + 1 /\
  Sellers.search (Sellers.st w') = Sellers.search (Sellers.st w) /\
  Sellers.lastFetchedSearch (Sellers.st w') = Sellers.lastFetchedSearch (Sellers.st w) /\
  Sellers.currentPage (Sellers.st w') = 1 /\
  Sellers.debounceTimer w'
  = (if Sellers.currentPage (Sellers.st w) =? 1 then None
     else if Sellers.isSearchDirty (Sellers.st w)
          then Some (Sellers.mkTimer (Sellers.now w' + Sellers.DEBOUNCE_DELAY)
                       (Sellers.st w'))
          else None).
Proof.
  intros Ht. cbn zeta.
  assert (forall k, (k < 300)%nat ->
            Sellers.run w (Sellers.ticks k) = Sellers.later (Z.of_nat k) w) as Hidle.
  { intros k Hk. apply ticks_idle. rewrite Ht. cbn.
    unfold Sellers.DEBOUNCE_DELAY. lia. }
  split; [exact Hidle|].
  rewrite (ticks_S 299), (Hidle 299%nat) by lia.
  rewrite (step_tick_fire _ (Sellers.mkTimer (Sellers.now w + Sellers.DEBOUNCE_DELAY)
                               (Sellers.st w)))
    by (cbn; first [exact Ht | unfold Sellers.DEBOUNCE_DELAY; lia]).
  rewrite debounceEffect_sent, debounceEffect_latest, debounceEffect_st.
  cbn [Sellers.timer_closure Sellers.later Sellers.st].
  unfold Sellers.debounceCallback, Sellers.fetchSellers, Sellers.debounceEffect.
  cbn [Sellers.st Sellers.sent Sellers.latestRequestRef Sellers.setDebounceTimer
       Sellers.later mbind option_bind default Sellers.opt_page
       Sellers.opt_searchTerm id Sellers.now Sellers.debounceTimer].
  unfold Sellers.sameDebounceDeps, Sellers.isSearchDirty.
  clear Ht Hidle.
  destruct w as [[? ? cp box fetched ? ? ? ? ? ?] ? ? ? ? ? ? ?].
  cbn -[Z.eqb String.eqb].
  destruct (Z.eqb_spec 1 cp) as [<-|H1]; cbn -[Z.eqb String.eqb].
  - rewrite Z.eqb_refl, !String.eqb_refl.
    destruct (String.eqb box fetched); by cbn.
  - destruct (Z.eqb_spec cp 1) as [|_]; [lia|]. cbn -[Z.eqb String.eqb].
    destruct (String.eqb box fetched); by cbn.
Qed.

Lemma ticks_add (j k : nat) : Sellers.ticks (j + k) = Sellers.ticks j ++ Sellers.ticks k.
Proof. unfold Sellers.ticks. apply repeat_app. Qed.

Lemma later_sent (d : Z) (w : Sellers.World) :
  Sellers.sent (Sellers.later d w) = Sellers.sent w.
Proof. reflexivity. Qed.

(** What holds of the debounce in every case, and on page 1 in full: a
    burst of changes of the search box, each less than 300 units after the
    previous one, sends nothing before 300 units of quiet have passed;
    then nothing at all when the last text is the fetched term, and
    otherwise one request for page 1 with the last text.  When the page
    shown is page 1 that request stays the only one for as long as no
    response or other event arrives. *)
Lemma debounce_single_fetch (w : Sellers.World) (burst : list (nat * string)) :
  burst <> [] ->
  Sellers.debounceTimer w = None ->
  Sellers.withinWindow (Sellers.search (Sellers.st w)) burst ->
  let value := Sellers.lastTyped (Sellers.search (Sellers.st w)) burst in
  let request := Sellers.mkParams 1 Sellers.PAGE_SIZE (Sellers.orUndefined value) in
  (forall k, (k < 300)%nat ->
     Sellers.sent (Sellers.run w (Sellers.typing burst ++ Sellers.ticks k))
     = Sellers.sent w) /\
  (value = Sellers.lastFetchedSearch (Sellers.st w) ->
   forall n,
     Sellers.sent (Sellers.run w (Sellers.typing burst ++ Sellers.ticks n))
     = Sellers.sent w) /\
  (value <> Sellers.lastFetchedSearch (Sellers.st w) ->
   Sellers.sent (Sellers.run w (Sellers.typing burst ++ Sellers.ticks 300))
   = request :: Sellers.sent w) /\
  (value <> Sellers.lastFetchedSearch (Sellers.st w) ->
   Sellers.currentPage (Sellers.st w) = 1 ->
   forall n,
     Sellers.sent (Sellers.run w (Sellers.typing burst ++ Sellers.ticks (300 + n)))
     = request :: Sellers.sent w).
Proof.
  intros Hne Ht Hok. cbn zeta.
  destruct (typing_burst burst w Hne) as (G1 & _ & G3 & G4 & G5 & _ & _ & G8);
    [by rewrite Ht | exact Hok |].
  cbn zeta in *.
  set (w1 := Sellers.run w (Sellers.typing burst)) in *.
  set (value := Sellers.lastTyped _ _) in *.
  destruct (String.eqb_spec value (Sellers.lastFetchedSearch (Sellers.st w)))
    as [Heq|Hdirty].
  - assert (forall n, Sellers.sent (Sellers.run w (Sellers.typing burst ++ Sellers.ticks n))
                      = Sellers.sent w) as Hquiet.
    { intros n. rewrite run_app. fold w1.
      rewrite ticks_idle by by rewrite G8. by rewrite later_sent. }
    split; [intros k _; apply Hquiet|]. split; [intros _; exact Hquiet|].
    split; intros; done.
  - destruct (debounce_expiry w1 G8) as (E0 & E1 & _ & _ & _ & _ & E6).
    split; [|split; [done|split]].
    + intros k Hk. rewrite run_app. fold w1. by rewrite E0, later_sent.
    + intros _. rewrite run_app. fold w1. by rewrite E1, G1, G5.
    + intros _ Hpage n. rewrite ticks_add, run_app. fold w1. rewrite run_app.
      rewrite ticks_idle.
      * by rewrite later_sent, E1, G1, G5.
      * rewrite E6, G4, Hpage. done.
Qed.

(** C4, the defect.  When the page shown is not page 1, the callback of
    the debounce timer sets the page to 1; that rebuilds [fetchSellers],
    a dependency of the debounce effect, which re-runs while the search
    is still unanswered and arms the timer again.  If no response comes
    within 300 further units, the same request is sent a second time. *)
Theorem debounce_refetches_off_first_page
    (w : Sellers.World) (burst : list (nat * string)) :
  burst <> [] ->
  Sellers.debounceTimer w = None ->
  Sellers.withinWindow (Sellers.search (Sellers.st w)) burst ->
  Sellers.lastTyped (Sellers.search (Sellers.st w)) burst
  <> Sellers.lastFetchedSearch (Sellers.st w) ->
  Sellers.currentPage (Sellers.st w) <> 1 ->
  let request :=
    Sellers.mkParams 1 Sellers.PAGE_SIZE
      (Sellers.orUndefined
         (Sellers.lastTyped (Sellers.search (Sellers.st w)) burst)) in
  Sellers.sent (Sellers.run w (Sellers.typing burst ++ Sellers.ticks 300))
  = request :: Sellers.sent w /\
  Sellers.sent
    (Sellers.run w (Sellers.typing burst ++ Sellers.ticks 300 ++ Sellers.ticks 300))
  = request :: request :: Sellers.sent w.
Proof.
  intros Hne Ht Hok Hdirty Hpage. cbn zeta.
  destruct (typing_burst burst w Hne) as (G1 & _ & G3 & G4 & G5 & _ & _ & G8);
    [by rewrite Ht | exact Hok |].
  cbn zeta in *.
  set (w1 := Sellers.run w (Sellers.typing burst)) in *.
  set (value := Sellers.lastTyped _ _) in *.
  destruct (String.eqb_spec value (Sellers.lastFetchedSearch (Sellers.st w)))
    as [|_]; [done|].
  destruct (debounce_expiry w1 G8) as (_ & E1 & _ & E3 & E4 & _ & E6).
  cbn zeta in *.
  set (w2 := Sellers.run w1 (Sellers.ticks 300)) in *.
  assert (Sellers.isSearchDirty (Sellers.st w1) = true) as Hd1.
  { unfold Sellers.isSearchDirty. rewrite G1, G3.
    by destruct (String.eqb_spec value (Sellers.lastFetchedSearch (Sellers.st w))). }
  rewrite G4, Hd1 in E6.
  destruct (Z.eqb_spec (Sellers.currentPage (Sellers.st w)) 1) as [|_]; [done|].
  destruct (debounce_expiry w2 E6) as (_ & F1 & _).
  split.
  - rewrite run_app. fold w1 w2. by rewrite E1, G1, G5.
  - rewrite !run_app. fold w1 w2. by rewrite F1, E3, E1, G1, G5.
Qed.

Lemma debounce_refetches_off_first_page_witness :
  Sellers.currentPage (Sellers.st Samples.sellersOnPage2) = 2 /\
  Sellers.sent Samples.sellersSearchedFromPage2
  = Sellers.mkParams 1 50 (Some "a") :: Sellers.sent Samples.sellersOnPage2 /\
  Sellers.sent (Sellers.run Samples.sellersSearchedFromPage2 (Sellers.ticks 300))
  = Sellers.mkParams 1 50 (Some "a") :: Sellers.mkParams 1 50 (Some "a")
    :: Sellers.sent Samples.sellersOnPage2.
Proof.
  destruct (debounce_refetches_off_first_page Samples.sellersOnPage2 [(0%nat, "a")])
    as (H1 & H2).
  - discriminate.
  - reflexivity.
  - cbn. split; [unfold Sellers.DEBOUNCE_DELAY; lia|]. split; [discriminate|done].
  - discriminate.
  - vm_compute. discriminate.
  - split; [reflexivity|]. split; [exact H1|].
    unfold Samples.sellersSearchedFromPage2. rewrite <- run_app. exact H2.
Defined.

(* --------------------------------------------------------------------- *)
(** *** Stale responses                                                   *)
(* --------------------------------------------------------------------- *)

(** On the sellers page the response to the request holding the latest
    token decides list, total and page, whatever settles or happens
    afterwards, as long as no newer fetch is issued. *)
Lemma sellers_latest_response_wins (w : Sellers.World) (rq : Sellers.Request)
    (r : Sellers.SellersResponse) (es : list Sellers.Event) :
  Sellers.inflight w !! Sellers.latestRequestRef w = Some rq ->
  let w' := Sellers.run w
              (Sellers.FetchSettled (Sellers.latestRequestRef w) (Sellers.Resolved r)
               :: es) in
  Sellers.latestRequestRef w' = Sellers.latestRequestRef w ->
  Sellers.sellers (Sellers.st w') = Sellers.resp_data r /\
  Sellers.total (Sellers.st w') = Sellers.resp_total r /\
  Sellers.currentPage (Sellers.st w')
  = default (Sellers.pageToFetch rq) (Sellers.resp_page r).
Proof.
  intros Hrq. cbn zeta. rewrite run_cons.
  set (w1 := Sellers.step w _).
  assert (Sellers.latestRequestRef w1 = Sellers.latestRequestRef w /\
          Sellers.inflight w1 !! Sellers.latestRequestRef w = None /\
          Sellers.sellers (Sellers.st w1) = Sellers.resp_data r /\
          Sellers.total (Sellers.st w1) = Sellers.resp_total r /\
          Sellers.currentPage (Sellers.st w1)
          = default (Sellers.pageToFetch rq) (Sellers.resp_page r))
    as (H1 & H2 & H3 & H4 & H5).
  { subst w1. unfold Sellers.step.
    rewrite debounceEffect_latest, debounceEffect_inflight, debounceEffect_st.
    cbn [Sellers.handle].
    destruct (settleFetch_latest (Sellers.latestRequestRef w) (Sellers.Resolved r)
                rq w Hrq eq_refl) as (G1 & G2 & _ & _ & G4 & G5 & G6 & _).
    rewrite G1, G2, G4, G5, G6. repeat split. apply lookup_delete_eq. }
  intros Hlatest.
  destruct (run_frozen es w1) as (F1 & F2 & F3).
  - by rewrite H1.
  - by rewrite H1.
  - by rewrite F1, F2, F3.
Qed.

(** The same from the moment the last fetch is issued: other responses,
    to earlier requests, may arrive before and after its own; none of
    them shows. *)
Lemma sellers_overlapping_fetches (w : Sellers.World)
    (options : option Sellers.FetchOptions) (aw : Sellers.Awaiter)
    (before after : list Sellers.Event) (r : Sellers.SellersResponse) :
  let w1 := Sellers.debounceEffect (Sellers.st w)
              (Sellers.fetchSellers (Sellers.st w) options aw w) in
  let L := Sellers.latestRequestRef w1 in
  let w2 := Sellers.run w1 before in
  let w3 := Sellers.run w2 (Sellers.FetchSettled L (Sellers.Resolved r) :: after) in
  is_Some (Sellers.inflight w2 !! L) ->
  Sellers.latestRequestRef w3 = L ->
  Sellers.sellers (Sellers.st w3) = Sellers.resp_data r /\
  Sellers.total (Sellers.st w3) = Sellers.resp_total r /\
  Sellers.currentPage (Sellers.st w3)
  = default (default (Sellers.currentPage (Sellers.st w))
               (options ≫= Sellers.opt_page))
      (Sellers.resp_page r).
Proof.
  cbn zeta. intros Hsome Hlatest.
  destruct (fetchSellers_issued (Sellers.st w) (Sellers.st w) options aw w eq_refl)
    as (H1 & H2 & H3 & _).
  cbn zeta in *.
  set (w1 := Sellers.debounceEffect (Sellers.st w)
               (Sellers.fetchSellers (Sellers.st w) options aw w)) in *.
  set (rq := Sellers.mkRequest _ _ _ _) in *.
  set (w2 := Sellers.run w1 before) in *.
  pose proof (run_latest_mono w1 before) as M1.
  pose proof (run_latest_mono w2
                (Sellers.FetchSettled (Sellers.latestRequestRef w1)
                   (Sellers.Resolved r) :: after)) as M2.
  fold w2 in M1.
  assert (Sellers.latestRequestRef w2 = Sellers.latestRequestRef w1) as Hl2 by lia.
  destruct (run_pending (Sellers.latestRequestRef w1) rq before w1) as [_ Hinv].
  { split; [lia|]. intros _. right. rewrite H1. by split. }
  fold w2 in Hinv. specialize (Hinv Hl2).
  destruct Hinv as [Hnone|[Hrq _]].
  { rewrite Hnone in Hsome. by destruct Hsome. }
  rewrite <- Hl2 in Hrq, Hlatest |- *.
  by apply (sellers_latest_response_wins w2 rq r after Hrq).
Qed.

(** The appointments page applies every response it receives. *)
Lemma fetchAppointments_resume_applies (rq : Appointments.Request)
    (r : Appointments.AppointmentsResponse) (w : Appointments.World) :
  let w' := Appointments.fetchAppointments_resume rq (Appointments.Resolved r) w in
  Appointments.appointments (Appointments.st w') = Appointments.resp_data r /\
  Appointments.total (Appointments.st w') = Appointments.resp_total r /\
  Appointments.currentPage (Appointments.st w')
  = default (Appointments.pageToFetch rq) (Appointments.resp_page r).
Proof. by cbn. Qed.

(** C1, the defect.  [fetchAppointments] carries no request token.  The
    status filter is set to NO_SHOW and at once to AGENDADA; the response
    to the second request arrives and is shown; when the response to the
    first, superseded request arrives it replaces list and total, under a
    filter that still reads AGENDADA; had it been a rejection, its error
    message would show. *)
Theorem appointments_stale_response_shows :
  let w := Samples.callsFilteredTwice in
  let late := Appointments.step w
                (Appointments.FetchSettled 0 (Appointments.Resolved Samples.callsNoShow)) in
  let failed := Appointments.step w
                  (Appointments.FetchSettled 0 Appointments.Rejected) in
  (* the last request sent has been answered and is shown *)
  hd_error (Appointments.sent w)
  = Some (Appointments.mkParams 20 1 (Some "AGENDADA")) /\
  Appointments.appointments (Appointments.st w)
  = Appointments.resp_data Samples.callsAgendada /\
  Appointments.total (Appointments.st w) = 44 /\
  (* the first request is still suspended *)
  Appointments.fetches w
  = [Appointments.mkRequest 1 "NO_SHOW" 1 Appointments.NotAwaited] /\
  (* its response is applied all the same *)
  Appointments.selectedStatus (Appointments.st late) = "AGENDADA" /\
  Appointments.appointments (Appointments.st late)
  = Appointments.resp_data Samples.callsNoShow /\
  Appointments.total (Appointments.st late) = 1 /\
  Appointments.appointments (Appointments.st late)
  <> Appointments.appointments (Appointments.st w) /\
  Appointments.error (Appointments.st failed)
  = Some Appointments.fetchErrorMessage.
Proof. cbn zeta. repeat split; by vm_compute. Qed.

(* --------------------------------------------------------------------- *)
(** *** The current page never drops below 1 on its own                   *)
(* --------------------------------------------------------------------- *)

Lemma sellers_fetch_pagesFromOne (cl : Sellers.State)
    (options : option Sellers.FetchOptions) (aw : Sellers.Awaiter)
    (w : Sellers.World) :
  1 <= Sellers.currentPage cl ->
  1 <= default (Sellers.currentPage cl) (options ≫= Sellers.opt_page) ->
  Sellers.pagesFromOne w ->
  Sellers.pagesFromOne (Sellers.fetchSellers cl options aw w).
Proof.
  intros Hcl Hpage (H1 & H2 & H3 & H4). unfold Sellers.pagesFromOne.
  unfold Sellers.fetchSellers. cbn.
  split; [by destruct (_ =? _)|].
  split; [by apply map_Forall_insert_2|]. by split.
Qed.

Lemma sellers_withState_pagesFromOne (f : Sellers.State -> Sellers.State)
    (w : Sellers.World) :
  (forall s, Sellers.currentPage (f s) = Sellers.currentPage s) ->
  Sellers.pagesFromOne w -> Sellers.pagesFromOne (Sellers.withState f w).
Proof.
  intros Hf (H1 & H2 & H3 & H4). unfold Sellers.pagesFromOne. cbn.
  by rewrite Hf.
Qed.

Lemma sellers_debounceEffect_pagesFromOne (before : Sellers.State)
    (w : Sellers.World) :
  Sellers.pagesFromOne w -> Sellers.pagesFromOne (Sellers.debounceEffect before w).
Proof.
  intros (H1 & H2 & H3 & H4). unfold Sellers.debounceEffect.
  destruct (Sellers.sameDebounceDeps _ _); [done|].
  by destruct (Sellers.isSearchDirty _).
Qed.

Lemma sellers_handlePageChange_pagesFromOne (page : Z) (w : Sellers.World) :
  Sellers.pagesFromOne w ->
  Sellers.pagesFromOne (Sellers.handlePageChange (Sellers.st w) page w).
Proof.
  intros Hw. unfold Sellers.handlePageChange.
  destruct (Z.ltb_spec page 1); [done|]. cbn [orb].
  destruct (_ || _); [done|].
  apply sellers_fetch_pagesFromOne; [by destruct Hw | by cbn | done].
Qed.

Lemma sellers_step_pagesFromOne (w : Sellers.World) (e : Sellers.Event) :
  Sellers.wellFormed e ->
  Sellers.pagesFromOne w -> Sellers.pagesFromOne (Sellers.step w e).
Proof.
  intros He Hw. unfold Sellers.step. apply sellers_debounceEffect_pagesFromOne.
  pose proof Hw as (H1 & H2 & H3 & H4).
  destruct e; cbn [Sellers.handle].
  - unfold Sellers.mountEffect. destruct (Sellers.hasFetchedInitial w); [done|].
    by apply sellers_fetch_pagesFromOne.
  - apply sellers_withState_pagesFromOne; [by intros []|done].
  - by apply sellers_fetch_pagesFromOne.
  - by apply sellers_fetch_pagesFromOne.
  - by apply sellers_handlePageChange_pagesFromOne.
  - unfold Sellers.handlePreviousPage. destruct (negb _); [done|].
    by apply sellers_handlePageChange_pagesFromOne.
  - unfold Sellers.handleNextPage. destruct (negb _); [done|].
    by apply sellers_handlePageChange_pagesFromOne.
  - apply sellers_withState_pagesFromOne; [by intros []|done].
  - apply sellers_withState_pagesFromOne; [by intros []|done].
  - unfold Sellers.handleSubmit, Sellers.pagesFromOne. cbn.
    split; [done|]. split; [done|]. split; [|done].
    apply Forall_app_2; [done|]. by apply Forall_singleton.
  - apply sellers_withState_pagesFromOne; [by intros []|done].
  - unfold Sellers.handleConfirmDeleteSeller.
    destruct (Sellers.sellerPendingDeletion _); [|done].
    unfold Sellers.pagesFromOne. cbn.
    split; [done|]. split; [done|]. split; [|done].
    apply Forall_app_2; [done|]. by apply Forall_singleton.
  - unfold Sellers.handleCancelDeleteSeller. destruct (Sellers.isDeleting _); [done|].
    apply sellers_withState_pagesFromOne; [by intros []|done].
  - unfold Sellers.tick. cbn.
    destruct (Sellers.debounceTimer w) as [t|] eqn:Ht; [|done].
    destruct (_ <=? _); [|done].
    by apply sellers_fetch_pagesFromOne.
  - unfold Sellers.settleFetch.
    destruct (Sellers.inflight w !! id) as [rq|] eqn:Hrq; [|done].
    destruct (map_Forall_lookup_1 _ _ _ _ H2 Hrq) as [Hp Hq].
    assert (Sellers.pagesFromOne
              (Sellers.fetchSellers_resume id rq o
                 (Sellers.mkWorld (Sellers.st w) (Sellers.latestRequestRef w)
                    (Sellers.hasFetchedInitial w) (Sellers.now w)
                    (Sellers.debounceTimer w) (delete id (Sellers.inflight w))
                    (Sellers.mutations w) (Sellers.sent w)))) as Hres.
    { unfold Sellers.pagesFromOne, Sellers.fetchSellers_resume. cbn.
      split; [|split; [by apply map_Forall_delete|done]].
      destruct (negb _); [by destruct o|].
      destruct o as [r|]; cbn in *.
      - by destruct (Sellers.resp_page r).
      - by destruct (_ =? _). }
    destruct (Sellers.awaiter rq); cbn [Sellers.awaiter_resume];
      first [done | apply sellers_withState_pagesFromOne; [by intros []|done]].
  - unfold Sellers.settleMutation.
    destruct (Sellers.mutations w !! i) as [c|] eqn:Hc; [|done].
    pose proof (Forall_lookup_1 _ _ _ _ H3 Hc) as Hcl.
    assert (Sellers.pagesFromOne (Sellers.dropMutation i w)) as Hdrop.
    { unfold Sellers.pagesFromOne. cbn.
      split; [done|]. split; [done|]. split; [|done]. by apply Forall_delete. }
    destruct c as [cl|cl]; cbn in Hcl.
    + unfold Sellers.handleSubmit_resume. destruct ok.
      * apply sellers_fetch_pagesFromOne; [done| |].
        -- cbn. by destruct (Sellers.truthy _).
        -- apply sellers_withState_pagesFromOne; [by intros []|done].
      * apply sellers_withState_pagesFromOne; [by intros []|done].
    + unfold Sellers.handleConfirmDeleteSeller_resume. destruct ok.
      * apply sellers_fetch_pagesFromOne; [done|done|].
        apply sellers_withState_pagesFromOne; [by intros []|done].
      * apply sellers_withState_pagesFromOne; [by intros []|done].
Qed.

Lemma sellers_run_pagesFromOne (es : list Sellers.Event) (w : Sellers.World) :
  Forall Sellers.wellFormed es ->
  Sellers.pagesFromOne w -> Sellers.pagesFromOne (Sellers.run w es).
Proof.
  revert w. induction es as [|e es IH]; intros w Hes Hw; [done|].
  inversion Hes; subst. rewrite run_cons. apply IH; [done|].
  by apply sellers_step_pagesFromOne.
Qed.

Lemma sellers_initial_pagesFromOne : Sellers.pagesFromOne Sellers.initialWorld.
Proof.
  unfold Sellers.pagesFromOne. cbn.
  split; [done|]. split; [apply map_Forall_empty|]. by split.
Qed.

Lemma calls_fetch_pagesFromOne (cl : Appointments.State)
    (options : option Appointments.FetchOptions) (aw : Appointments.Awaiter)
    (w : Appointments.World) :
  1 <= Appointments.currentPage cl ->
  1 <= default (Appointments.currentPage cl) (options ≫= Appointments.opt_page) ->
  Appointments.pagesFromOne w ->
  Appointments.pagesFromOne (Appointments.fetchAppointments cl options aw w).
Proof.
  intros Hcl Hpage (H1 & H2 & H3). unfold Appointments.pagesFromOne.
  unfold Appointments.fetchAppointments. cbn.
  split; [by destruct (_ =? _)|]. split; [|done].
  apply Forall_app_2; [done|]. by apply Forall_singleton.
Qed.

Lemma calls_withState_pagesFromOne (f : Appointments.State -> Appointments.State)
    (w : Appointments.World) :
  (forall s, Appointments.currentPage (f s) = Appointments.currentPage s) ->
  Appointments.pagesFromOne w ->
  Appointments.pagesFromOne (Appointments.withState f w).
Proof.
  intros Hf (H1 & H2 & H3). unfold Appointments.pagesFromOne. cbn.
  by rewrite Hf.
Qed.

Lemma calls_handlePageChange_pagesFromOne (page : Z) (w : Appointments.World) :
  Appointments.pagesFromOne w ->
  Appointments.pagesFromOne
    (Appointments.handlePageChange (Appointments.st w) page w).
Proof.
  intros Hw. unfold Appointments.handlePageChange.
  destruct (Z.ltb_spec page 1); [done|]. cbn [orb].
  destruct (_ || _); [done|].
  apply calls_fetch_pagesFromOne; [by destruct Hw | by cbn | done].
Qed.

Lemma calls_step_pagesFromOne (w : Appointments.World) (e : Appointments.Event) :
  Appointments.wellFormed e ->
  Appointments.pagesFromOne w -> Appointments.pagesFromOne (Appointments.step w e).
Proof.
  intros He Hw. pose proof Hw as (H1 & H2 & H3).
  destruct e; cbn [Appointments.step].
  - unfold Appointments.mountEffect.
    destruct (Appointments.hasFetchedInitial w); [done|].
    by apply calls_fetch_pagesFromOne.
  - unfold Appointments.handleStatusChange.
    apply calls_fetch_pagesFromOne; [done|done|].
    apply calls_withState_pagesFromOne; [by intros []|done].
  - by apply calls_handlePageChange_pagesFromOne.
  - unfold Appointments.handlePreviousPage. destruct (negb _); [done|].
    by apply calls_handlePageChange_pagesFromOne.
  - unfold Appointments.handleNextPage. destruct (negb _); [done|].
    by apply calls_handlePageChange_pagesFromOne.
  - apply calls_withState_pagesFromOne; [by intros []|done].
  - apply calls_withState_pagesFromOne; [by intros []|done].
  - unfold Appointments.handleSubmit, Appointments.pagesFromOne. cbn.
    split; [done|]. split; [done|].
    apply Forall_app_2; [done|]. by apply Forall_singleton.
  - apply calls_withState_pagesFromOne; [by intros []|done].
  - unfold Appointments.handleConfirmDeleteAppointment.
    destruct (Appointments.appointmentPendingDeletion _); [|done].
    unfold Appointments.pagesFromOne. cbn.
    split; [done|]. split; [done|].
    apply Forall_app_2; [done|]. by apply Forall_singleton.
  - unfold Appointments.handleCancelDeleteAppointment.
    destruct (Appointments.isDeletingAppointment _); [done|].
    apply calls_withState_pagesFromOne; [by intros []|done].
  - unfold Appointments.settleFetch.
    destruct (Appointments.fetches w !! i) as [rq|] eqn:Hrq; [|done].
    destruct (Forall_lookup_1 _ _ _ _ H2 Hrq) as [Hp Hq].
    assert (Appointments.pagesFromOne
              (Appointments.fetchAppointments_resume rq o
                 (Appointments.dropFetch i w))) as Hres.
    { unfold Appointments.pagesFromOne, Appointments.fetchAppointments_resume.
      cbn. split; [|split; [by apply Forall_delete|done]].
      destruct o as [r|]; cbn in *; [|done].
      by destruct (Appointments.resp_page r). }
    destruct (Appointments.awaiter rq); cbn [Appointments.awaiter_resume];
      first [done | apply calls_withState_pagesFromOne; [by intros []|done]].
  - unfold Appointments.settleMutation.
    destruct (Appointments.mutations w !! i) as [c|] eqn:Hc; [|done].
    pose proof (Forall_lookup_1 _ _ _ _ H3 Hc) as Hcl.
    assert (Appointments.pagesFromOne (Appointments.dropMutation i w)) as Hdrop.
    { unfold Appointments.pagesFromOne. cbn.
      split; [done|]. split; [done|]. by apply Forall_delete. }
    destruct c as [cl|cl]; cbn in Hcl.
    + unfold Appointments.handleSubmit_resume. destruct ok.
      * apply calls_fetch_pagesFromOne; [done|done|].
        apply calls_withState_pagesFromOne; [by intros []|done].
      * apply calls_withState_pagesFromOne; [by intros []|done].
    + unfold Appointments.handleConfirmDeleteAppointment_resume. destruct ok.
      * apply calls_fetch_pagesFromOne; [done|done|].
        apply calls_withState_pagesFromOne; [by intros []|done].
      * apply calls_withState_pagesFromOne; [by intros []|done].
Qed.

Lemma calls_run_pagesFromOne (es : list Appointments.Event) (w : Appointments.World) :
  Forall Appointments.wellFormed es ->
  Appointments.pagesFromOne w -> Appointments.pagesFromOne (Appointments.run w es).
Proof.
  revert w. induction es as [|e es IH]; intros w Hes Hw; [done|].
  inversion Hes; subst.
  change (Appointments.run w (e :: es))
    with (Appointments.run (Appointments.step w e) es).
  apply IH; [done|]. by apply calls_step_pagesFromOne.
Qed.

Lemma calls_initial_pagesFromOne : Appointments.pagesFromOne Appointments.initialWorld.
Proof. unfold Appointments.pagesFromOne. by cbn. Qed.

(** C3, as amended.  [effectivePage] is [Math.min(currentPage, totalPages)]:
    it never exceeds [totalPages], and it is at least 1 as soon as
    [currentPage] is at least 1.  That is the case in every state either
    page reaches from its mount as long as the responses report a page
    from 1 on, or none: the page shown is then within [1, totalPages]. *)
Theorem displayed_page_within_bounds
    (PAGE_SIZE currentPage total : Z)
    (es : list Sellers.Event) (es' : list Appointments.Event) :
  (1 <= currentPage ->
   1 <= Pagination.effectivePage PAGE_SIZE currentPage total
     <= Pagination.totalPages PAGE_SIZE total) /\
  Pagination.effectivePage PAGE_SIZE currentPage total
    <= Pagination.totalPages PAGE_SIZE total /\
  (Forall Sellers.wellFormed es ->
   let s := Sellers.st (Sellers.run Sellers.initialWorld es) in
   1 <= Sellers.currentPage s /\
   1 <= Sellers.effectivePage s <= Sellers.totalPages s /\
   1 <= Sellers.displayedPage s <= Sellers.totalPages s) /\
  (Forall Appointments.wellFormed es' ->
   let s := Appointments.st (Appointments.run Appointments.initialWorld es') in
   1 <= Appointments.currentPage s /\
   1 <= Appointments.effectivePage s <= Appointments.totalPages s /\
   1 <= Appointments.displayedPage s <= Appointments.totalPages s).
Proof.
  destruct (effectivePage_bounds PAGE_SIZE currentPage total) as [Hhi Hlo].
  split; [intros H; split; [by apply Hlo | exact Hhi]|].
  split; [exact Hhi|]. split.
  - intros Hes. cbn zeta.
    destruct (sellers_run_pagesFromOne es Sellers.initialWorld Hes
                sellers_initial_pagesFromOne) as (Hpage & _).
    set (s := Sellers.st _) in *.
    destruct (effectivePage_bounds Sellers.PAGE_SIZE (Sellers.currentPage s)
                (Sellers.total s)) as [H1 H2].
    specialize (H2 Hpage).
    pose proof (totalPages_ge_1 Sellers.PAGE_SIZE (Sellers.total s)) as H3.
    split; [done|]. split; [by split|].
    unfold Sellers.displayedPage, Pagination.displayedPage.
    destruct (0 <? Sellers.total s); by split.
  - intros Hes. cbn zeta.
    destruct (calls_run_pagesFromOne es' Appointments.initialWorld Hes
                calls_initial_pagesFromOne) as (Hpage & _).
    set (s := Appointments.st _) in *.
    destruct (effectivePage_bounds Appointments.PAGE_SIZE
                (Appointments.currentPage s) (Appointments.total s)) as [H1 H2].
    specialize (H2 Hpage).
    pose proof (totalPages_ge_1 Appointments.PAGE_SIZE (Appointments.total s)) as H3.
    split; [done|]. split; [by split|].
    unfold Appointments.displayedPage, Pagination.displayedPage.
    destruct (0 <? Appointments.total s); by split.
Qed.

Lemma displayed_page_within_bounds_witness :
  1 <= Pagination.effectivePage 20 7 45 <= Pagination.totalPages 20 45 /\
  1 <= Sellers.effectivePage (Sellers.st Samples.sellersOnPage2)
    <= Sellers.totalPages (Sellers.st Samples.sellersOnPage2) /\
  1 <= Appointments.effectivePage (Appointments.st Samples.callsFilteredTwice)
    <= Appointments.totalPages (Appointments.st Samples.callsFilteredTwice).
Proof.
  destruct (displayed_page_within_bounds 20 7 45
              [Sellers.Mount;
               Sellers.FetchSettled 1 (Sellers.Resolved Samples.sellersPage1);
               Sellers.PageChange 2;
               Sellers.FetchSettled 2 (Sellers.Resolved Samples.sellersPage2)]
              [Appointments.Mount;
               Appointments.FetchSettled 0 (Appointments.Resolved Samples.callsAll);
               Appointments.StatusChange "NO_SHOW";
               Appointments.StatusChange "AGENDADA";
               Appointments.FetchSettled 1 (Appointments.Resolved Samples.callsAgendada)])
    as (H1 & _ & H2 & H3).
  split; [apply H1; lia|]. split.
  - destruct H2 as (_ & H2 & _); [|exact H2].
    repeat constructor; cbn; lia.
  - destruct H3 as (_ & H3 & _); [|exact H3].
    repeat constructor; cbn; lia.
Defined.

(* ===================================================================== *)
(** ** Further facts: pagination                                          *)
(* ===================================================================== *)

Lemma effectivePage_in_range (PAGE_SIZE p total : Z) :
  1 <= p <= Pagination.totalPages PAGE_SIZE total ->
  Pagination.effectivePage PAGE_SIZE p total = p.
Proof. unfold Pagination.effectivePage. lia. Qed.

Lemma effectivePage_beyond (PAGE_SIZE p total : Z) :
  Pagination.totalPages PAGE_SIZE total <= p ->
  Pagination.effectivePage PAGE_SIZE p total = Pagination.totalPages PAGE_SIZE total.
Proof. unfold Pagination.effectivePage. lia. Qed.

(** X1.  The ranges shown on pages 1 to [totalPages] tile the collection:
    page 1 starts at item 1, every page before the last shows [PAGE_SIZE]
    items and the next page starts right after it, the last page ends at
    [total]; a page number beyond the last shows the last page's range. *)
Theorem pages_tile_the_collection (PAGE_SIZE total : Z) :
  0 < PAGE_SIZE ->
  0 < total ->
  Pagination.showingFrom PAGE_SIZE 1 total = 1 /\
  Pagination.showingTo PAGE_SIZE (Pagination.totalPages PAGE_SIZE total) total = total /\
  (forall p, 1 <= p < Pagination.totalPages PAGE_SIZE total ->
     Pagination.showingTo PAGE_SIZE p total
     - Pagination.showingFrom PAGE_SIZE p total + 1 = PAGE_SIZE /\
     Pagination.showingFrom PAGE_SIZE (p + 1) total
     = Pagination.showingTo PAGE_SIZE p total + 1) /\
  (forall p, Pagination.totalPages PAGE_SIZE total <= p ->
     Pagination.showingFrom PAGE_SIZE p total
     = Pagination.showingFrom PAGE_SIZE (Pagination.totalPages PAGE_SIZE total) total /\
     Pagination.showingTo PAGE_SIZE p total = total).
Proof.
  intros Hp Ht.
  pose proof (totalPages_ge_1 PAGE_SIZE total) as H1.
  pose proof (totalPages_covers PAGE_SIZE total Hp) as H2.
  pose proof (totalPages_tight PAGE_SIZE total Hp Ht) as H3.
  unfold Pagination.showingFrom, Pagination.showingTo.
  destruct (Z.eqb_spec total 0) as [|_]; [lia|].
  set (n := Pagination.totalPages PAGE_SIZE total) in *.
  split; [rewrite effectivePage_in_range by (fold n; lia); lia|].
  split; [rewrite effectivePage_in_range by (fold n; lia); lia|].
  split.
  - intros p Hrange.
    rewrite !effectivePage_in_range by (fold n; lia).
    assert (p * PAGE_SIZE <= (n - 1) * PAGE_SIZE) by nia.
    split; lia.
  - intros p Hbeyond.
    rewrite (effectivePage_beyond PAGE_SIZE p) by (fold n; lia). fold n.
    rewrite effectivePage_in_range by (fold n; lia).
    split; lia.
Qed.

Lemma pages_tile_the_collection_witness :
  Pagination.showingFrom 20 1 45 = 1 /\
  Pagination.showingTo 20 2 45 = 40 /\
  Pagination.showingFrom 20 3 45 = 41 /\
  Pagination.showingTo 20 3 45 = 45.
Proof.
  destruct (pages_tile_the_collection 20 45) as (H1 & H2 & H3 & _); [lia|lia|].
  split; [exact H1|]. split; [reflexivity|].
  destruct (H3 2) as (_ & H4); [by vm_compute|].
  split; [exact H4 | exact H2].
Defined.

(** X2.  From a page number of at least 1, the next-page control is
    enabled exactly when items exist beyond the current page, and the
    previous-page control exactly when the page number is above 1 and the
    collection has more than one page. *)
Theorem pagination_controls_enabled (PAGE_SIZE currentPage total : Z) :
  0 < PAGE_SIZE ->
  1 <= currentPage ->
  (Pagination.canGoNext PAGE_SIZE currentPage total = true
   <-> currentPage * PAGE_SIZE < total) /\
  (Pagination.canGoPrevious PAGE_SIZE currentPage total = true
   <-> 1 < currentPage /\ PAGE_SIZE < total).
Proof.
  intros Hp Hcp.
  unfold Pagination.canGoNext, Pagination.canGoPrevious, Pagination.effectivePage.
  pose proof (totalPages_covers PAGE_SIZE total Hp) as H2.
  pose proof (totalPages_ge_1 PAGE_SIZE total) as H1.
  set (n := Pagination.totalPages PAGE_SIZE total) in *.
  assert (0 < total -> (n - 1) * PAGE_SIZE < total) as H3
    by (intros; by apply totalPages_tight).
  assert (total <= 0 -> n = 1) as H4.
  { intros Hle. subst n. unfold Pagination.totalPages.
    destruct (Math_ceil_div_least PAGE_SIZE total Hp) as [_ Hc]. nia. }
  rewrite andb_true_iff, !Z.ltb_lt. split; split.
  - intros [Hlt Hpos]. specialize (H3 Hpos). nia.
  - intros Hlt. assert (0 < total) as Hpos by nia. specialize (H3 Hpos).
    split; [|done]. nia.
  - intros Hlt. split; [lia|].
    destruct (Z_lt_le_dec 0 total) as [Hpos|Hle]; [|specialize (H4 Hle); lia].
    specialize (H3 Hpos). nia.
  - intros [Hcp1 Hmany]. assert (0 < total) as Hpos by lia. specialize (H3 Hpos).
    assert (1 < n) by nia. lia.
Qed.

Lemma pagination_controls_enabled_witness :
  Pagination.canGoNext 20 2 45 = true /\
  Pagination.canGoNext 20 3 45 = false /\
  Pagination.canGoPrevious 20 1 45 = false.
Proof.
  destruct (pagination_controls_enabled 20 2 45) as [H1 _]; [lia|lia|].
  split; [apply H1; lia|]. split; reflexivity.
Defined.

(* ===================================================================== *)
(** ** Further facts: the pagination controls                             *)
(* ===================================================================== *)

Lemma sellers_handlePageChange_request (cl : Sellers.State) (n : Z)
    (w : Sellers.World) :
  cl = Sellers.st w ->
  Runs.sellersPageRequest w
    (Sellers.debounceEffect (Sellers.st w) (Sellers.handlePageChange cl n w)).
Proof.
  intros ->. unfold Sellers.handlePageChange.
  destruct (Z.ltb_spec n 1); [left; apply debounceEffect_id|].
  destruct (Z.ltb_spec (Sellers.totalPages (Sellers.st w)) n);
    [left; apply debounceEffect_id|].
  destruct (Z.eqb_spec n (Sellers.currentPage (Sellers.st w)));
    [left; apply debounceEffect_id|].
  destruct (Sellers.isLoading (Sellers.st w)); [left; apply debounceEffect_id|].
  right. rewrite debounceEffect_sent. eexists. split; [reflexivity|]. cbn. lia.
Qed.

Lemma calls_handlePageChange_request (n : Z) (w : Appointments.World) :
  Runs.callsPageRequest w
    (Appointments.handlePageChange (Appointments.st w) n w).
Proof.
  unfold Appointments.handlePageChange.
  destruct (Z.ltb_spec n 1); [by left|].
  destruct (Z.ltb_spec (Appointments.totalPages (Appointments.st w)) n); [by left|].
  destruct (Z.eqb_spec n (Appointments.currentPage (Appointments.st w))); [by left|].
  destruct (Appointments.isLoading (Appointments.st w)); [by left|].
  right. eexists. split; [reflexivity|]. cbn. lia.
Qed.

(** X3.  The pagination controls never ask for a page outside
    [1, totalPages] nor for the current page: [handlePageChange],
    [handlePreviousPage] and [handleNextPage] either leave the component
    untouched or send one such request.  What the two buttons do is
    decided in full.  While something is loading, or when the control is
    disabled, they do nothing.  When nothing is loading, an enabled next
    control asks for [currentPage + 1], unless the page number is
    negative, in which case it does nothing; an enabled previous control
    asks for [currentPage - 1], unless the page number is more than one
    past the last page, in which case it does nothing. *)
Theorem pagination_controls_stay_in_range
    (w : Sellers.World) (a : Appointments.World) (n : Z) :
  (Runs.sellersPageRequest w (Sellers.step w (Sellers.PageChange n)) /\
   Runs.sellersPageRequest w (Sellers.step w Sellers.PreviousPage) /\
   Runs.sellersPageRequest w (Sellers.step w Sellers.NextPage)) /\
  (Runs.callsPageRequest a (Appointments.step a (Appointments.PageChange n)) /\
   Runs.callsPageRequest a (Appointments.step a Appointments.PreviousPage) /\
   Runs.callsPageRequest a (Appointments.step a Appointments.NextPage)) /\
  (Sellers.step w Sellers.NextPage
   = (if Sellers.isLoading (Sellers.st w)
         || negb (Sellers.canGoNext (Sellers.st w))
         || (Sellers.currentPage (Sellers.st w) <? 0)
      then w
      else Sellers.step w
             (Sellers.PageChange (Sellers.currentPage (Sellers.st w) + 1))) /\
   Sellers.step w Sellers.PreviousPage
   = (if Sellers.isLoading (Sellers.st w)
         || negb (Sellers.canGoPrevious (Sellers.st w))
         || (Sellers.totalPages (Sellers.st w) + 1
             <? Sellers.currentPage (Sellers.st w))
      then w
      else Sellers.step w
             (Sellers.PageChange (Sellers.currentPage (Sellers.st w) - 1))) /\
   (Sellers.isLoading (Sellers.st w) = false ->
    Sellers.canGoNext (Sellers.st w) = true ->
    0 <= Sellers.currentPage (Sellers.st w) ->
    Sellers.sent (Sellers.step w Sellers.NextPage)
    = Sellers.mkParams (Sellers.currentPage (Sellers.st w) + 1) Sellers.PAGE_SIZE
        (Sellers.orUndefined (Sellers.appliedOrPendingSearch (Sellers.st w)))
      :: Sellers.sent w) /\
   (Sellers.isLoading (Sellers.st w) = false ->
    Sellers.canGoPrevious (Sellers.st w) = true ->
    Sellers.currentPage (Sellers.st w) <= Sellers.totalPages (Sellers.st w) + 1 ->
    Sellers.sent (Sellers.step w Sellers.PreviousPage)
    = Sellers.mkParams (Sellers.currentPage (Sellers.st w) - 1) Sellers.PAGE_SIZE
        (Sellers.orUndefined (Sellers.appliedOrPendingSearch (Sellers.st w)))
      :: Sellers.sent w)) /\
  (Appointments.step a Appointments.NextPage
   = (if Appointments.isLoading (Appointments.st a)
         || negb (Appointments.canGoNext (Appointments.st a))
         || (Appointments.currentPage (Appointments.st a) <? 0)
      then a
      else Appointments.step a
             (Appointments.PageChange
                (Appointments.currentPage (Appointments.st a) + 1))) /\
   Appointments.step a Appointments.PreviousPage
   = (if Appointments.isLoading (Appointments.st a)
         || negb (Appointments.canGoPrevious (Appointments.st a))
         || (Appointments.totalPages (Appointments.st a) + 1
             <? Appointments.currentPage (Appointments.st a))
      then a
      else Appointments.step a
             (Appointments.PageChange
                (Appointments.currentPage (Appointments.st a) - 1))) /\
   (Appointments.isLoading (Appointments.st a) = false ->
    Appointments.canGoNext (Appointments.st a) = true ->
    0 <= Appointments.currentPage (Appointments.st a) ->
    Appointments.sent (Appointments.step a Appointments.NextPage)
    = Appointments.mkParams Appointments.PAGE_SIZE
        (Appointments.currentPage (Appointments.st a) + 1)
        (Appointments.statusParam (Appointments.selectedStatus (Appointments.st a)))
      :: Appointments.sent a) /\
   (Appointments.isLoading (Appointments.st a) = false ->
    Appointments.canGoPrevious (Appointments.st a) = true ->
    Appointments.currentPage (Appointments.st a)
      <= Appointments.totalPages (Appointments.st a) + 1 ->
    Appointments.sent (Appointments.step a Appointments.PreviousPage)
    = Appointments.mkParams Appointments.PAGE_SIZE
        (Appointments.currentPage (Appointments.st a) - 1)
        (Appointments.statusParam (Appointments.selectedStatus (Appointments.st a)))
      :: Appointments.sent a)).
Proof.
  split; [|split; [|split]].
  - split; [|split]; unfold Sellers.step; cbn [Sellers.handle].
    + by apply sellers_handlePageChange_request.
    + unfold Sellers.handlePreviousPage.
      destruct (negb _); [left; apply debounceEffect_id|].
      by apply sellers_handlePageChange_request.
    + unfold Sellers.handleNextPage.
      destruct (negb _); [left; apply debounceEffect_id|].
      by apply sellers_handlePageChange_request.
  - split; [|split]; cbn [Appointments.step].
    + apply calls_handlePageChange_request.
    + unfold Appointments.handlePreviousPage. destruct (negb _); [by left|].
      apply calls_handlePageChange_request.
    + unfold Appointments.handleNextPage. destruct (negb _); [by left|].
      apply calls_handlePageChange_request.
  - unfold Sellers.step. cbn [Sellers.handle].
    unfold Sellers.handleNextPage, Sellers.handlePreviousPage,
      Sellers.handlePageChange, Sellers.canGoNext, Sellers.canGoPrevious,
      Pagination.canGoNext, Pagination.canGoPrevious, Pagination.effectivePage.
    fold (Sellers.totalPages (Sellers.st w)).
    set (cp := Sellers.currentPage (Sellers.st w)).
    set (tp := Sellers.totalPages (Sellers.st w)).
    split; [|split; [|split]].
    + destruct (Sellers.isLoading (Sellers.st w)) eqn:Hl; cbn [orb].
      { destruct (negb _); [apply debounceEffect_id|].
        rewrite !orb_true_r. apply debounceEffect_id. }
      destruct (negb _); cbn [orb]; [apply debounceEffect_id|].
      destruct (Z.ltb_spec cp 0); [|done].
      destruct (Z.ltb_spec (cp + 1) 1); [apply debounceEffect_id|lia].
    + destruct (Sellers.isLoading (Sellers.st w)) eqn:Hl; cbn [orb].
      { destruct (negb _); [apply debounceEffect_id|].
        rewrite !orb_true_r. apply debounceEffect_id. }
      destruct (negb _); cbn [orb]; [apply debounceEffect_id|].
      destruct (Z.ltb_spec (tp + 1) cp); [|done].
      destruct (Z.ltb_spec (cp - 1) 1); [apply debounceEffect_id|].
      destruct (Z.ltb_spec tp (cp - 1)); [apply debounceEffect_id|lia].
    + intros Hidle Hnext Hcp. rewrite Hidle, Hnext. cbn [negb].
      apply andb_true_iff in Hnext as [Hlt _]. apply Z.ltb_lt in Hlt.
      destruct (Z.ltb_spec (cp + 1) 1); [lia|].
      destruct (Z.ltb_spec tp (cp + 1)); [lia|].
      destruct (Z.eqb_spec (cp + 1) cp); [lia|].
      cbn [orb]. by rewrite debounceEffect_sent.
    + intros Hidle Hprev Hcp. rewrite Hidle, Hprev. cbn [negb].
      apply Z.ltb_lt in Hprev.
      destruct (Z.ltb_spec (cp - 1) 1); [lia|].
      destruct (Z.ltb_spec tp (cp - 1)); [lia|].
      destruct (Z.eqb_spec (cp - 1) cp); [lia|].
      cbn [orb]. by rewrite debounceEffect_sent.
  - cbn [Appointments.step].
    unfold Appointments.handleNextPage, Appointments.handlePreviousPage,
      Appointments.handlePageChange, Appointments.canGoNext,
      Appointments.canGoPrevious,
      Pagination.canGoNext, Pagination.canGoPrevious, Pagination.effectivePage.
    fold (Appointments.totalPages (Appointments.st a)).
    set (cp := Appointments.currentPage (Appointments.st a)).
    set (tp := Appointments.totalPages (Appointments.st a)).
    split; [|split; [|split]].
    + destruct (Appointments.isLoading (Appointments.st a)) eqn:Hl; cbn [orb].
      { destruct (negb _); [done|]. by rewrite !orb_true_r. }
      destruct (negb _); cbn [orb]; [done|].
      destruct (Z.ltb_spec cp 0); [|done].
      destruct (Z.ltb_spec (cp + 1) 1); [done|lia].
    + destruct (Appointments.isLoading (Appointments.st a)) eqn:Hl; cbn [orb].
      { destruct (negb _); [done|]. by rewrite !orb_true_r. }
      destruct (negb _); cbn [orb]; [done|].
      destruct (Z.ltb_spec (tp + 1) cp); [|done].
      destruct (Z.ltb_spec (cp - 1) 1); [done|].
      destruct (Z.ltb_spec tp (cp - 1)); [done|lia].
    + intros Hidle Hnext Hcp. rewrite Hidle, Hnext. cbn [negb].
      apply andb_true_iff in Hnext as [Hlt _]. apply Z.ltb_lt in Hlt.
      destruct (Z.ltb_spec (cp + 1) 1); [lia|].
      destruct (Z.ltb_spec tp (cp + 1)); [lia|].
      destruct (Z.eqb_spec (cp + 1) cp); [lia|].
      reflexivity.
    + intros Hidle Hprev Hcp. rewrite Hidle, Hprev. cbn [negb].
      apply Z.ltb_lt in Hprev.
      destruct (Z.ltb_spec (cp - 1) 1); [lia|].
      destruct (Z.ltb_spec tp (cp - 1)); [lia|].
      destruct (Z.eqb_spec (cp - 1) cp); [lia|].
      reflexivity.
Qed.

Lemma pagination_controls_stay_in_range_witness :
  Sellers.sent (Sellers.step Samples.sellersOnPage2 Sellers.NextPage)
  = Sellers.mkParams 3 50 None :: Sellers.sent Samples.sellersOnPage2 /\
  Sellers.sent (Sellers.step Samples.sellersOnPage2 Sellers.PreviousPage)
  = Sellers.mkParams 1 50 None :: Sellers.sent Samples.sellersOnPage2 /\
  Appointments.sent (Appointments.step Samples.callsLoaded Appointments.NextPage)
  = Appointments.mkParams 20 2 None :: Appointments.sent Samples.callsLoaded.
Proof.
  destruct (pagination_controls_stay_in_range Samples.sellersOnPage2
              Samples.callsLoaded 1) as (_ & _ & H1 & H2).
  destruct H1 as (_ & _ & Hn & Hp).
  destruct H2 as (_ & _ & Hn' & _).
  split; [apply Hn; [reflexivity | reflexivity | by vm_compute]|].
  split; [apply Hp; [reflexivity | reflexivity | by vm_compute]|].
  apply Hn'; [reflexivity | reflexivity | by vm_compute].
Defined.

(* ===================================================================== *)
(** ** Further facts: whole runs of the sellers page                      *)
(* ===================================================================== *)

Lemma quiet_refl (w : Sellers.World) : Runs.quietStep w w.
Proof. split; [apply passive_refl | by left]. Qed.

Lemma quiet_withState (f : Sellers.State -> Sellers.State) (w : Sellers.World) :
  (forall s, Sellers.sellers (f s) = Sellers.sellers s) ->
  (forall s, Sellers.total (f s) = Sellers.total s) ->
  (forall s, Sellers.currentPage (f s) = Sellers.currentPage s) ->
  (forall s, Sellers.lastFetchedSearch (f s) = Sellers.lastFetchedSearch s) ->
  (forall s, Sellers.isLoading (f s) = Sellers.isLoading s \/
             Sellers.isLoading (f s) = true) ->
  Runs.quietStep w (Sellers.withState f w).
Proof.
  intros H1 H2 H3 H4 H5. split; [by apply passive_withState|]. apply H5.
Qed.

Lemma fetchStep_fetchSellers (cl : Sellers.State)
    (options : option Sellers.FetchOptions) (aw : Sellers.Awaiter)
    (w w0 : Sellers.World) :
  Sellers.latestRequestRef w0 = Sellers.latestRequestRef w ->
  Sellers.inflight w0 = Sellers.inflight w ->
  Sellers.sent w0 = Sellers.sent w ->
  Runs.fetchStep w (Sellers.fetchSellers cl options aw w0).
Proof.
  intros H1 H2 H3. unfold Runs.fetchStep, Sellers.fetchSellers. cbn.
  rewrite H1, H2, H3. by repeat eexists.
Qed.

Ltac sellers_quiet :=
  first
    [ apply quiet_refl
    | apply quiet_withState; intros []; cbn; auto ].

(** What the handler of an event does to the token, the suspended fetches,
    the requests sent and the spinner. *)
Lemma handle_shape (w : Sellers.World) (e : Sellers.Event) :
  Runs.fetchStep w (Sellers.handle e w)
  \/ Runs.quietStep w (Sellers.handle e w)
  \/ exists id o rq, e = Sellers.FetchSettled id o /\ Sellers.inflight w !! id = Some rq.
Proof.
  destruct e; cbn [Sellers.handle].
  - unfold Sellers.mountEffect.
    destruct (Sellers.hasFetchedInitial w); [right; left; sellers_quiet|left].
    by apply fetchStep_fetchSellers.
  - right; left. unfold Sellers.handleSearchChange, Sellers.typed. sellers_quiet.
  - left. by apply fetchStep_fetchSellers.
  - left. by apply fetchStep_fetchSellers.
  - unfold Sellers.handlePageChange.
    destruct (_ || _); [right; left; sellers_quiet | left].
    by apply fetchStep_fetchSellers.
  - unfold Sellers.handlePreviousPage, Sellers.handlePageChange.
    destruct (negb _); [right; left; sellers_quiet|].
    destruct (_ || _); [right; left; sellers_quiet | left].
    by apply fetchStep_fetchSellers.
  - unfold Sellers.handleNextPage, Sellers.handlePageChange.
    destruct (negb _); [right; left; sellers_quiet|].
    destruct (_ || _); [right; left; sellers_quiet | left].
    by apply fetchStep_fetchSellers.
  - right; left. unfold Sellers.openModal. sellers_quiet.
  - right; left. unfold Sellers.closeModal. sellers_quiet.
  - right; left. unfold Sellers.handleSubmit, Runs.quietStep, Sellers.passive.
    destruct w as [[] ? ? ? ? ? ? ?]. cbn. auto 10.
  - right; left. unfold Sellers.requestDeleteSeller. sellers_quiet.
  - right; left. unfold Sellers.handleConfirmDeleteSeller.
    destruct (Sellers.sellerPendingDeletion _); [|sellers_quiet].
    unfold Runs.quietStep, Sellers.passive.
    destruct w as [[] ? ? ? ? ? ? ?]. cbn. auto 10.
  - right; left. unfold Sellers.handleCancelDeleteSeller.
    destruct (Sellers.isDeleting _); sellers_quiet.
  - unfold Sellers.tick. cbn.
    destruct (Sellers.debounceTimer w) as [t|];
      [|right; left; unfold Runs.quietStep, Sellers.passive; cbn; auto 10].
    destruct (_ <=? _);
      [left | right; left; unfold Runs.quietStep, Sellers.passive; cbn; auto 10].
    by apply fetchStep_fetchSellers.
  - unfold Sellers.settleFetch.
    destruct (Sellers.inflight w !! id) as [rq|] eqn:Hrq;
      [right; right; by exists id, o, rq | right; left; sellers_quiet].
  - unfold Sellers.settleMutation.
    destruct (Sellers.mutations w !! i) as [[cl|cl]|]; [| |right; left; sellers_quiet].
    + unfold Sellers.handleSubmit_resume. destruct ok;
        [left; by apply fetchStep_fetchSellers|].
      right; left. unfold Runs.quietStep, Sellers.passive.
      destruct w as [[] ? ? ? ? ? ? ?]. cbn. auto 10.
    + unfold Sellers.handleConfirmDeleteSeller_resume. destruct ok;
        [left; by apply fetchStep_fetchSellers|].
      right; left. unfold Runs.quietStep, Sellers.passive.
      destruct w as [[] ? ? ? ? ? ? ?]. cbn. auto 10.
Qed.

Lemma debounceEffect_fetchStep (before : Sellers.State) (w w' : Sellers.World) :
  Runs.fetchStep w w' -> Runs.fetchStep w (Sellers.debounceEffect before w').
Proof.
  unfold Runs.fetchStep.
  by rewrite debounceEffect_latest, debounceEffect_inflight, debounceEffect_sent,
    debounceEffect_st.
Qed.

Lemma debounceEffect_quietStep (before : Sellers.State) (w w' : Sellers.World) :
  Runs.quietStep w w' -> Runs.quietStep w (Sellers.debounceEffect before w').
Proof.
  intros [H1 H2]. split; [by apply passive_debounceEffect|].
  by rewrite debounceEffect_st.
Qed.

(** The invariant of X4 and X5 is kept by every event. *)
Lemma step_tokens_and_spinner (w : Sellers.World) (e : Sellers.Event) :
  Runs.tokensCounted w /\ Runs.spinnerCoversLatest w ->
  Runs.tokensCounted (Sellers.step w e) /\
  Runs.spinnerCoversLatest (Sellers.step w e).
Proof.
  intros [[Hcount Hkeys] Hspin]. unfold Sellers.step.
  destruct (handle_shape w e) as [H|[H|(id & o & rq & -> & Hrq)]].
  - apply (debounceEffect_fetchStep (Sellers.st w)) in H.
    destruct H as (page & term & prev & aw & H1 & H2 & H3 & H4).
    split; [split|].
    + rewrite H1, H3, Hcount. cbn [length]. lia.
    + rewrite H1, H2. apply map_Forall_insert_2; [lia|].
      intros i x Hi. specialize (Hkeys i x Hi). cbn in Hkeys. lia.
    + intros _. exact H4.
  - apply (debounceEffect_quietStep (Sellers.st w)) in H.
    destruct H as [(H1 & H2 & H3 & _) H4].
    split; [split|].
    + by rewrite H1, H3.
    + by rewrite H1, H2.
    + unfold Runs.spinnerCoversLatest. rewrite H1, H2. intros Hsome.
      specialize (Hspin Hsome). destruct H4 as [->| ->]; done.
  - cbn [Sellers.handle].
    unfold Runs.tokensCounted, Runs.spinnerCoversLatest.
    rewrite debounceEffect_latest, debounceEffect_inflight, debounceEffect_sent,
      debounceEffect_st.
    destruct (Z.eq_dec id (Sellers.latestRequestRef w)) as [Heq|Hne].
    + destruct (settleFetch_latest id o rq w Hrq Heq) as (H1 & H2 & H3 & _).
      rewrite H1, H2, H3. split; [split; [done|by apply map_Forall_delete]|].
      rewrite <- Heq, lookup_delete_eq. by intros [? ?].
    + pose proof (settleFetch_stale id o rq w Hrq Hne) as Hstale.
      cbn zeta in Hstale. destruct Hstale as (H1 & H2 & H3 & _).
      rewrite H1, H2, H3. split; [split; [done|by apply map_Forall_delete]|].
      rewrite lookup_delete_ne by done. intros Hsome.
      unfold Sellers.settleFetch. rewrite Hrq.
      rewrite fetchSellers_resume_stale by done.
      specialize (Hspin Hsome).
      by destruct (Sellers.awaiter rq).
Qed.

Lemma run_tokens_and_spinner (es : list Sellers.Event) (w : Sellers.World) :
  Runs.tokensCounted w /\ Runs.spinnerCoversLatest w ->
  Runs.tokensCounted (Sellers.run w es) /\
  Runs.spinnerCoversLatest (Sellers.run w es).
Proof.
  revert w. induction es as [|e es IH]; intros w H; [exact H|].
  rewrite run_cons. apply IH. by apply step_tokens_and_spinner.
Qed.

Lemma initial_tokens_and_spinner :
  Runs.tokensCounted Sellers.initialWorld /\
  Runs.spinnerCoversLatest Sellers.initialWorld.
Proof.
  split; [split; [done | apply map_Forall_empty]|].
  intros [? H]. cbn in H. by rewrite lookup_empty in H.
Qed.

(** X4.  In every run of the sellers page from its creation, the request
    token equals the number of requests sent so far, and every suspended
    fetch holds a token between 1 and the latest: tokens are issued one
    per request, in order, and never reused. *)
Theorem request_tokens_count_requests (es : list Sellers.Event) :
  let w := Sellers.run Sellers.initialWorld es in
  Sellers.latestRequestRef w = Z.of_nat (length (Sellers.sent w)) /\
  (forall id rq, Sellers.inflight w !! id = Some rq ->
     1 <= id <= Sellers.latestRequestRef w) /\
  (forall e, Sellers.latestRequestRef w
             <= Sellers.latestRequestRef (Sellers.step w e)
             <= Sellers.latestRequestRef w + 1).
Proof.
  cbn zeta.
  destruct (run_tokens_and_spinner es Sellers.initialWorld
              initial_tokens_and_spinner) as [[H1 H2] _].
  split; [exact H1|]. split.
  - intros id rq Hrq. exact (H2 id rq Hrq).
  - intros e. set (w := Sellers.run Sellers.initialWorld es).
    pose proof (step_latest_mono w e) as Hmono.
    split; [exact Hmono|]. unfold Sellers.step. rewrite debounceEffect_latest.
    destruct (handle_shape w e) as [H|[H|(id & o & rq & -> & Hrq)]].
    + destruct H as (? & ? & ? & ? & -> & _). lia.
    + destruct H as [(-> & _) _]. lia.
    + cbn [Sellers.handle].
      destruct (Z.eq_dec id (Sellers.latestRequestRef w)) as [Heq|Hne].
      * destruct (settleFetch_latest id o rq w Hrq Heq) as (-> & _). lia.
      * pose proof (settleFetch_stale id o rq w Hrq Hne) as Hs. cbn zeta in Hs.
        destruct Hs as (-> & _). lia.
Qed.

(** X5.  In every run of the sellers page from its creation, the spinner
    is on as long as the request holding the latest token is pending. *)
Theorem spinner_on_while_latest_pending (es : list Sellers.Event) :
  let w := Sellers.run Sellers.initialWorld es in
  is_Some (Sellers.inflight w !! Sellers.latestRequestRef w) ->
  Sellers.isLoading (Sellers.st w) = true.
Proof.
  cbn zeta.
  destruct (run_tokens_and_spinner es Sellers.initialWorld
              initial_tokens_and_spinner) as [_ H].
  exact H.
Qed.

Lemma spinner_on_while_latest_pending_witness :
  Sellers.isLoading
    (Sellers.st
       (Sellers.run Sellers.initialWorld
          [Sellers.Mount;
           Sellers.FetchSettled 1 (Sellers.Resolved Samples.sellersPage1);
           Sellers.Refresh; Sellers.OpenModal None; Sellers.Submit;
           Sellers.MutationSettled 0 false])) = true.
Proof.
  apply (spinner_on_while_latest_pending
           [Sellers.Mount;
            Sellers.FetchSettled 1 (Sellers.Resolved Samples.sellersPage1);
            Sellers.Refresh; Sellers.OpenModal None; Sellers.Submit;
            Sellers.MutationSettled 0 false]).
  eexists. vm_compute. reflexivity.
Defined.

Lemma handle_clock (w : Sellers.World) (e : Sellers.Event) :
  e <> Sellers.Tick ->
  Sellers.now (Sellers.handle e w) = Sellers.now w /\
  Sellers.debounceTimer (Sellers.handle e w) = Sellers.debounceTimer w.
Proof.
  intros Hne. destruct e; cbn [Sellers.handle]; try done.
  - unfold Sellers.mountEffect. by destruct (Sellers.hasFetchedInitial w).
  - unfold Sellers.handlePageChange. by destruct (_ || _).
  - unfold Sellers.handlePreviousPage, Sellers.handlePageChange.
    destruct (negb _); [done|]. by destruct (_ || _).
  - unfold Sellers.handleNextPage, Sellers.handlePageChange.
    destruct (negb _); [done|]. by destruct (_ || _).
  - unfold Sellers.handleConfirmDeleteSeller.
    by destruct (Sellers.sellerPendingDeletion _).
  - unfold Sellers.handleCancelDeleteSeller. by destruct (Sellers.isDeleting _).
  - unfold Sellers.settleFetch.
    destruct (Sellers.inflight w !! id) as [rq|]; [|done].
    by destruct (Sellers.awaiter rq).
  - unfold Sellers.settleMutation.
    destruct (Sellers.mutations w !! i) as [[cl|cl]|]; [| |done].
    + unfold Sellers.handleSubmit_resume. by destruct ok.
    + unfold Sellers.handleConfirmDeleteSeller_resume. by destruct ok.
Qed.

Lemma sameDebounceDeps_true (a b : Sellers.State) :
  Sellers.sameDebounceDeps a b = true ->
  Sellers.currentPage a = Sellers.currentPage b /\
  Sellers.lastFetchedSearch a = Sellers.lastFetchedSearch b /\
  Sellers.search a = Sellers.search b /\
  Sellers.isSearchDirty a = Sellers.isSearchDirty b.
Proof.
  unfold Sellers.sameDebounceDeps. rewrite !andb_true_iff.
  intros [[[H1 H2] H3] H4].
  apply Z.eqb_eq in H1. apply String.eqb_eq in H2, H4.
  apply Bool.eqb_prop in H3. done.
Qed.

Lemma tick_timerFresh (w : Sellers.World) :
  Runs.timerFresh w ->
  Sellers.sameDebounceDeps (Sellers.st w) (Sellers.st (Sellers.tick w)) = true ->
  Runs.timerFresh (Sellers.tick w).
Proof.
  unfold Runs.timerFresh, Sellers.tick. cbn.
  destruct (Sellers.debounceTimer w) as [t|] eqn:Ht; [|done].
  intros (H1 & H2 & H3 & H4 & H5) _.
  destruct (Z.leb_spec (Sellers.deadline t) (Sellers.now w + 1)); [done|].
  cbn. repeat split; try done; lia.
Qed.

Lemma step_timerFresh (w : Sellers.World) (e : Sellers.Event) :
  Runs.timerFresh w -> Runs.timerFresh (Sellers.step w e).
Proof.
  intros Hw. unfold Sellers.step, Sellers.debounceEffect.
  destruct (Sellers.sameDebounceDeps _ _) eqn:Hdeps.
  - assert (e = Sellers.Tick \/ e <> Sellers.Tick) as [->|Hne]
      by (destruct e; (by left) || (by right)).
    + by apply tick_timerFresh.
    + destruct (handle_clock w e Hne) as [Hnow Htimer].
      destruct (sameDebounceDeps_true _ _ Hdeps) as (D1 & D2 & D3 & D4).
      unfold Runs.timerFresh in *. rewrite Htimer, Hnow.
      destruct (Sellers.debounceTimer w) as [t|]; [|done].
      destruct Hw as (H1 & H2 & H3 & H4 & H5).
      repeat split; congruence || lia.
  - destruct (Sellers.isSearchDirty _) eqn:Hdirty; [|done].
    unfold Runs.timerFresh. cbn. unfold Sellers.DEBOUNCE_DELAY.
    repeat split; done || lia.
Qed.

Lemma run_timerFresh (es : list Sellers.Event) (w : Sellers.World) :
  Runs.timerFresh w -> Runs.timerFresh (Sellers.run w es).
Proof.
  revert w. induction es as [|e es IH]; intros w H; [exact H|].
  rewrite run_cons. apply IH. by apply step_timerFresh.
Qed.

(** X6.  In every run of the sellers page from its creation, a debounce
    timer is pending only while the search box differs from the last
    fetched term, and the request its callback sends when it fires is for
    page 1 with the text the box holds at that moment.  With a clean
    search box the passage of time changes nothing but the clock. *)
Theorem debounce_timer_is_fresh (es : list Sellers.Event) :
  let w := Sellers.run Sellers.initialWorld es in
  (Sellers.isSearchDirty (Sellers.st w) = false -> Sellers.debounceTimer w = None) /\
  (forall t, Sellers.debounceTimer w = Some t ->
     Sellers.now w < Sellers.deadline t <= Sellers.now w + Sellers.DEBOUNCE_DELAY /\
     forall w', Sellers.sent w' = Sellers.sent w ->
       Sellers.sent (Sellers.debounceCallback (Sellers.timer_closure t) w')
       = Sellers.mkParams 1 Sellers.PAGE_SIZE
           (Sellers.orUndefined (Sellers.search (Sellers.st w)))
         :: Sellers.sent w) /\
  (Sellers.isSearchDirty (Sellers.st w) = false ->
   forall k, Sellers.run w (Sellers.ticks k) = Sellers.later (Z.of_nat k) w).
Proof.
  cbn zeta.
  pose proof (run_timerFresh es Sellers.initialWorld I) as Hfresh.
  set (w := Sellers.run Sellers.initialWorld es) in *.
  unfold Runs.timerFresh in Hfresh.
  assert (Sellers.isSearchDirty (Sellers.st w) = false ->
          Sellers.debounceTimer w = None) as Hclean.
  { intros Hd. destruct (Sellers.debounceTimer w) as [t|]; [|done].
    destruct Hfresh as (H1 & _). congruence. }
  split; [exact Hclean|]. split.
  - intros t Ht. rewrite Ht in Hfresh.
    destruct Hfresh as (_ & H2 & _ & _ & H5). split; [exact H5|].
    intros w' Hsent. unfold Sellers.debounceCallback, Sellers.fetchSellers. cbn.
    by rewrite H2, Hsent.
  - intros Hd k. apply ticks_idle. by rewrite (Hclean Hd).
Qed.

Lemma debounce_timer_is_fresh_witness :
  Sellers.debounceTimer Samples.sellersOnPage2 = None /\
  Sellers.run Samples.sellersOnPage2 (Sellers.ticks 1000)
  = Sellers.later 1000 Samples.sellersOnPage2.
Proof.
  destruct (debounce_timer_is_fresh
              [Sellers.Mount;
               Sellers.FetchSettled 1 (Sellers.Resolved Samples.sellersPage1);
               Sellers.PageChange 2;
               Sellers.FetchSettled 2 (Sellers.Resolved Samples.sellersPage2)])
    as (H1 & _ & H3).
  split; [apply H1; reflexivity|].
  exact (H3 eq_refl 1000%nat).
Defined.

Lemma orUndefined_not_empty (term : string) : Sellers.orUndefined term <> Some "".
Proof.
  unfold Sellers.orUndefined.
  destruct (String.eqb_spec term ""); [done|]. congruence.
Qed.

Lemma statusParam_not_empty (status : string) :
  Appointments.statusParam status <> Some "".
Proof.
  unfold Appointments.statusParam.
  destruct (String.eqb_spec status ""); [done|]. congruence.
Qed.

Lemma sellers_step_params (w : Sellers.World) (e : Sellers.Event) :
  Forall Runs.sellersParamsOk (Sellers.sent w) ->
  Forall Runs.sellersParamsOk (Sellers.sent (Sellers.step w e)).
Proof.
  intros Hw. unfold Sellers.step. rewrite debounceEffect_sent.
  destruct (handle_shape w e) as [H|[H|(id & o & rq & -> & Hrq)]].
  - destruct H as (page & term & prev & aw & _ & _ & -> & _).
    constructor; [|done]. split; [done|]. apply orUndefined_not_empty.
  - destruct H as [(_ & _ & -> & _) _]. done.
  - cbn [Sellers.handle].
    destruct (Z.eq_dec id (Sellers.latestRequestRef w)) as [Heq|Hne].
    + destruct (settleFetch_latest id o rq w Hrq Heq) as (_ & _ & -> & _). done.
    + pose proof (settleFetch_stale id o rq w Hrq Hne) as Hs. cbn zeta in Hs.
      destruct Hs as (_ & _ & -> & _). done.
Qed.

Lemma sellers_step_pages_sent (w : Sellers.World) (e : Sellers.Event) :
  Sellers.wellFormed e ->
  Sellers.pagesFromOne w ->
  Forall (fun p => 1 <= Sellers.param_page p) (Sellers.sent w) ->
  Forall (fun p => 1 <= Sellers.param_page p) (Sellers.sent (Sellers.step w e)).
Proof.
  intros He Hpages Hw.
  pose proof (sellers_step_pagesFromOne w e He Hpages) as (_ & Hreq & _).
  revert Hreq. unfold Sellers.step.
  rewrite debounceEffect_sent, debounceEffect_inflight.
  destruct (handle_shape w e) as [H|[H|(id & o & rq & -> & Hrq)]].
  - destruct H as (page & term & prev & aw & _ & -> & -> & _). intros Hreq.
    constructor; [|done].
    by destruct (map_Forall_lookup_1 _ _ _ _ Hreq (lookup_insert_eq _ _ _)).
  - destruct H as [(_ & _ & -> & _) _]. done.
  - cbn [Sellers.handle]. intros _.
    destruct (Z.eq_dec id (Sellers.latestRequestRef w)) as [Heq|Hne].
    + destruct (settleFetch_latest id o rq w Hrq Heq) as (_ & _ & -> & _). done.
    + pose proof (settleFetch_stale id o rq w Hrq Hne) as Hs. cbn zeta in Hs.
      destruct Hs as (_ & _ & -> & _). done.
Qed.

(** What one event does to the requests sent, the suspended fetches and
    the spinner of the appointments page. *)
Lemma calls_step_shape (w : Appointments.World) (e : Appointments.Event) :
  (exists page status prev aw,
     Appointments.sent (Appointments.step w e)
     = Appointments.mkParams Appointments.PAGE_SIZE page
         (Appointments.statusParam status) :: Appointments.sent w /\
     Appointments.fetches (Appointments.step w e)
     = Appointments.fetches w ++ [Appointments.mkRequest page status prev aw])
  \/ (Appointments.sent (Appointments.step w e) = Appointments.sent w /\
      Appointments.fetches (Appointments.step w e) = Appointments.fetches w /\
      Appointments.isLoading (Appointments.st (Appointments.step w e))
      = Appointments.isLoading (Appointments.st w) /\
      Appointments.hasFetchedInitial (Appointments.step w e)
      = Appointments.hasFetchedInitial w)
  \/ (Appointments.sent (Appointments.step w e) = Appointments.sent w /\
      Appointments.isLoading (Appointments.st (Appointments.step w e)) = false).
Proof.
  assert (forall cl options aw w0,
            Appointments.sent w0 = Appointments.sent w ->
            Appointments.fetches w0 = Appointments.fetches w ->
            exists page status prev aw',
              Appointments.sent (Appointments.fetchAppointments cl options aw w0)
              = Appointments.mkParams Appointments.PAGE_SIZE page
                  (Appointments.statusParam status) :: Appointments.sent w /\
              Appointments.fetches (Appointments.fetchAppointments cl options aw w0)
              = Appointments.fetches w
                ++ [Appointments.mkRequest page status prev aw']) as Hfetch.
  { intros cl options aw w0 H1 H2. unfold Appointments.fetchAppointments. cbn.
    rewrite H1, H2. by repeat eexists. }
  destruct e; cbn [Appointments.step].
  - unfold Appointments.mountEffect.
    destruct (Appointments.hasFetchedInitial w) eqn:Hf; [right; left; done|left].
    by apply Hfetch.
  - left. by apply Hfetch.
  - unfold Appointments.handlePageChange.
    destruct (_ || _); [right; left; done|left]. by apply Hfetch.
  - unfold Appointments.handlePreviousPage, Appointments.handlePageChange.
    destruct (negb _); [right; left; done|].
    destruct (_ || _); [right; left; done|left]. by apply Hfetch.
  - unfold Appointments.handleNextPage, Appointments.handlePageChange.
    destruct (negb _); [right; left; done|].
    destruct (_ || _); [right; left; done|left]. by apply Hfetch.
  - right; left. by destruct w as [[] ? ? ? ?].
  - right; left. by destruct w as [[] ? ? ? ?].
  - right; left. done.
  - right; left. by destruct w as [[] ? ? ? ?].
  - unfold Appointments.handleConfirmDeleteAppointment.
    destruct (Appointments.appointmentPendingDeletion _); right; left; [|done].
    by destruct w as [[] ? ? ? ?].
  - unfold Appointments.handleCancelDeleteAppointment.
    destruct (Appointments.isDeletingAppointment _); right; left; [done|].
    by destruct w as [[] ? ? ? ?].
  - unfold Appointments.settleFetch.
    destruct (Appointments.fetches w !! i) as [rq|]; [|right; left; done].
    right; right. by destruct (Appointments.awaiter rq).
  - unfold Appointments.settleMutation.
    destruct (Appointments.mutations w !! i) as [[cl|cl]|]; [| |right; left; done].
    + unfold Appointments.handleSubmit_resume. destruct ok; [left; by apply Hfetch|].
      right; left. by destruct w as [[] ? ? ? ?].
    + unfold Appointments.handleConfirmDeleteAppointment_resume.
      destruct ok; [left; by apply Hfetch|].
      right; left. by destruct w as [[] ? ? ? ?].
Qed.

Lemma calls_step_params (w : Appointments.World) (e : Appointments.Event) :
  Forall Runs.callsParamsOk (Appointments.sent w) ->
  Forall Runs.callsParamsOk (Appointments.sent (Appointments.step w e)).
Proof.
  intros Hw.
  destruct (calls_step_shape w e)
    as [(page & status & prev & aw & -> & _)|[(-> & _)|(-> & _)]]; try done.
  constructor; [|done]. split; [done|]. apply statusParam_not_empty.
Qed.

Lemma calls_step_pages_sent (w : Appointments.World) (e : Appointments.Event) :
  Appointments.wellFormed e ->
  Appointments.pagesFromOne w ->
  Forall (fun p => 1 <= Appointments.param_page p) (Appointments.sent w) ->
  Forall (fun p => 1 <= Appointments.param_page p)
    (Appointments.sent (Appointments.step w e)).
Proof.
  intros He Hpages Hw.
  pose proof (calls_step_pagesFromOne w e He Hpages) as (_ & Hreq & _).
  destruct (calls_step_shape w e)
    as [(page & status & prev & aw & -> & Hf)|[(-> & _)|(-> & _)]]; try done.
  constructor; [|done]. rewrite Hf in Hreq.
  apply Forall_app in Hreq as [_ Hlast].
  apply Forall_inv in Hlast. by destruct Hlast.
Qed.

Lemma calls_step_spinner (w : Appointments.World) (e : Appointments.Event) :
  Runs.spinnerNeedsFetch w -> Runs.spinnerNeedsFetch (Appointments.step w e).
Proof.
  intros Hw. unfold Runs.spinnerNeedsFetch in *.
  destruct (calls_step_shape w e)
    as [(page & status & prev & aw & _ & ->)|[(_ & -> & -> & ->)|(_ & ->)]];
    try done.
  intros _ Hnil. by destruct (Appointments.fetches w).
Qed.

(** X7.  Every request either page ever sends asks for pages of its
    [PAGE_SIZE] and carries its optional filter (search term, status) only
    when that is a non-empty string; as long as the responses report a
    page from 1 on, or none, it also asks for a page from 1 on. *)
Theorem requests_are_well_formed
    (es : list Sellers.Event) (es' : list Appointments.Event) :
  Forall Runs.sellersParamsOk (Sellers.sent (Sellers.run Sellers.initialWorld es)) /\
  Forall Runs.callsParamsOk
    (Appointments.sent (Appointments.run Appointments.initialWorld es')) /\
  (Forall Sellers.wellFormed es ->
   Forall (fun p => 1 <= Sellers.param_page p)
     (Sellers.sent (Sellers.run Sellers.initialWorld es))) /\
  (Forall Appointments.wellFormed es' ->
   Forall (fun p => 1 <= Appointments.param_page p)
     (Appointments.sent (Appointments.run Appointments.initialWorld es'))).
Proof.
  split; [|split; [|split]].
  - assert (forall w, Forall Runs.sellersParamsOk (Sellers.sent w) ->
              Forall Runs.sellersParamsOk (Sellers.sent (Sellers.run w es))) as H.
    { induction es as [|e es IH]; intros w Hw; [done|].
      rewrite run_cons. apply IH. by apply sellers_step_params. }
    by apply H.
  - assert (forall w, Forall Runs.callsParamsOk (Appointments.sent w) ->
              Forall Runs.callsParamsOk (Appointments.sent (Appointments.run w es')))
      as H.
    { induction es' as [|e es' IH]; intros w Hw; [done|].
      change (Appointments.run w (e :: es'))
        with (Appointments.run (Appointments.step w e) es').
      apply IH. by apply calls_step_params. }
    by apply H.
  - intros Hes.
    assert (forall w, Sellers.pagesFromOne w ->
              Forall (fun p => 1 <= Sellers.param_page p) (Sellers.sent w) ->
              Forall (fun p => 1 <= Sellers.param_page p)
                (Sellers.sent (Sellers.run w es))) as H.
    { induction es as [|e es IH]; intros w Hp Hw; [done|].
      inversion Hes; subst. rewrite run_cons. apply IH; [done| |].
      - by apply sellers_step_pagesFromOne.
      - by apply sellers_step_pages_sent. }
    apply H; [apply sellers_initial_pagesFromOne | done].
  - intros Hes.
    assert (forall w, Appointments.pagesFromOne w ->
              Forall (fun p => 1 <= Appointments.param_page p) (Appointments.sent w) ->
              Forall (fun p => 1 <= Appointments.param_page p)
                (Appointments.sent (Appointments.run w es'))) as H.
    { induction es' as [|e es' IH]; intros w Hp Hw; [done|].
      inversion Hes; subst.
      change (Appointments.run w (e :: es'))
        with (Appointments.run (Appointments.step w e) es').
      apply IH; [done| |].
      - by apply calls_step_pagesFromOne.
      - by apply calls_step_pages_sent. }
    apply H; [apply calls_initial_pagesFromOne | done].
Qed.

Lemma requests_are_well_formed_witness :
  Forall (fun p => 1 <= Sellers.param_page p)
    (Sellers.sent Samples.sellersOnPage2) /\
  Forall (fun p => 1 <= Appointments.param_page p)
    (Appointments.sent Samples.callsFilteredTwice).
Proof.
  destruct (requests_are_well_formed
              [Sellers.Mount;
               Sellers.FetchSettled 1 (Sellers.Resolved Samples.sellersPage1);
               Sellers.PageChange 2;
               Sellers.FetchSettled 2 (Sellers.Resolved Samples.sellersPage2)]
              [Appointments.Mount;
               Appointments.FetchSettled 0 (Appointments.Resolved Samples.callsAll);
               Appointments.StatusChange "NO_SHOW";
               Appointments.StatusChange "AGENDADA";
               Appointments.FetchSettled 1 (Appointments.Resolved Samples.callsAgendada)])
    as (_ & _ & H1 & H2).
  split.
  - apply H1. repeat constructor; cbn; lia.
  - apply H2. repeat constructor; cbn; lia.
Defined.

(** X8.  Once the appointments page has run its mount effect, its spinner
    is off whenever no fetch is pending: every fetch that was started ends
    the loading state when it settles, whatever its outcome. *)
Theorem appointments_spinner_needs_a_fetch (es : list Appointments.Event) :
  let w := Appointments.run Appointments.initialWorld es in
  Appointments.hasFetchedInitial w = true ->
  Appointments.fetches w = [] ->
  Appointments.isLoading (Appointments.st w) = false.
Proof.
  cbn zeta.
  assert (forall w, Runs.spinnerNeedsFetch w ->
            Runs.spinnerNeedsFetch (Appointments.run w es)) as H.
  { induction es as [|e es IH]; intros w Hw; [done|].
    change (Appointments.run w (e :: es))
      with (Appointments.run (Appointments.step w e) es).
    apply IH. by apply calls_step_spinner. }
  apply H. intros Hf. discriminate Hf.
Qed.

Lemma appointments_spinner_needs_a_fetch_witness :
  Appointments.isLoading
    (Appointments.st
       (Appointments.run Appointments.initialWorld
          [Appointments.Mount; Appointments.StatusChange "NO_SHOW";
           Appointments.FetchSettled 0 Appointments.Rejected;
           Appointments.FetchSettled 0 (Appointments.Resolved Samples.callsNoShow)]))
  = false.
Proof.
  apply (appointments_spinner_needs_a_fetch
           [Appointments.Mount; Appointments.StatusChange "NO_SHOW";
            Appointments.FetchSettled 0 Appointments.Rejected;
            Appointments.FetchSettled 0 (Appointments.Resolved Samples.callsNoShow)]);
    reflexivity.
Defined.

(* ===================================================================== *)
(** ** Further facts: mount, filter change, save and delete               *)
(* ===================================================================== *)

Lemma debounceEffect_mounted (before : Sellers.State) (w : Sellers.World) :
  Sellers.hasFetchedInitial (Sellers.debounceEffect before w)
  = Sellers.hasFetchedInitial w.
Proof.
  unfold Sellers.debounceEffect.
  destruct (Sellers.sameDebounceDeps _ _); [done|].
  by destruct (Sellers.isSearchDirty _).
Qed.

Lemma sellers_step_mounted (w : Sellers.World) (e : Sellers.Event) :
  Sellers.hasFetchedInitial w = true ->
  Sellers.hasFetchedInitial (Sellers.step w e) = true.
Proof.
  intros Hw. unfold Sellers.step. rewrite debounceEffect_mounted.
  destruct e; cbn [Sellers.handle]; try done.
  - unfold Sellers.mountEffect. by rewrite Hw.
  - unfold Sellers.handlePageChange. by destruct (_ || _).
  - unfold Sellers.handlePreviousPage, Sellers.handlePageChange.
    destruct (negb _); [done|]. by destruct (_ || _).
  - unfold Sellers.handleNextPage, Sellers.handlePageChange.
    destruct (negb _); [done|]. by destruct (_ || _).
  - unfold Sellers.handleConfirmDeleteSeller.
    by destruct (Sellers.sellerPendingDeletion _).
  - unfold Sellers.handleCancelDeleteSeller. by destruct (Sellers.isDeleting _).
  - unfold Sellers.tick. cbn. destruct (Sellers.debounceTimer w); [|done].
    by destruct (_ <=? _).
  - unfold Sellers.settleFetch.
    destruct (Sellers.inflight w !! id) as [rq|]; [|done].
    by destruct (Sellers.awaiter rq).
  - unfold Sellers.settleMutation.
    destruct (Sellers.mutations w !! i) as [[cl|cl]|]; [| |done].
    + unfold Sellers.handleSubmit_resume. by destruct ok.
    + unfold Sellers.handleConfirmDeleteSeller_resume. by destruct ok.
Qed.

Lemma calls_step_mounted (w : Appointments.World) (e : Appointments.Event) :
  Appointments.hasFetchedInitial w = true ->
  Appointments.hasFetchedInitial (Appointments.step w e) = true.
Proof.
  intros Hw. destruct e; cbn [Appointments.step]; try done.
  - unfold Appointments.mountEffect. by rewrite Hw.
  - unfold Appointments.handlePageChange. by destruct (_ || _).
  - unfold Appointments.handlePreviousPage, Appointments.handlePageChange.
    destruct (negb _); [done|]. by destruct (_ || _).
  - unfold Appointments.handleNextPage, Appointments.handlePageChange.
    destruct (negb _); [done|]. by destruct (_ || _).
  - unfold Appointments.handleConfirmDeleteAppointment.
    by destruct (Appointments.appointmentPendingDeletion _).
  - unfold Appointments.handleCancelDeleteAppointment.
    by destruct (Appointments.isDeletingAppointment _).
  - unfold Appointments.settleFetch.
    destruct (Appointments.fetches w !! i) as [rq|]; [|done].
    by destruct (Appointments.awaiter rq).
  - unfold Appointments.settleMutation.
    destruct (Appointments.mutations w !! i) as [[cl|cl]|]; [| |done].
    + unfold Appointments.handleSubmit_resume. by destruct ok.
    + unfold Appointments.handleConfirmDeleteAppointment_resume. by destruct ok.
Qed.

(** X9.  The mount effect fetches once.  Its first run asks for page 1
    with no filter; whatever happens afterwards, every later run of the
    effect (it re-runs each time the fetch callback is rebuilt) leaves the
    component untouched. *)
Theorem mount_effect_fetches_once
    (es : list Sellers.Event) (es' : list Appointments.Event) :
  Sellers.sent (Sellers.step Sellers.initialWorld Sellers.Mount)
  = [Sellers.mkParams 1 Sellers.PAGE_SIZE None] /\
  (let w := Sellers.run Sellers.initialWorld (Sellers.Mount :: es) in
   Sellers.step w Sellers.Mount = w) /\
  Appointments.sent (Appointments.step Appointments.initialWorld Appointments.Mount)
  = [Appointments.mkParams Appointments.PAGE_SIZE 1 None] /\
  (let w := Appointments.run Appointments.initialWorld (Appointments.Mount :: es') in
   Appointments.step w Appointments.Mount = w).
Proof.
  split; [reflexivity|]. split; [|split; [reflexivity|]].
  - cbn zeta.
    assert (forall w, Sellers.hasFetchedInitial w = true ->
              Sellers.hasFetchedInitial (Sellers.run w es) = true) as H.
    { induction es as [|e es IH]; intros w Hw; [done|].
      rewrite run_cons. apply IH. by apply sellers_step_mounted. }
    rewrite run_cons.
    specialize (H (Sellers.step Sellers.initialWorld Sellers.Mount) eq_refl).
    set (w := Sellers.run _ es) in *.
    unfold Sellers.step. cbn [Sellers.handle]. unfold Sellers.mountEffect.
    rewrite H. apply debounceEffect_id.
  - cbn zeta.
    assert (forall w, Appointments.hasFetchedInitial w = true ->
              Appointments.hasFetchedInitial (Appointments.run w es') = true) as H.
    { induction es' as [|e es' IH]; intros w Hw; [done|].
      change (Appointments.run w (e :: es'))
        with (Appointments.run (Appointments.step w e) es').
      apply IH. by apply calls_step_mounted. }
    change (Appointments.run Appointments.initialWorld (Appointments.Mount :: es'))
      with (Appointments.run
              (Appointments.step Appointments.initialWorld Appointments.Mount) es').
    specialize (H (Appointments.step Appointments.initialWorld Appointments.Mount)
                  eq_refl).
    set (w := Appointments.run _ es') in *.
    cbn [Appointments.step]. unfold Appointments.mountEffect. by rewrite H.
Qed.

(** X10.  Changing the status filter stores the new status and sends one
    request for page 1 carrying it (or no status for the empty choice),
    even while another fetch is loading.  If that request is rejected, the
    page number goes back to the one shown before, list and total stay,
    the error message shows, and the filter keeps the new status. *)
Theorem status_change_and_its_failure
    (a : Appointments.World) (status : string) :
  let a1 := Appointments.step a (Appointments.StatusChange status) in
  let a2 := Appointments.step a1
              (Appointments.FetchSettled (length (Appointments.fetches a))
                 Appointments.Rejected) in
  (Appointments.sent a1
   = Appointments.mkParams Appointments.PAGE_SIZE 1 (Appointments.statusParam status)
     :: Appointments.sent a /\
   Appointments.selectedStatus (Appointments.st a1) = status /\
   Appointments.currentPage (Appointments.st a1) = 1 /\
   Appointments.isLoading (Appointments.st a1) = true /\
   Appointments.error (Appointments.st a1) = None) /\
  (Appointments.selectedStatus (Appointments.st a2) = status /\
   Appointments.currentPage (Appointments.st a2)
   = Appointments.currentPage (Appointments.st a) /\
   Appointments.appointments (Appointments.st a2)
   = Appointments.appointments (Appointments.st a) /\
   Appointments.total (Appointments.st a2) = Appointments.total (Appointments.st a) /\
   Appointments.error (Appointments.st a2) = Some Appointments.fetchErrorMessage /\
   Appointments.isLoading (Appointments.st a2) = false).
Proof.
  cbn zeta. cbn [Appointments.step]. unfold Appointments.handleStatusChange.
  split.
  - unfold Appointments.fetchAppointments. cbn -[Z.eqb].
    by destruct (Z.eqb_spec 1 (Appointments.currentPage (Appointments.st a))).
  - unfold Appointments.settleFetch.
    set (a1 := Appointments.fetchAppointments _ _ _ _).
    assert (Appointments.fetches a1 !! length (Appointments.fetches a)
            = Some (Appointments.mkRequest 1 status
                      (Appointments.currentPage (Appointments.st a))
                      Appointments.NotAwaited)) as ->
      by apply lookup_app_length.
    subst a1. unfold Appointments.fetchAppointments. cbn -[Z.eqb].
    by destruct (1 =? Appointments.currentPage (Appointments.st a)).
Qed.








(* --------------------------------------------------------------------- *)
(** *** A search from the first page, from the keystrokes to the answer   *)
(* --------------------------------------------------------------------- *)

Lemma debounce_fires_on_first_page (w : Sellers.World) :
  Sellers.debounceTimer w
  = Some (Sellers.mkTimer (Sellers.now w + Sellers.DEBOUNCE_DELAY) (Sellers.st w)) ->
  Sellers.currentPage (Sellers.st w) = 1 ->
  Sellers.run w (Sellers.ticks 300)
  = Sellers.debounceCallback (Sellers.st w)
      (Sellers.setDebounceTimer None (Sellers.later 300 w)).
Proof.
  intros Ht Hp.
  rewrite (ticks_S 299), (ticks_idle 299)
    by (rewrite Ht; cbn; unfold Sellers.DEBOUNCE_DELAY; lia).
  rewrite (step_tick_fire _ (Sellers.mkTimer (Sellers.now w + Sellers.DEBOUNCE_DELAY)
                               (Sellers.st w)))
    by (cbn; first [exact Ht | unfold Sellers.DEBOUNCE_DELAY; lia]).
  rewrite later_later. change (Z.of_nat 299 + 1) with 300.
  cbn [Sellers.timer_closure Sellers.later Sellers.st].
  apply debounceEffect_same_deps;
    unfold Sellers.debounceCallback, Sellers.fetchSellers; cbn -[Z.eqb];
    rewrite Hp; done.
Qed.

(** X13.  A search typed while page 1 is shown, followed to its end: after
    a burst of changes of the search box and at least 300 units of quiet,
    the answer to the one request that went out puts the returned list,
    total and page on screen, makes the typed text the fetched term (the
    box is no longer dirty), lowers the loading flag and leaves no timer
    armed, so that nothing more is sent however long the page stays
    idle. *)
Theorem search_from_first_page_settles
    (w : Sellers.World) (burst : list (nat * string)) (n : nat)
    (r : Sellers.SellersResponse) :
  burst <> [] ->
  Sellers.debounceTimer w = None ->
  Sellers.withinWindow (Sellers.search (Sellers.st w)) burst ->
  Sellers.lastTyped (Sellers.search (Sellers.st w)) burst
  <> Sellers.lastFetchedSearch (Sellers.st w) ->
  Sellers.currentPage (Sellers.st w) = 1 ->
  let value := Sellers.lastTyped (Sellers.search (Sellers.st w)) burst in
  let w' := Sellers.run w
              (Sellers.typing burst ++ Sellers.ticks (300 + n)
               ++ [Sellers.FetchSettled (Sellers.latestRequestRef w + 1)
                     (Sellers.Resolved r)]) in
  Sellers.sent w'
  = Sellers.mkParams 1 Sellers.PAGE_SIZE (Sellers.orUndefined value)
    :: Sellers.sent w /\
  Sellers.sellers (Sellers.st w') = Sellers.resp_data r /\
  Sellers.total (Sellers.st w') = Sellers.resp_total r /\
  Sellers.currentPage (Sellers.st w') = default 1 (Sellers.resp_page r) /\
  Sellers.search (Sellers.st w') = value /\
  Sellers.lastFetchedSearch (Sellers.st w') = value /\
  Sellers.isSearchDirty (Sellers.st w') = false /\
  Sellers.isLoading (Sellers.st w') = false /\
  Sellers.debounceTimer w' = None /\
  forall m, Sellers.sent (Sellers.run w' (Sellers.ticks m)) = Sellers.sent w'.
Proof.
  intros Hne Ht Hok Hdirty Hpage. cbn zeta.
  destruct (typing_burst burst w Hne) as (G1 & _ & G3 & G4 & G5 & G6 & _ & G8);
    [by rewrite Ht | exact Hok |].
  cbn zeta in *.
  rewrite !run_app, ticks_add, run_app.
  set (w1 := Sellers.run w (Sellers.typing burst)) in *.
  set (value := Sellers.lastTyped _ _) in *.
  destruct (String.eqb_spec value (Sellers.lastFetchedSearch (Sellers.st w)))
    as [|_]; [done|].
  rewrite (debounce_fires_on_first_page w1 G8) by congruence.
  rewrite ticks_idle by done.
  set (w3 := Sellers.later _ _).
  set (rq := Sellers.mkRequest 1 value 1 Sellers.NotAwaited).
  assert (Sellers.latestRequestRef w3 = Sellers.latestRequestRef w + 1) as Hl
    by (cbn; by rewrite G6).
  assert (Sellers.inflight w3 !! (Sellers.latestRequestRef w + 1) = Some rq) as Hrq.
  { cbn. rewrite G6, G1, G4, Hpage. apply lookup_insert_eq. }
  assert (Sellers.search (Sellers.st w3) = value) as Hs
    by (cbn -[Z.eqb]; rewrite <- G1; by destruct (_ =? _)).
  assert (Sellers.debounceTimer w3 = None) as Ht3 by done.
  assert (Sellers.sent w3
          = Sellers.mkParams 1 Sellers.PAGE_SIZE (Sellers.orUndefined value)
            :: Sellers.sent w) as Hsent by (cbn; by rewrite G1, G5).
  clearbody w3. clear G8.
  cbn [Sellers.run fold_left]. unfold Sellers.step.
  set (wh := Sellers.handle _ w3).
  assert (Sellers.st wh
          = Sellers.setIsLoading false
              (Sellers.setLastFetchedSearch value
                 (Sellers.setCurrentPage (default 1 (Sellers.resp_page r))
                    (Sellers.setTotal (Sellers.resp_total r)
                       (Sellers.setSellers (Sellers.resp_data r)
                          (Sellers.st w3)))))) as Hst.
  { subst wh. cbn [Sellers.handle]. unfold Sellers.settleFetch. rewrite Hrq.
    unfold Sellers.fetchSellers_resume. cbn [Sellers.latestRequestRef].
    by rewrite Hl, Z.eqb_refl. }
  assert (Sellers.isSearchDirty (Sellers.st wh) = false) as Hclean.
  { rewrite Hst. unfold Sellers.isSearchDirty. cbn. by rewrite Hs, String.eqb_refl. }
  assert (Sellers.debounceTimer wh = None) as Hth.
  { subst wh. cbn [Sellers.handle]. unfold Sellers.settleFetch. by rewrite Hrq. }
  assert (Sellers.sent wh = Sellers.sent w3) as Hsenth.
  { subst wh. cbn [Sellers.handle]. unfold Sellers.settleFetch. by rewrite Hrq. }
  clearbody wh.
  set (w' := Sellers.debounceEffect _ wh).
  assert (Sellers.debounceTimer w' = None) as Ht'.
  { subst w'. unfold Sellers.debounceEffect.
    destruct (Sellers.sameDebounceDeps _ _); [done|]. by rewrite Hclean. }
  assert (Sellers.st w' = Sellers.st wh) as Hst' by apply debounceEffect_st.
  assert (Sellers.sent w' = Sellers.sent w3) as Hsent'
    by (subst w'; by rewrite debounceEffect_sent).
  clearbody w'. rewrite Hst' in *.
  rewrite Hclean, Hst, Hsent', Hsent, Ht'. cbn.
  repeat split; try done.
  intros m. rewrite ticks_idle by by rewrite Ht'.
  by rewrite later_sent, Hsent', Hsent.
Qed.

Lemma search_from_first_page_settles_witness :
  let w' := Sellers.run Samples.sellersLoaded
              (Sellers.typing [(0%nat, "a"); (120%nat, "an")]
               ++ Sellers.ticks (300 + 5)
               ++ [Sellers.FetchSettled 2 (Sellers.Resolved Samples.sellersPage1)]) in
  Sellers.sent w'
  = [Sellers.mkParams 1 50 (Some "an"); Sellers.mkParams 1 50 None] /\
  Sellers.lastFetchedSearch (Sellers.st w') = "an" /\
  Sellers.debounceTimer w' = None.
Proof.
  destruct (search_from_first_page_settles Samples.sellersLoaded
              [(0%nat, "a"); (120%nat, "an")] 5 Samples.sellersPage1)
    as (H1 & _ & _ & _ & _ & H2 & _ & _ & H3 & _).
  - discriminate.
  - reflexivity.
  - cbn. unfold Sellers.DEBOUNCE_DELAY.
    split; [lia|]. split; [discriminate|]. split; [lia|]. split; [discriminate|done].
  - discriminate.
  - reflexivity.
  - cbn zeta. split; [exact H1|]. split; [exact H2|exact H3].
Defined.

(* ===================================================================== *)
(** ** The availability column of the sellers table                       *)
(* ===================================================================== *)

Lemma shortLabels_fold (options : list Availability.WeekDayOption)
    (acc : gmap Availability.WeekDay string) (d : Availability.WeekDay) :
  fold_left Availability.shortLabelReducer options acc !! d
  = match last (filter (fun o => Availability.value o = d) options) with
    | Some o => Some (Availability.short o)
    | None => acc !! d
    end.
Proof.
  revert acc. induction options as [|o options IH]; intros acc; [done|].
  cbn [fold_left]. rewrite IH, filter_cons.
  destruct (decide (Availability.value o = d)) as [Heq|Hne].
  - rewrite last_cons. destruct (last (filter _ options)); [done|].
    unfold Availability.shortLabelReducer. rewrite Heq. apply lookup_insert_eq.
  - destruct (last (filter _ options)); [done|].
    unfold Availability.shortLabelReducer. by apply lookup_insert_ne.
Qed.

(** X14.  The table of short day names built by the [reduce] over the
    option list gives, for a day, the short name of the last option listed
    for that day, and nothing for a day that no option lists.  For the
    seven options of the page that is a name, and not the empty one, for
    every day of the week. *)
Theorem short_labels_last_entry_wins
    (options : list Availability.WeekDayOption) (d : Availability.WeekDay) :
  Availability.shortLabelsOf options !! d
  = Availability.short
    <$> last (filter (fun o => Availability.value o = d) options) /\
  exists name, Availability.weekDayShortLabel !! d = Some name /\
               Availability.truthy (Some name) = true.
Proof.
  split.
  - unfold Availability.shortLabelsOf. rewrite shortLabels_fold.
    by destruct (last _).
  - destruct d; eexists; (split; [by vm_compute | reflexivity]).
Qed.

(** X15.  [formatDayRange] gives no text exactly when neither day is set.
    A single day, given as start, as end or as both, is printed once by
    its short name; two different days are printed as the two short names
    joined by [" a "]. *)
Theorem day_range_text (start end_ : option Availability.WeekDay) :
  (Availability.formatDayRange start end_ = None <->
   start = None /\ end_ = None) /\
  (forall d,
     Availability.formatDayRange (Some d) None = Availability.weekDayShortLabel !! d /\
     Availability.formatDayRange None (Some d) = Availability.weekDayShortLabel !! d /\
     Availability.formatDayRange (Some d) (Some d)
     = Availability.weekDayShortLabel !! d) /\
  (forall d e, d <> e ->
     exists first_ last_,
       Availability.weekDayShortLabel !! d = Some first_ /\
       Availability.weekDayShortLabel !! e = Some last_ /\
       Availability.formatDayRange (Some d) (Some e)
       = Some (first_ +:+ " a " +:+ last_)).
Proof.
  split; [|split].
  - split.
    + destruct start as [[]|], end_ as [[]|]; by vm_compute.
    + by intros [-> ->].
  - intros []; by vm_compute.
  - intros [] [] Hne; try done; eexists _, _;
      (split; [by vm_compute|]; split; [by vm_compute|]; by vm_compute).
Qed.

(** X16.  The availability cell shows the placeholder ["--"] exactly when
    the seller has no start day, no end day and no non-empty start or end
    time; in particular the cell is never empty. *)
Theorem availability_placeholder_iff_unset (seller : Availability.Window) :
  (Availability.formatAvailabilityWindow seller = "--" <->
   Availability.availabilityStartDay seller = None /\
   Availability.availabilityEndDay seller = None /\
   Availability.truthy (Availability.availabilityStartTime seller) = false /\
   Availability.truthy (Availability.availabilityEndTime seller) = false) /\
  Availability.formatAvailabilityWindow seller <> "".
Proof.
  destruct seller as [d1 d2 t1 t2]. cbn [Availability.availabilityStartDay
    Availability.availabilityEndDay Availability.availabilityStartTime
    Availability.availabilityEndTime].
  destruct t1 as [[|c1 t1]|], t2 as [[|c2 t2]|];
    destruct d1 as [[]|], d2 as [[]|];
    (split; [split; [intros H; vm_compute in H; try discriminate H; by repeat split
                    | intros (H1 & H2 & H3 & H4);
                      first [discriminate H1 | discriminate H2
                            | discriminate H3 | discriminate H4 | by vm_compute]]
            | by vm_compute]).
Qed.

(* ===================================================================== *)
(** ** The label of a status badge                                        *)
(* ===================================================================== *)

(** X17.  The label of a status badge has the length of the status and no
    underscore in it; a status without underscores is shown as it is, so
    replacing twice is replacing once. *)
Theorem badge_label_has_no_underscore (value : string) :
  Runs.noUnderscore (StatusBadge.replaceUnderscores value) /\
  String.length (StatusBadge.replaceUnderscores value) = String.length value /\
  (Runs.noUnderscore value -> StatusBadge.replaceUnderscores value = value) /\
  StatusBadge.replaceUnderscores (StatusBadge.replaceUnderscores value)
  = StatusBadge.replaceUnderscores value.
Proof.
  assert (forall text, Runs.noUnderscore text ->
                       StatusBadge.replaceUnderscores text = text) as Hfix.
  { unfold Runs.noUnderscore. induction text as [|c text IH]; intros Hno; [done|].
    cbn in *. destruct (Ascii.eqb_spec c "_") as [->|_].
    - exfalso. apply Hno. by left.
    - f_equal. apply IH. intros Hin. apply Hno. by right. }
  assert (Runs.noUnderscore (StatusBadge.replaceUnderscores value)) as Hno.
  { unfold Runs.noUnderscore. induction value as [|c value IH]; [by intros []|].
    cbn. intros [Heq|Hin]; [|by apply IH].
    destruct (Ascii.eqb_spec c "_") as [->|Hne]; [discriminate Heq|].
    by symmetry in Heq. }
  split; [exact Hno|]. split; [|split; [apply Hfix | by apply Hfix]].
  clear. induction value as [|c value IH]; [done|]. cbn. by rewrite IH.
Qed.

Lemma badge_label_has_no_underscore_witness :
  StatusBadge.replaceUnderscores "agendou_call" = "agendou call" /\
  StatusBadge.replaceUnderscores "agendou call" = "agendou call".
Proof.
  split; [reflexivity|].
  destruct (badge_label_has_no_underscore "agendou call") as (_ & _ & H & _).
  apply H. unfold Runs.noUnderscore. cbn.
  intros H'. repeat (destruct H' as [H'|H']; [discriminate H'|]). exact H'.
Defined.

(* ===================================================================== *)
(** ** The session kept by [AuthProvider]                                 *)
(* ===================================================================== *)

Lemma auth_step_storage (w : Auth.World) (e : Auth.Event) :
  Auth.authState (Auth.st w) = Auth.storage w ->
  Auth.authState (Auth.st (Auth.step w e))
  = Auth.storage (Auth.step w e).
Proof.
  intros H. destruct e as [| | i o |]; cbn.
  - unfold Auth.getStoredAuth. by destruct (Auth.storage w).
  - exact H.
  - destruct (Auth.logins w !! i); [|exact H]. by destruct o.
  - reflexivity.
Qed.

Lemma auth_step_loaded (w : Auth.World) (e : Auth.Event) :
  Auth.loading (Auth.st w) = false ->
  Auth.loading (Auth.st (Auth.step w e)) = false.
Proof.
  intros H. destruct e as [| | i o |]; cbn; try done.
  destruct (Auth.logins w !! i); [|exact H]. by destruct o.
Qed.

Lemma auth_step_route (w : Auth.World) (e : Auth.Event) :
  Auth.authState (Auth.st w) = Auth.storage w ->
  Runs.routeMatchesSession w ->
  Runs.routeMatchesSession (Auth.step w e).
Proof.
  intros Hs H. unfold Runs.routeMatchesSession in *.
  destruct e as [| | i o |]; cbn.
  - unfold Auth.getStoredAuth. rewrite <- Hs. clear Hs.
    destruct w as [[[a|] l] sto pu lo rj]; exact H.
  - exact H.
  - destruct (Auth.logins w !! i); [|exact H].
    destruct o; cbn; [|exact H]. left. split; [done|]. by eexists.
  - by right.
Qed.

Lemma auth_run_invariant (es : list Auth.Event) (w : Auth.World) :
  Runs.sessionMirrorsStorage w -> Runs.routeMatchesSession w ->
  Runs.sessionMirrorsStorage (Auth.run w es) /\
  Runs.routeMatchesSession (Auth.run w es).
Proof.
  revert w. induction es as [|e es IH]; intros w [H1 H2] H3; [done|].
  change (Auth.run w (e :: es)) with (Auth.run (Auth.step w e) es).
  apply IH.
  - split; [by apply auth_step_storage | by apply auth_step_loaded].
  - by apply auth_step_route.
Qed.

Lemma auth_mounted (stored : option Auth.StoredAuth) (es : list Auth.Event) :
  let w := Auth.run (Auth.initialWorld stored) (Auth.Mount :: es) in
  Runs.sessionMirrorsStorage w /\ Runs.routeMatchesSession w.
Proof.
  cbn zeta.
  change (Auth.run (Auth.initialWorld stored) (Auth.Mount :: es))
    with (Auth.run (Auth.step (Auth.initialWorld stored) Auth.Mount) es).
  apply auth_run_invariant; [|done].
  split; [|done]. cbn. unfold Auth.getStoredAuth. by destruct stored.
Qed.

(** X18.  Once the provider has mounted, whatever sequence of logins,
    answers and logouts follows: the session it shows is the stored one,
    it no longer reports loading, and the last route it pushed is the
    dashboard only with a session and the login page only with none. *)
Theorem session_mirrors_storage
    (stored : option Auth.StoredAuth) (es : list Auth.Event) :
  let w := Auth.run (Auth.initialWorld stored) (Auth.Mount :: es) in
  Auth.contextValue (Auth.st w)
  = Auth.mkValue (Auth.user <$> Auth.storage w) (Auth.token <$> Auth.storage w)
      false /\
  Runs.routeMatchesSession w.
Proof.
  destruct (auth_mounted stored es) as [[H1 H2] H3]. cbn zeta in *.
  split; [|exact H3]. unfold Auth.contextValue. by rewrite H1, H2.
Qed.

(** X19.  The session survives a reload of the page: a fresh provider
    over the same storage shows, once mounted, the user and token that
    were shown before.  After an accepted login these are the user and
    token of the answer; after a logout there are none. *)
Theorem reload_restores_session
    (stored : option Auth.StoredAuth) (es : list Auth.Event)
    (i : nat) (data : Auth.LoginData) :
  let w := Auth.run (Auth.initialWorld stored) (Auth.Mount :: es) in
  let again (v : Auth.World) := Auth.step (Auth.reload v) Auth.Mount in
  Auth.contextValue (Auth.st (again w)) = Auth.contextValue (Auth.st w) /\
  (is_Some (Auth.logins w !! i) ->
   Auth.contextValue
     (Auth.st (again (Auth.step w (Auth.LoginSettled i (Auth.Resolved data)))))
   = Auth.mkValue (Some (Auth.loggedUser data)) (Some (Auth.accessToken data))
       false) /\
  Auth.contextValue (Auth.st (again (Auth.step w Auth.Logout)))
  = Auth.mkValue None None false.
Proof.
  destruct (auth_mounted stored es) as [[H1 H2] _]. cbn zeta in *.
  set (w := Auth.run _ _) in *. clearbody w.
  split; [|split].
  - unfold Auth.contextValue. rewrite H1, H2. cbn. unfold Auth.getStoredAuth.
    by destruct (Auth.storage w).
  - intros [c Hc]. cbn. by rewrite Hc.
  - reflexivity.
Qed.

Lemma reload_restores_session_witness :
  let w := Auth.run (Auth.initialWorld None)
             [Auth.Mount; Auth.Login "ana@example.com" "secret"] in
  Auth.contextValue
    (Auth.st
       (Auth.step
          (Auth.reload
             (Auth.step w
                (Auth.LoginSettled 0
                   (Auth.Resolved
                      (Auth.mkLoginData "t1" (Auth.mkUser "u1" "ana@example.com"))))))
          Auth.Mount))
  = Auth.mkValue (Some (Auth.mkUser "u1" "ana@example.com")) (Some "t1") false.
Proof.
  destruct (reload_restores_session None [Auth.Login "ana@example.com" "secret"]
              0 (Auth.mkLoginData "t1" (Auth.mkUser "u1" "ana@example.com")))
    as (_ & H & _).
  exact (H (mk_is_Some _ _ eq_refl)).
Defined.

(* ===================================================================== *)
(** ** The request token of the sellers page                              *)
(* ===================================================================== *)

(** X20.  On the sellers page the answer to a superseded request, good or
    bad, changes nothing on screen and sends nothing (only the delete
    handler that awaited it lowers its flag).  Hence from the moment a
    fetch is issued, whatever answers arrive before and after its own, its
    answer decides list, total and page, for as long as no newer fetch is
    issued. *)
Theorem sellers_stale_answers_are_dropped
    (w : Sellers.World) (id : Z) (rq : Sellers.Request) (o : Sellers.Outcome)
    (options : option Sellers.FetchOptions) (aw : Sellers.Awaiter)
    (before after : list Sellers.Event) (r : Sellers.SellersResponse) :
  (Sellers.inflight w !! id = Some rq ->
   id <> Sellers.latestRequestRef w ->
   let w' := Sellers.step w (Sellers.FetchSettled id o) in
   Sellers.st w'
   = match Sellers.awaiter rq with
     | Sellers.AwaitedByDelete => Sellers.setIsDeleting false (Sellers.st w)
     | _ => Sellers.st w
     end /\
   Sellers.sent w' = Sellers.sent w /\
   Sellers.latestRequestRef w' = Sellers.latestRequestRef w) /\
  (let w1 := Sellers.step w Sellers.Refresh in
   let L := Sellers.latestRequestRef w1 in
   let w2 := Sellers.run w1 before in
   let w3 := Sellers.run w2 (Sellers.FetchSettled L (Sellers.Resolved r) :: after) in
   is_Some (Sellers.inflight w2 !! L) ->
   Sellers.latestRequestRef w3 = L ->
   Sellers.sellers (Sellers.st w3) = Sellers.resp_data r /\
   Sellers.total (Sellers.st w3) = Sellers.resp_total r /\
   Sellers.currentPage (Sellers.st w3) = default 1 (Sellers.resp_page r)).
Proof.
  split.
  - intros Hrq Hne. cbn zeta. unfold Sellers.step.
    rewrite debounceEffect_st, debounceEffect_sent, debounceEffect_latest.
    cbn [Sellers.handle]. unfold Sellers.settleFetch. rewrite Hrq.
    rewrite fetchSellers_resume_stale by exact Hne.
    by destruct (Sellers.awaiter rq).
  - exact (sellers_overlapping_fetches w
             (Some (Sellers.mkOptions (Some 1)
                      (Some (Sellers.appliedOrPendingSearch (Sellers.st w)))))
             Sellers.NotAwaited before after r).
Qed.
Lemma sellers_stale_answers_are_dropped_witness :
  let w := Samples.sellersTwoInFlight in
  let w1 := Sellers.step w Sellers.Refresh in
  let w3 := Sellers.run
              (Sellers.run w1 [Sellers.FetchSettled 3 Sellers.Rejected])
              [Sellers.FetchSettled (Sellers.latestRequestRef w1)
                 (Sellers.Resolved Samples.sellersPage1);
               Sellers.FetchSettled 2 (Sellers.Resolved Samples.sellersPage2)] in
  Sellers.latestRequestRef w = 3 /\
  Sellers.st
    (Sellers.step w (Sellers.FetchSettled 2 (Sellers.Resolved Samples.sellersPage2)))
  = Sellers.st w /\
  Sellers.latestRequestRef w1 = 4 /\
  Sellers.sellers (Sellers.st w3) = Sellers.resp_data Samples.sellersPage1.
Proof.
  cbn zeta.
  pose proof (sellers_stale_answers_are_dropped Samples.sellersTwoInFlight 2
              (Sellers.mkRequest 2 "" 1 Sellers.NotAwaited)
              (Sellers.Resolved Samples.sellersPage2) None Sellers.NotAwaited
              [Sellers.FetchSettled 3 Sellers.Rejected]
              [Sellers.FetchSettled 2 (Sellers.Resolved Samples.sellersPage2)]
              Samples.sellersPage1) as [H1 H2].
  split; [vm_compute; reflexivity|]. split; [|split; [vm_compute; reflexivity|]].
  - assert (Sellers.inflight Samples.sellersTwoInFlight !! 2
            = Some (Sellers.mkRequest 2 "" 1 Sellers.NotAwaited)) as E1
      by (vm_compute; reflexivity).
    assert (2 <> Sellers.latestRequestRef Samples.sellersTwoInFlight) as E2
      by (vm_compute; discriminate).
    destruct (H1 E1 E2) as (H & _). exact H.
  - apply H2.
    + eexists. vm_compute. reflexivity.
    + vm_compute. reflexivity.
Defined.

(* ===================================================================== *)
(** ** Enter in the search box while the debounce timer runs              *)
(* ===================================================================== *)

Lemma enter_on_first_page (w : Sellers.World) :
  Sellers.currentPage (Sellers.st w) = 1 ->
  Sellers.step w Sellers.SearchEnter
  = Sellers.fetchSellers (Sellers.st w)
      (Some (Sellers.mkOptions (Some 1) (Some (Sellers.search (Sellers.st w)))))
      Sellers.NotAwaited w.
Proof.
  intros Hp. unfold Sellers.step. cbn [Sellers.handle].
  apply debounceEffect_same_deps;
    unfold Sellers.handleSearchEnter, Sellers.fetchSellers; cbn -[Z.eqb];
    rewrite Hp; done.
Qed.

(** X21.  Pressing Enter in the search box on page 1 while the debounce
    timer runs sends the search at once and leaves the timer running;
    nothing more is sent before the timer is due.  If the request is
    answered with a list before the timer is due, the timer is cleared and
    nothing more is sent.  If it is rejected before the timer is due, or
    not answered by then, the timer sends the same request a second time
    when it is due. *)
Theorem enter_leaves_the_timer_running
    (w : Sellers.World) (t : Sellers.Timer) (k j : nat)
    (r : Sellers.SellersResponse) :
  Runs.timerFresh w ->
  Sellers.debounceTimer w = Some t ->
  Sellers.currentPage (Sellers.st w) = 1 ->
  Sellers.now w + Z.of_nat (S k) = Sellers.deadline t ->
  (j <= k)%nat ->
  let request :=
    Sellers.mkParams 1 Sellers.PAGE_SIZE
      (Sellers.orUndefined (Sellers.search (Sellers.st w))) in
  let w1 := Sellers.step w Sellers.SearchEnter in
  let answered (o : Sellers.Outcome) :=
    Sellers.step (Sellers.run w1 (Sellers.ticks j))
      (Sellers.FetchSettled (Sellers.latestRequestRef w + 1) o) in
  (Sellers.sent w1 = request :: Sellers.sent w /\
   Sellers.debounceTimer w1 = Some t /\
   Sellers.sent (Sellers.run w1 (Sellers.ticks k)) = request :: Sellers.sent w /\
   Sellers.sent (Sellers.run w1 (Sellers.ticks (S k)))
   = request :: request :: Sellers.sent w) /\
  (Sellers.debounceTimer (answered (Sellers.Resolved r)) = None /\
   forall m, Sellers.sent (Sellers.run (answered (Sellers.Resolved r))
                             (Sellers.ticks m))
             = request :: Sellers.sent w) /\
  (Sellers.debounceTimer (answered Sellers.Rejected) = Some t /\
   Sellers.error (Sellers.st (answered Sellers.Rejected))
   = Some Sellers.fetchErrorMessage /\
   Sellers.sent (Sellers.run (answered Sellers.Rejected) (Sellers.ticks (k - j)))
   = request :: Sellers.sent w /\
   Sellers.sent (Sellers.run (answered Sellers.Rejected)
                   (Sellers.ticks (S (k - j))))
   = request :: request :: Sellers.sent w).
Proof.
  intros Hfresh Ht Hp Hdue Hj. cbn zeta.
  unfold Runs.timerFresh in Hfresh. rewrite Ht in Hfresh.
  destruct Hfresh as (Hdirty & Hs & _ & _ & _).
  rewrite (enter_on_first_page w Hp).
  set (w1 := Sellers.fetchSellers _ _ _ w).
  assert (Sellers.sent w1
          = Sellers.mkParams 1 Sellers.PAGE_SIZE
              (Sellers.orUndefined (Sellers.search (Sellers.st w)))
            :: Sellers.sent w) as Hsent by done.
  assert (Sellers.debounceTimer w1 = Some t) as Ht1 by exact Ht.
  assert (Sellers.now w1 = Sellers.now w) as Hnow by done.
  assert (forall (v : Sellers.World) (d : nat),
            Sellers.debounceTimer v = Some t ->
            Sellers.now v + Z.of_nat (S d) = Sellers.deadline t ->
            Sellers.sent (Sellers.run v (Sellers.ticks d)) = Sellers.sent v /\
            Sellers.sent (Sellers.run v (Sellers.ticks (S d)))
            = Sellers.mkParams 1 Sellers.PAGE_SIZE
                (Sellers.orUndefined (Sellers.search (Sellers.st w)))
              :: Sellers.sent v) as Hfire.
  { intros v d Hv Hd. rewrite ticks_S, ticks_idle by (rewrite Hv; lia).
    split; [apply later_sent|].
    rewrite (step_tick_fire _ t) by (cbn; first [exact Hv | lia]).
    rewrite debounceEffect_sent. unfold Sellers.debounceCallback.
    cbn. by rewrite Hs. }
  split; [|split].
  - destruct (Hfire w1 k Ht1) as [F1 F2]; [lia|].
    split; [exact Hsent|]. split; [exact Ht1|].
    by rewrite F1, F2, Hsent.
  - rewrite ticks_idle by (rewrite Ht1, Hnow; lia).
    set (v := Sellers.later (Z.of_nat j) w1).
    set (w2 := Sellers.step v _).
    assert (Sellers.debounceTimer w2 = None) as Ht2.
    { subst w2. unfold Sellers.step, Sellers.debounceEffect.
      set (wh := Sellers.handle _ v).
      assert (Sellers.lastFetchedSearch (Sellers.st wh)
              = Sellers.search (Sellers.st w) /\
              Sellers.search (Sellers.st wh) = Sellers.search (Sellers.st w))
        as [Hl Hb].
      { subst wh. cbn [Sellers.handle]. unfold Sellers.settleFetch.
        assert (Sellers.inflight v !! (Sellers.latestRequestRef w + 1)
                = Some (Sellers.mkRequest 1 (Sellers.search (Sellers.st w))
                          (Sellers.currentPage (Sellers.st w)) Sellers.NotAwaited))
          as -> by apply lookup_insert_eq.
        unfold Sellers.fetchSellers_resume. cbn -[Z.eqb].
        rewrite !Z.eqb_refl. cbn -[Z.eqb]. by destruct (1 =? _). }
      destruct (Sellers.sameDebounceDeps _ _) eqn:Hdeps.
      - apply sameDebounceDeps_true in Hdeps. destruct Hdeps as (_ & Hd & _).
        exfalso. revert Hdirty. unfold Sellers.isSearchDirty.
        replace (Sellers.lastFetchedSearch (Sellers.st w))
          with (Sellers.search (Sellers.st w)).
        + by rewrite String.eqb_refl.
        + rewrite <- Hl, <- Hd. subst v w1. unfold Sellers.fetchSellers.
          cbn -[Z.eqb]. by destruct (1 =? _).
      - unfold Sellers.isSearchDirty. by rewrite Hl, Hb, String.eqb_refl. }
    split; [exact Ht2|].
    intros m. rewrite ticks_idle by by rewrite Ht2.
    rewrite later_sent. subst w2. unfold Sellers.step.
    rewrite debounceEffect_sent.
    cbn [Sellers.handle]. unfold Sellers.settleFetch.
    destruct (Sellers.inflight v !! _) as [rq|]; [|done].
    unfold Sellers.fetchSellers_resume. by destruct (Sellers.awaiter rq).
  - rewrite ticks_idle by (rewrite Ht1, Hnow; lia).
    set (v := Sellers.later (Z.of_nat j) w1).
    set (w2 := Sellers.step v _).
    assert (Sellers.inflight v !! (Sellers.latestRequestRef w + 1)
            = Some (Sellers.mkRequest 1 (Sellers.search (Sellers.st w))
                      (Sellers.currentPage (Sellers.st w)) Sellers.NotAwaited))
      as Hrq by apply lookup_insert_eq.
    assert (w2 = Sellers.settleFetch (Sellers.latestRequestRef w + 1)
                   Sellers.Rejected v) as Hw2.
    { subst w2. unfold Sellers.step. cbn [Sellers.handle].
      apply debounceEffect_same_deps;
        unfold Sellers.settleFetch; rewrite Hrq;
        unfold Sellers.fetchSellers_resume; cbn -[Z.eqb];
        rewrite !Z.eqb_refl; cbn -[Z.eqb]; rewrite Hp; done. }
    assert (Sellers.debounceTimer w2 = Some t /\
            Sellers.now w2 = Sellers.now w + Z.of_nat j /\
            Sellers.sent w2 = Sellers.sent w1 /\
            Sellers.error (Sellers.st w2) = Some Sellers.fetchErrorMessage)
      as (Ht2 & Hnow2 & Hsent2 & Herr).
    { rewrite Hw2. unfold Sellers.settleFetch. rewrite Hrq.
      unfold Sellers.fetchSellers_resume. cbn -[Z.eqb].
      rewrite !Z.eqb_refl. cbn -[Z.eqb]. rewrite Hp. by cbn. }
    clearbody w2.
    destruct (Hfire w2 (k - j)%nat Ht2) as [F1 F2]; [lia|].
    split; [exact Ht2|]. split; [exact Herr|].
    by rewrite F1, F2, Hsent2, Hsent.
Qed.

Lemma enter_leaves_the_timer_running_witness :
  let w := Samples.sellersTypedOnPage1 in
  let w1 := Sellers.step w Sellers.SearchEnter in
  let rejected :=
    Sellers.step (Sellers.run w1 (Sellers.ticks 100))
      (Sellers.FetchSettled (Sellers.latestRequestRef w + 1) Sellers.Rejected) in
  Sellers.sent w1 = Sellers.mkParams 1 50 (Some "a") :: Sellers.sent w /\
  Sellers.sent (Sellers.run w1 (Sellers.ticks 300))
  = Sellers.mkParams 1 50 (Some "a") :: Sellers.mkParams 1 50 (Some "a")
    :: Sellers.sent w /\
  Sellers.sent (Sellers.run rejected (Sellers.ticks (S (299 - 100))))
  = Sellers.mkParams 1 50 (Some "a") :: Sellers.mkParams 1 50 (Some "a")
    :: Sellers.sent w.
Proof.
  destruct (enter_leaves_the_timer_running Samples.sellersTypedOnPage1
              (Sellers.mkTimer 300 (Sellers.st Samples.sellersTypedOnPage1))
              299 100 Samples.sellersPage1)
    as ((H1 & _ & _ & H2) & _ & (_ & _ & _ & H3)).
  - vm_compute. repeat split; congruence.
  - reflexivity.
  - reflexivity.
  - reflexivity.
  - lia.
  - cbn zeta. split; [exact H1|]. split; [exact H2 | exact H3].
Defined.
